(** * Clinic portal: data model, page actions and their properties

    A shallow embedding of the persistent tables and of the button handlers
    of [app.py], [admin_navigation.py] and [doctor_navigation.py].  Every
    handler is a function from the state before the click to the state after
    it together with the message shown to the user.

    Conventions.
    - A [date] is the proleptic Gregorian ordinal of a Python [date]
      ([date.toordinal()]); the calendar functions are those of the standard
      [datetime] module ([_ymd2ord], [_ord2ymd], ...).  Comparison of dates is
      comparison of ordinals.
    - Text is a [string]: the list of the Unicode code points of a Python
      [str].  A literal stands for the code points of its ASCII characters.
    - A table is the list of its rows in insertion order.  No handler deletes
      a row.
    - A handler whose button is not on the page in the current state answers
      [NotRendered] and changes nothing.
    - The handlers of the doctor pages take the logged-in doctor's name as
      an argument; [main] routes a session to its pages.  The password
      check (bcrypt) is a parameter of the login page. *)

From Stdlib Require Import Strings.Byte ZArith List Bool Lia Sorted Permutation.
Import ListNotations.
Declare Scope string_scope.
Delimit Scope string_scope with string.
Open Scope string_scope.
Open Scope Z_scope.

(* ================================================================== *)
(** * Calendar arithmetic (module [datetime]) *)

Definition date := Z.

Definition DAYS_IN_MONTH (month : Z) : Z :=
  match month with
  | 1 => 31 | 2 => 28 | 3 => 31 | 4 => 30 | 5 => 31 | 6 => 30
  | 7 => 31 | 8 => 31 | 9 => 30 | 10 => 31 | 11 => 30 | 12 => 31
  | _ => -1
  end.

Definition DAYS_BEFORE_MONTH (month : Z) : Z :=
  match month with
  | 1 => 0 | 2 => 31 | 3 => 59 | 4 => 90 | 5 => 120 | 6 => 151
  | 7 => 181 | 8 => 212 | 9 => 243 | 10 => 273 | 11 => 304 | 12 => 334
  | _ => -1
  end.

Definition is_leap (year : Z) : bool :=
  (year mod 4 =? 0) && (negb (year mod 100 =? 0) || (year mod 400 =? 0)).

Definition days_before_year (year : Z) : Z :=
  let y := year - 1 in y * 365 + y / 4 - y / 100 + y / 400.

Definition days_in_month (year month : Z) : Z :=
  if (month =? 2) && is_leap year then 29 else DAYS_IN_MONTH month.

Definition days_before_month (year month : Z) : Z :=
  DAYS_BEFORE_MONTH month + (if (2 <? month) && is_leap year then 1 else 0).

Definition ymd2ord (year month day : Z) : date :=
  days_before_year year + days_before_month year month + day.

Definition DI400Y : Z := 146097.
Definition DI100Y : Z := 36524.
Definition DI4Y : Z := 1461.
Definition MAXORDINAL : Z := 3652059.

Definition ord2ymd (n0 : date) : Z * Z * Z :=
  let n := n0 - 1 in
  let n400 := n / DI400Y in let n := n mod DI400Y in
  let year := n400 * 400 + 1 in
  let n100 := n / DI100Y in let n := n mod DI100Y in
  let n4 := n / DI4Y in let n := n mod DI4Y in
  let n1 := n / 365 in let n := n mod 365 in
  let year := year + n100 * 100 + n4 * 4 + n1 in
  if (n1 =? 4) || (n100 =? 4) then (year - 1, 12, 31)
  else
    let leapyear := (n1 =? 3) && (negb (n4 =? 24) || (n100 =? 3)) in
    let month := Z.shiftr (n + 50) 5 in
    let preceding :=
      DAYS_BEFORE_MONTH month + (if (2 <? month) && leapyear then 1 else 0) in
    let '(month, preceding) :=
      if n <? preceding
      then (month - 1,
            preceding - (DAYS_IN_MONTH (month - 1)
                         + (if (month - 1 =? 2) && leapyear then 1 else 0)))
      else (month, preceding) in
    (year, month, n - preceding + 1).

Definition valid_ymd (y m d : Z) : Prop :=
  1 <= y /\ 1 <= m <= 12 /\ 1 <= d <= days_in_month y m.

Definition date_year (d : date) : Z := fst (fst (ord2ymd d)).
Definition date_month (d : date) : Z := snd (fst (ord2ymd d)).
Definition date_day (d : date) : Z := snd (ord2ymd d).

(** [date.weekday()]: Monday is 0, Sunday is 6. *)
Definition weekday (d : date) : Z := (d + 6) mod 7.

(** [d + timedelta(days=k)]; [None] is the [OverflowError] raised when the
    result leaves the range of representable dates. *)
Definition date_add_days (d : date) (k : Z) : option date :=
  let o := d + k in
  if (0 <? o) && (o <=? MAXORDINAL) then Some o else None.

(** Sequencing of computations that may raise. *)
Definition bind_opt {A B} (x : option A) (k : A -> option B) : option B :=
  match x with Some a => k a | None => None end.

Notation "x <- e ;; k" := (bind_opt e (fun x => k))
  (at level 61, e at next level, right associativity).

(** [d.replace(day=1)]. *)
Definition replace_day1 (d : date) : date :=
  ymd2ord (date_year d) (date_month d) 1.

(* ================================================================== *)
(** * Text ([str], [str.strip], truthiness) *)

(** A Python [str]: its code points, first to last. *)
Inductive string : Set :=
| EmptyString
| String (c : N) (s : string).

Bind Scope string_scope with string.

(** [s1 + s2]. *)
Fixpoint append (s1 s2 : string) : string :=
  match s1 with
  | EmptyString => s2
  | String c s1' => String c (append s1' s2)
  end.

Notation "x ++ y" := (append x y) (right associativity, at level 60)
  : string_scope.

(** Literals: an ASCII character is its own code point; text with other
    characters is written with [String] and the code point. *)
Fixpoint string_of_bytes (l : list byte) : option string :=
  match l with
  | [] => Some EmptyString
  | b :: l' =>
      match string_of_bytes l' with
      | Some s => if (to_N b <? 128)%N then Some (String (to_N b) s) else None
      | None => None
      end
  end.

Fixpoint bytes_of_string (s : string) : option (list byte) :=
  match s with
  | EmptyString => Some []
  | String c s' =>
      match of_N c, bytes_of_string s' with
      | Some b, Some l => if (c <? 128)%N then Some (b :: l) else None
      | _, _ => None
      end
  end.

String Notation string string_of_bytes bytes_of_string : string_scope.

Module String.

(** [s1 == s2]. *)
Fixpoint eqb (s1 s2 : string) : bool :=
  match s1, s2 with
  | EmptyString, EmptyString => true
  | String c1 s1', String c2 s2' => N.eqb c1 c2 && eqb s1' s2'
  | _, _ => false
  end.

End String.

Definition string_dec (s1 s2 : string) : {s1 = s2} + {s1 <> s2}.
Proof. decide equality. apply N.eq_dec. Defined.

(** [str.isspace] of one character: the code points CPython's
    [_PyUnicode_IsWhitespace] accepts (U+0009..U+000D, U+001C..U+0020,
    U+0085, U+00A0, U+1680, U+2000..U+200A, U+2028, U+2029, U+202F, U+205F,
    U+3000). *)
Definition isspace (c : N) : bool :=
  (((9 <=? c) && (c <=? 13)) || ((28 <=? c) && (c <=? 32))
   || (c =? 133) || (c =? 160)
   || (c =? 5760) || ((8192 <=? c) && (c <=? 8202))
   || (c =? 8232) || (c =? 8233) || (c =? 8239) || (c =? 8287)
   || (c =? 12288))%N.

Definition is_empty (s : string) : bool :=
  match s with EmptyString => true | String _ _ => false end.

(** Truth value of a string: non-empty. *)
Definition truthy (s : string) : bool := negb (is_empty s).

Fixpoint lstrip (s : string) : string :=
  match s with
  | EmptyString => EmptyString
  | String c s' => if isspace c then lstrip s' else s
  end.

Fixpoint rstrip (s : string) : string :=
  match s with
  | EmptyString => EmptyString
  | String c s' =>
      let t := rstrip s' in
      if isspace c && is_empty t then EmptyString else String c t
  end.

Definition strip (s : string) : string := rstrip (lstrip s).

Fixpoint all_space (s : string) : bool :=
  match s with
  | EmptyString => true
  | String c s' => isspace c && all_space s'
  end.

Fixpoint last_char (s : string) : option N :=
  match s with
  | EmptyString => None
  | String c EmptyString => Some c
  | String _ s' => last_char s'
  end.

Definition first_char (s : string) : option N :=
  match s with EmptyString => None | String c _ => Some c end.

(** No whitespace at either end. *)
Definition trimmed (s : string) : Prop :=
  (forall c, first_char s = Some c -> isspace c = false) /\
  (forall c, last_char s = Some c -> isspace c = false).

(* ================================================================== *)
(** * Tables *)

(** Table [users]; the password hash plays no part here and is left out. *)
Record User := mkUser {
  u_id : Z;
  u_username : string;
  u_role : string
}.

(** Table [patients]. *)
Record Patient := mkPatient {
  p_id : Z;
  p_name : string;
  p_mobile : string;
  p_dob : option date;
  p_reason_to_visit : option string;
  p_status : string;
  p_prescriptions : option string
}.

(** Table [appointments]; [a_time] counts microseconds since midnight. *)
Record Appointment := mkAppointment {
  a_id : Z;
  a_patient_id : Z;
  a_doctor_name : string;
  a_date : date;
  a_time : Z;
  a_reason : string;
  a_status : string;
  a_cancellation_reason : option string
}.

(** Table [doctor_assignments]. *)
Record DoctorAssignment := mkDoctorAssignment {
  da_id : Z;
  da_patient_id : Z;
  da_doctor_name : string;
  da_assignment_date : date
}.

(** The database [clinic.db]. *)
Record Store := mkStore {
  users : list User;
  patients : list Patient;
  appointments : list Appointment;
  doctor_assignments : list DoctorAssignment
}.

(** The running server: the database, the value the column default
    [default=datetime.today().date()] of [DoctorAssignment.assignment_date]
    took when the class body of [admin_navigation] was executed, and the
    [confirm_complete_<id>] keys set in each browser session. *)
Record World := mkWorld {
  db : Store;
  assignment_date_default : date;
  session_state : list (nat * Z)
}.

(** The list with position [i] replaced. *)
Fixpoint list_set {A} (i : nat) (x : A) (l : list A) : list A :=
  match l, i with
  | [], _ => []
  | _ :: t, O => x :: t
  | h :: t, S j => h :: list_set j x t
  end.

(** Primary key given to a new row: one more than the largest in use. *)
Definition next_id (ids : list Z) : Z := 1 + fold_right Z.max 0 ids.

Definition set_patients (s : Store) (ps : list Patient) : Store :=
  mkStore (users s) ps (appointments s) (doctor_assignments s).

Definition set_appointments (s : Store) (l : list Appointment) : Store :=
  mkStore (users s) (patients s) l (doctor_assignments s).

Definition set_doctor_assignments (s : Store) (l : list DoctorAssignment) : Store :=
  mkStore (users s) (patients s) (appointments s) l.

Definition set_users (s : Store) (l : list User) : Store :=
  mkStore l (patients s) (appointments s) (doctor_assignments s).

Definition set_db (w : World) (s : Store) : World :=
  mkWorld s (assignment_date_default w) (session_state w).

Definition set_session_state (w : World) (f : list (nat * Z)) : World :=
  mkWorld (db w) (assignment_date_default w) f.

Definition with_a_status (a : Appointment) (st : string) : Appointment :=
  mkAppointment (a_id a) (a_patient_id a) (a_doctor_name a) (a_date a)
    (a_time a) (a_reason a) st (a_cancellation_reason a).

Definition with_a_cancellation_reason (a : Appointment) (r : option string)
  : Appointment :=
  mkAppointment (a_id a) (a_patient_id a) (a_doctor_name a) (a_date a)
    (a_time a) (a_reason a) (a_status a) r.

Definition with_p_status (p : Patient) (st : string) : Patient :=
  mkPatient (p_id p) (p_name p) (p_mobile p) (p_dob p) (p_reason_to_visit p)
    st (p_prescriptions p).

Definition with_p_prescriptions (p : Patient) (t : option string) : Patient :=
  mkPatient (p_id p) (p_name p) (p_mobile p) (p_dob p) (p_reason_to_visit p)
    (p_status p) t.

(** [UPDATE ... WHERE id = key]. *)
Definition update_appointment (key : Z) (f : Appointment -> Appointment)
  (l : list Appointment) : list Appointment :=
  map (fun a => if a_id a =? key then f a else a) l.

Definition update_patient (key : Z) (f : Patient -> Patient)
  (l : list Patient) : list Patient :=
  map (fun p => if p_id p =? key then f p else p) l.

(** The usernames with role Doctor, as the admin's select boxes list them. *)
Definition doctors (s : Store) : list string :=
  map u_username (filter (fun u => String.eqb (u_role u) "Doctor") (users s)).

Definition mem_string (x : string) (l : list string) : bool :=
  existsb (String.eqb x) l.

(* ================================================================== *)
(** * Seeding ([init_db]) *)

Definition has_user (name : string) (s : Store) : bool :=
  existsb (fun u => String.eqb (u_username u) name) (users s).

Definition add_user (name role : string) (s : Store) : Store :=
  if has_user name s then s
  else set_users s (users s ++ [mkUser (next_id (map u_id (users s))) name role]).

Definition init_db (s : Store) : Store :=
  fold_left (fun s doctor => add_user doctor "Doctor" s)
    ["Dr. Das"; "Dr. Santra"; "Dr. Banarjee"; "Dr. Ghosh"]
    (add_user "admin" "Admin" s).

Definition empty_store : Store := mkStore [] [] [] [].

(** The server just after its first start, on day [d0].  [init_db] runs
    again at every page load; it only adds the accounts that are missing. *)
Definition initial (d0 : date) : World := mkWorld (init_db empty_store) d0 [].

(* ================================================================== *)
(** * Widgets *)

(** [d.replace(year=year)]; [None] is the [ValueError] raised for a year
    outside 1..9999 or for a day the month does not have that year. *)
Definition replace_year (d : date) (year : Z) : option date :=
  if (1 <=? year) && (year <=? 9999)
     && (date_day d <=? days_in_month year (date_month d))
  then Some (ymd2ord year (date_month d) (date_day d))
  else None.

(** Streamlit's [adjust_years]: the same day [years] later; 29 February
    becomes 28 February where the target year has none. *)
Definition adjust_years (input_date : date) (years : Z) : option date :=
  let year := date_year input_date + years in
  match replace_year input_date year with
  | Some d => Some d
  | None =>
      if (1 <=? year) && (year <=? 9999) then Some (ymd2ord year 2 28) else None
  end.

(** [st.date_input(min_value, max_value, value)]: the picker yields a date
    inside the selectable range, otherwise it keeps [value].  A call
    without [max_value] gets ten years after its default date as upper
    bound, see [manage_appointments_schedule]. *)
Definition date_input (min_value max_value : date)
  (value : option date) (entered : option date) : option date :=
  match entered with
  | Some d =>
      if (min_value <=? d) && (d <=? max_value) then Some d else value
  | None => value
  end.

(** What the user sees after a click. *)
Inductive Outcome :=
| Crashed
| NotRendered
| NoMessage
| FillAllFields
| MobileAlreadyRegistered
| RegistrationSuccessful
| LimitReached
| AlreadyAssigned
| AssignedOk
| AppointmentScheduled
| CancellationApproved
| CancellationDenied
| AddedToPatientList
| CancellationRequestSent
| ReasonRequired
| NotesSaved
| ConfirmationAsked
| MarkedCompleted
| ConfirmationCancelled.

(* ================================================================== *)
(** * [app.py]: patient registration ([show_auth_page]) *)

Definition is_some {A} (o : option A) : bool :=
  match o with Some _ => true | None => false end.

Definition show_auth_page_register (today : date) (name mobile : string)
  (dob_entered : option date) (reason : string) (w : World) : World * Outcome :=
  match date_add_days today (-30) with
  | None => (w, Crashed)
  | Some min_value =>
      let dob := date_input min_value today None dob_entered in
      if negb (forallb (fun b => b)
                 [truthy name; truthy mobile; is_some dob; truthy reason])
      then (w, FillAllFields)
      else
        match find (fun p => String.eqb (p_mobile p) (strip mobile))
                (patients (db w)) with
        | Some _ => (w, MobileAlreadyRegistered)
        | None =>
            let new_patient :=
              mkPatient (next_id (map p_id (patients (db w))))
                (strip name) (strip mobile) dob (Some (strip reason))
                "Active" None in
            (set_db w (set_patients (db w) (patients (db w) ++ [new_patient])),
             RegistrationSuccessful)
        end
  end.

(* ================================================================== *)
(** * [admin_navigation.py] *)

Definition assigned_doctors_today (today : date) (patient_id : Z) (s : Store)
  : list string :=
  map da_doctor_name
    (filter (fun a => (da_patient_id a =? patient_id)
                      && (da_assignment_date a =? today))
       (doctor_assignments s)).

(** The Assign button of the form shown for patient [patient_id]. *)
Definition manage_patients_and_assignments (today : date) (patient_id : Z)
  (selected_doctor : string) (w : World) : World * Outcome :=
  let s := db w in
  if negb (existsb (fun p => p_id p =? patient_id) (patients s)) then (w, NotRendered)
  else if negb (mem_string selected_doctor (EmptyString :: doctors s))
  then (w, NotRendered)
  else
    let assigned := assigned_doctors_today today patient_id s in
    if truthy selected_doctor then
      if (2 <=? List.length assigned)%nat then (w, LimitReached)
      else if mem_string selected_doctor assigned then (w, AlreadyAssigned)
      else
        let row :=
          mkDoctorAssignment (next_id (map da_id (doctor_assignments s)))
            patient_id selected_doctor (assignment_date_default w) in
        (set_db w (set_doctor_assignments s (doctor_assignments s ++ [row])),
         AssignedOk)
    else (w, NoMessage).

(** The Schedule Appointment button.  The date picker is called with
    [min_value] today, no [value] (it starts at today) and no [max_value]:
    its upper bound is then ten years after today, and the page cannot be
    drawn when that day does not exist. *)
Definition manage_appointments_schedule (today : date) (patient_id : Z)
  (selected_doctor_name : string) (date_entered : option date) (appt_time : Z)
  (reason : string) (w : World) : World * Outcome :=
  let s := db w in
  if negb (existsb (fun p => p_id p =? patient_id) (patients s)) then (w, NotRendered)
  else if negb (mem_string selected_doctor_name (doctors s)) then (w, NotRendered)
  else
    match adjust_years today 10 with
    | None => (w, Crashed)
    | Some max_value =>
        match date_input today max_value (Some today) date_entered with
        | None => (w, NotRendered)
        | Some appt_date =>
            let row :=
              mkAppointment (next_id (map a_id (appointments s))) patient_id
                selected_doctor_name appt_date appt_time reason "Scheduled" None in
            (set_db w (set_appointments s (appointments s ++ [row])),
             AppointmentScheduled)
        end
    end.

Definition cancellation_requests (s : Store) : list Appointment :=
  filter (fun a => String.eqb (a_status a) "Cancellation Requested") (appointments s).

(** The Approve button of request [appt_id]. *)
Definition manage_appointments_approve (appt_id : Z) (w : World)
  : World * Outcome :=
  let s := db w in
  match find (fun a => a_id a =? appt_id) (cancellation_requests s) with
  | None => (w, NotRendered)
  | Some _ =>
      (set_db w (set_appointments s
         (update_appointment appt_id (fun a => with_a_status a "Cancelled")
            (appointments s))),
       CancellationApproved)
  end.

(** The Deny button of request [appt_id]. *)
Definition manage_appointments_deny (appt_id : Z) (w : World)
  : World * Outcome :=
  let s := db w in
  match find (fun a => a_id a =? appt_id) (cancellation_requests s) with
  | None => (w, NotRendered)
  | Some _ =>
      (set_db w (set_appointments s
         (update_appointment appt_id
            (fun a => with_a_cancellation_reason (with_a_status a "Scheduled") None)
            (appointments s))),
       CancellationDenied)
  end.

(** The two clinic-wide metrics: (this week, this month); [None] when the
    date arithmetic raises. *)
Definition show_dashboard_calendar (today : date) (s : Store)
  : option (nat * nat) :=
  let year := date_year today in
  let month := date_month today in
  let start_of_month := ymd2ord year month 1 in
  later <- date_add_days start_of_month 32 ;;
  end_of_month <- date_add_days (replace_day1 later) (-1) ;;
  let appts :=
    filter (fun a => (start_of_month <=? a_date a)
                     && (a_date a <=? end_of_month))
      (appointments s) in
  week_start <- date_add_days today (- weekday today) ;;
  let weekly_appts :=
    List.length (filter (fun a => (week_start <=? a_date a)
                                  && (a_date a <=? today)) appts) in
  Some (weekly_appts, List.length appts).

(* ================================================================== *)
(** * [doctor_navigation.py] *)

Definition my_appointments (doctor_name : string) (s : Store) : list Appointment :=
  filter (fun a => String.eqb (a_doctor_name a) doctor_name
                   && mem_string (a_status a) ["Scheduled"; "Cancellation Requested"])
    (appointments s).

Definition assignment_exists (patient_id : Z) (doctor_name : string) (d : date)
  (s : Store) : bool :=
  existsb (fun x => (da_patient_id x =? patient_id)
                    && String.eqb (da_doctor_name x) doctor_name
                    && (da_assignment_date x =? d))
    (doctor_assignments s).

(** The Add to My Patient List button of appointment [appt_id]. *)
Definition manage_my_appointments_add (doctor_name : string) (appt_id : Z)
  (w : World) : World * Outcome :=
  let s := db w in
  match find (fun a => a_id a =? appt_id) (my_appointments doctor_name s) with
  | None => (w, NotRendered)
  | Some appt =>
      if String.eqb (a_status appt) "Scheduled" then
        if negb (assignment_exists (a_patient_id appt) doctor_name (a_date appt) s)
        then
          let new_assignment :=
            mkDoctorAssignment (next_id (map da_id (doctor_assignments s)))
              (a_patient_id appt) doctor_name (a_date appt) in
          (set_db w (set_doctor_assignments s
             (doctor_assignments s ++ [new_assignment])),
           AddedToPatientList)
        else (w, NotRendered)
      else (w, NotRendered)
  end.

(** The Submit Request button of the cancellation form of [appt_id]. *)
Definition manage_my_appointments_cancel (doctor_name : string) (appt_id : Z)
  (reason : string) (w : World) : World * Outcome :=
  let s := db w in
  match find (fun a => a_id a =? appt_id) (my_appointments doctor_name s) with
  | None => (w, NotRendered)
  | Some appt =>
      if String.eqb (a_status appt) "Scheduled" then
        if truthy reason then
          (set_db w (set_appointments s
             (update_appointment appt_id
                (fun a => with_a_cancellation_reason
                            (with_a_status a "Cancellation Requested")
                            (Some reason))
                (appointments s))),
           CancellationRequestSent)
        else (w, ReasonRequired)
      else (w, NotRendered)
  end.

Definition active_patients (doctor_name : string) (s : Store) : list Patient :=
  let assigned_ids :=
    map da_patient_id
      (filter (fun a => String.eqb (da_doctor_name a) doctor_name)
         (doctor_assignments s)) in
  filter (fun p => existsb (Z.eqb (p_id p)) assigned_ids
                   && String.eqb (p_status p) "Active")
    (patients s).

Definition flag_set (sid : nat) (pid : Z) (w : World) : bool :=
  existsb (fun k => (fst k =? sid)%nat && (snd k =? pid)) (session_state w).

Definition del_flag (sid : nat) (pid : Z) (w : World) : World :=
  set_session_state w
    (filter (fun k => negb ((fst k =? sid)%nat && (snd k =? pid)))
       (session_state w)).

Definition shown_to (doctor_name : string) (pid : Z) (w : World) : bool :=
  existsb (fun p => p_id p =? pid) (active_patients doctor_name (db w)).

(** The Save Notes button. *)
Definition manage_my_patients_save (doctor_name : string) (pid : Z)
  (notes : string) (w : World) : World * Outcome :=
  if shown_to doctor_name pid w then
    (set_db w (set_patients (db w)
       (update_patient pid (fun p => with_p_prescriptions p (Some notes))
          (patients (db w)))),
     NotesSaved)
  else (w, NotRendered).

(** The Mark as Completed button. *)
Definition manage_my_patients_mark (sid : nat) (doctor_name : string) (pid : Z)
  (w : World) : World * Outcome :=
  if shown_to doctor_name pid w && negb (flag_set sid pid w) then
    (set_session_state w ((sid, pid) :: session_state w), ConfirmationAsked)
  else (w, NotRendered).

(** The Yes, Complete button. *)
Definition manage_my_patients_yes (sid : nat) (doctor_name : string) (pid : Z)
  (w : World) : World * Outcome :=
  if shown_to doctor_name pid w && flag_set sid pid w then
    (del_flag sid pid
       (set_db w (set_patients (db w)
          (update_patient pid (fun p => with_p_status p "Completed")
             (patients (db w))))),
     MarkedCompleted)
  else (w, NotRendered).

(** The No, Cancel button. *)
Definition manage_my_patients_no (sid : nat) (doctor_name : string) (pid : Z)
  (w : World) : World * Outcome :=
  if shown_to doctor_name pid w && flag_set sid pid w then
    (del_flag sid pid w, ConfirmationCancelled)
  else (w, NotRendered).

(* ================================================================== *)
(** * The application as a transition system *)

(** The server process is started again on day [today]: the modules are
    imported afresh, which evaluates the column default anew, the seeding
    runs, and the browser sessions are gone. *)
Definition restart (today : date) (w : World) : World :=
  mkWorld (init_db (db w)) today [].

(** One click, with the day on which it happens where the handler reads the
    clock, or a restart of the server. *)
Inductive Op :=
| Register (today : date) (name mobile : string) (dob : option date) (reason : string)
| Assign (today : date) (patient_id : Z) (selected_doctor : string)
| Schedule (today : date) (patient_id : Z) (doctor : string)
    (date_entered : option date) (appt_time : Z) (reason : string)
| Approve (appt_id : Z)
| Deny (appt_id : Z)
| AddToMyList (doctor_name : string) (appt_id : Z)
| RequestCancel (doctor_name : string) (appt_id : Z) (reason : string)
| SaveNotes (doctor_name : string) (pid : Z) (notes : string)
| MarkCompleted (sid : nat) (doctor_name : string) (pid : Z)
| YesComplete (sid : nat) (doctor_name : string) (pid : Z)
| NoCancel (sid : nat) (doctor_name : string) (pid : Z)
| Restart (today : date).

Definition step (w : World) (op : Op) : World * Outcome :=
  match op with
  | Register today name mobile dob reason =>
      show_auth_page_register today name mobile dob reason w
  | Assign today pid doc => manage_patients_and_assignments today pid doc w
  | Schedule today pid doc d t r => manage_appointments_schedule today pid doc d t r w
  | Approve i => manage_appointments_approve i w
  | Deny i => manage_appointments_deny i w
  | AddToMyList doc i => manage_my_appointments_add doc i w
  | RequestCancel doc i r => manage_my_appointments_cancel doc i r w
  | SaveNotes doc pid notes => manage_my_patients_save doc pid notes w
  | MarkCompleted sid doc pid => manage_my_patients_mark sid doc pid w
  | YesComplete sid doc pid => manage_my_patients_yes sid doc pid w
  | NoCancel sid doc pid => manage_my_patients_no sid doc pid w
  | Restart today => (restart today w, NoMessage)
  end.

Definition run (w : World) (ops : list Op) : World :=
  fold_left (fun w op => fst (step w op)) ops w.

(** The states the server can be in: those a sequence of clicks and
    restarts leads to from a fresh database. *)
Definition reachable (w : World) : Prop :=
  exists d0 ops, w = run (initial d0) ops.

(** The doctors assigned to a patient on a date, each once. *)
Definition distinct_doctors (patient_id : Z) (d : date) (s : Store) : list string :=
  nodup string_dec (assigned_doctors_today d patient_id s).

(* ================================================================== *)
(** * Vocabulary of the statements *)

(** The month and the week of [today] as intervals of dates. *)
Definition first_day_of_month (today : date) : date :=
  ymd2ord (date_year today) (date_month today) 1.

Definition last_day_of_month (today : date) : date :=
  ymd2ord (date_year today) (date_month today)
    (days_in_month (date_year today) (date_month today)).

Definition monday_of_week (today : date) : date := today - weekday today.

Definition in_current_month (today d : date) : bool :=
  (first_day_of_month today <=? d) && (d <=? last_day_of_month today).

Definition in_current_week (today d : date) : bool :=
  (monday_of_week today <=? d) && (d <=? monday_of_week today + 6).

(** The number of appointments whose date satisfies [f]. *)
Definition count_appointments (f : date -> bool) (s : Store) : nat :=
  List.length (filter (fun a => f (a_date a)) (appointments s)).

(** The first day of the following month. *)
Definition next_month (y m : Z) : Z * Z :=
  if m =? 12 then (y + 1, 1) else (y, m + 1).

(** The new row of a successful registration. *)
Definition registered_patient (w : World) (name mobile : string) (d : date)
  (reason : string) : Patient :=
  mkPatient (next_id (map p_id (patients (db w)))) (strip name) (strip mobile)
    (Some d) (Some (strip reason)) "Active" None.

(** [t] is [s] without the whitespace around it: [s] is [t] between two
    runs of whitespace, and [t] neither begins nor ends with whitespace. *)
Definition stripped_of (s t : string) : Prop :=
  trimmed t /\
  exists l r, all_space l = true /\ all_space r = true /\
              s = (l ++ t ++ r)%string.

(** The registration form is completely and validly filled. *)
Definition form_filled (today : date) (name mobile : string)
  (dob : option date) (reason : string) : Prop :=
  30 < today <= MAXORDINAL /\
  truthy name = true /\ truthy mobile = true /\ truthy reason = true /\
  exists d, dob = Some d /\ today - 30 <= d <= today.

Definition patient_status_ok (p : Patient) : Prop :=
  p_status p = "Active" \/ p_status p = "Completed".

Definition appointment_ok (a : Appointment) : Prop :=
  (a_status a = "Scheduled" /\ a_cancellation_reason a = None) \/
  (a_status a = "Cancellation Requested" /\
   exists r, a_cancellation_reason a = Some r /\ r <> EmptyString) \/
  a_status a = "Cancelled".

(** What holds of the database in every state of the server. *)
Record Inv (w : World) : Prop := mkInv {
  inv_patient_ids : NoDup (map p_id (patients (db w)));
  inv_appointment_ids : NoDup (map a_id (appointments (db w)));
  inv_mobiles : NoDup (map p_mobile (patients (db w)));
  inv_patient_status : Forall patient_status_ok (patients (db w));
  inv_appointments : Forall appointment_ok (appointments (db w))
}.

(** The appointments table a click can leave behind. *)
Inductive appointments_step (w : World) : Op -> list Appointment -> Prop :=
| as_same op : appointments_step w op (appointments (db w))
| as_schedule today pid doc de d t r :
    appointments_step w (Schedule today pid doc de t r)
      (appointments (db w)
       ++ [mkAppointment (next_id (map a_id (appointments (db w)))) pid doc d t r
             "Scheduled" None])
| as_approve a :
    In a (appointments (db w)) -> a_status a = "Cancellation Requested" ->
    appointments_step w (Approve (a_id a))
      (update_appointment (a_id a) (fun a => with_a_status a "Cancelled")
         (appointments (db w)))
| as_deny a :
    In a (appointments (db w)) -> a_status a = "Cancellation Requested" ->
    appointments_step w (Deny (a_id a))
      (update_appointment (a_id a)
         (fun a => with_a_cancellation_reason (with_a_status a "Scheduled") None)
         (appointments (db w)))
| as_cancel a reason :
    In a (appointments (db w)) -> a_status a = "Scheduled" ->
    reason <> EmptyString ->
    appointments_step w (RequestCancel (a_doctor_name a) (a_id a) reason)
      (update_appointment (a_id a)
         (fun a => with_a_cancellation_reason
                     (with_a_status a "Cancellation Requested") (Some reason))
         (appointments (db w))).

(** The patients table a click can leave behind. *)
Inductive patients_step (w : World) : Op -> list Patient -> Prop :=
| ps_same op : patients_step w op (patients (db w))
| ps_register today name mobile d reason :
    find (fun p => String.eqb (p_mobile p) (strip mobile)) (patients (db w))
      = None ->
    patients_step w (Register today name mobile (Some d) reason)
      (patients (db w) ++ [registered_patient w name mobile d reason])
| ps_notes doc pid notes :
    patients_step w (SaveNotes doc pid notes)
      (update_patient pid (fun p => with_p_prescriptions p (Some notes))
         (patients (db w)))
| ps_complete sid doc p :
    In p (patients (db w)) -> p_status p = "Active" ->
    flag_set sid (p_id p) w = true ->
    patients_step w (YesComplete sid doc (p_id p))
      (update_patient (p_id p) (fun p => with_p_status p "Completed")
         (patients (db w))).

(** The status changes a click can make to an appointment. *)
Inductive status_edge : Op -> Appointment -> string -> Prop :=
| edge_request a reason :
    a_status a = "Scheduled" -> reason <> EmptyString ->
    status_edge (RequestCancel (a_doctor_name a) (a_id a) reason) a
      "Cancellation Requested"
| edge_approve a :
    a_status a = "Cancellation Requested" ->
    status_edge (Approve (a_id a)) a "Cancelled"
| edge_deny a :
    a_status a = "Cancellation Requested" ->
    status_edge (Deny (a_id a)) a "Scheduled".

(** The three arrows of the life cycle, and the paths they generate. *)
Inductive status_arrow : string -> string -> Prop :=
| arrow_request : status_arrow "Scheduled" "Cancellation Requested"
| arrow_approve : status_arrow "Cancellation Requested" "Cancelled"
| arrow_deny : status_arrow "Cancellation Requested" "Scheduled".

Inductive status_path : string -> string -> Prop :=
| path_stay s : status_path s s
| path_move s t u : status_arrow s t -> status_path t u -> status_path s u.

(** A small history used to instantiate the statements below: one patient,
    one appointment, a cancellation request. *)
Definition day0 : date := ymd2ord 2024 1 1.

Definition sample_history : list Op :=
  [Register day0 "Jane Doe" "9999999999" (Some day0) "fever";
   Schedule day0 1 "Dr. Das" (Some day0) 0 "fever";
   AddToMyList "Dr. Das" 1;
   RequestCancel "Dr. Das" 1 "relocating"].

Definition sample_world : World := run (initial day0) sample_history.

(** One patient, three appointments on the same day with three doctors,
    two of whom have added the patient to their lists. *)
Definition cap_history : list Op :=
  [Register day0 "Jane Doe" "9999999999" (Some day0) "fever";
   Schedule day0 1 "Dr. Das" (Some day0) 32400000000 "fever";
   Schedule day0 1 "Dr. Santra" (Some day0) 36000000000 "fever";
   Schedule day0 1 "Dr. Ghosh" (Some day0) 39600000000 "fever";
   AddToMyList "Dr. Das" 1;
   AddToMyList "Dr. Santra" 2].

(* ================================================================== *)
(** * [admin_navigation.py]: doctor statistics ([show_doctor_statistics]) *)

(** [count(distinct patient_id)] over the doctor's assignment rows. *)
Definition total_patients (doctor : string) (s : Store) : nat :=
  List.length
    (nodup Z.eq_dec
       (map da_patient_id
          (filter (fun a => String.eqb (da_doctor_name a) doctor)
             (doctor_assignments s)))).

(** The number of the doctor's appointment rows. *)
Definition total_appointments (doctor : string) (s : Store) : nat :=
  List.length
    (filter (fun a => String.eqb (a_doctor_name a) doctor) (appointments s)).

(** One box per user with role Doctor: name and the two metrics. *)
Definition show_doctor_statistics (s : Store) : list (string * nat * nat) :=
  map (fun doctor => (doctor, total_patients doctor s, total_appointments doctor s))
    (doctors s).

(* ================================================================== *)
(** * [doctor_navigation.py]: today's dashboard ([show_doctor_overview]) *)

(** [ORDER BY time]: insertion of a row into a list in ascending order. *)
Fixpoint insert_by_time (a : Appointment) (l : list Appointment)
  : list Appointment :=
  match l with
  | [] => [a]
  | b :: t =>
      if a_time a <=? a_time b then a :: b :: t else b :: insert_by_time a t
  end.

Definition order_by_time (l : list Appointment) : list Appointment :=
  fold_right insert_by_time [] l.

(** The two lists of the dashboard: the patients assigned for today and
    the appointments scheduled for today. *)
Definition show_doctor_overview (doctor_name : string) (today : date) (s : Store)
  : list Patient * list Appointment :=
  let assigned_patient_ids :=
    map da_patient_id
      (filter (fun a => String.eqb (da_doctor_name a) doctor_name
                        && (da_assignment_date a =? today))
         (doctor_assignments s)) in
  let patients_today :=
    filter (fun p => existsb (Z.eqb (p_id p)) assigned_patient_ids
                     && String.eqb (p_status p) "Active")
      (patients s) in
  let appointments_today :=
    order_by_time
      (filter (fun a => String.eqb (a_doctor_name a) doctor_name
                        && (a_date a =? today)
                        && String.eqb (a_status a) "Scheduled")
         (appointments s)) in
  (patients_today, appointments_today).

(* ================================================================== *)
(** * Browser sessions: [main], login, navigation and logout *)

(** The keys of [st.session_state] the pages read.  A missing key reads as
    [false] or as the empty text.  The [confirm_complete_<id>] keys of the
    session live in [session_state] of the [World], under the number of the
    session. *)
Record Session := mkSession {
  login_status : bool;
  username : string;
  role : string;
  logout_flow_active : bool;
  logout_flow_doctor : bool
}.

(** A session with no key at all. *)
Definition no_keys : Session := mkSession false EmptyString EmptyString false false.

(** [del st.session_state[key]] for every key of session [sid]. *)
Definition clear_session (sid : nat) (w : World) : World :=
  set_session_state w
    (filter (fun k => negb (fst k =? sid)%nat) (session_state w)).

(** The buttons of the admin pages. *)
Inductive AdminClick :=
| ClickAssign (today : date) (patient_id : Z) (selected_doctor : string)
| ClickSchedule (today : date) (patient_id : Z) (doctor : string)
    (date_entered : option date) (appt_time : Z) (reason : string)
| ClickApprove (appt_id : Z)
| ClickDeny (appt_id : Z).

(** The buttons of the doctor pages. *)
Inductive DoctorClick :=
| ClickAdd (appt_id : Z)
| ClickRequestCancel (appt_id : Z) (reason : string)
| ClickSaveNotes (pid : Z) (notes : string)
| ClickMark (pid : Z)
| ClickYes (pid : Z)
| ClickNo (pid : Z).

(** What a user can do in a browser. *)
Inductive Event :=
| EvRegister (today : date) (name mobile : string) (dob : option date)
    (reason : string)
| EvLogin (role username password : string)
| EvAdmin (c : AdminClick)
| EvDoctor (c : DoctorClick)
| EvLogoutStart
| EvLogoutYes
| EvLogoutNo.

Definition admin_op (c : AdminClick) : Op :=
  match c with
  | ClickAssign today pid doc => Assign today pid doc
  | ClickSchedule today pid doc d t r => Schedule today pid doc d t r
  | ClickApprove i => Approve i
  | ClickDeny i => Deny i
  end.

Definition doctor_op (sid : nat) (doctor_name : string) (c : DoctorClick) : Op :=
  match c with
  | ClickAdd i => AddToMyList doctor_name i
  | ClickRequestCancel i r => RequestCancel doctor_name i r
  | ClickSaveNotes pid notes => SaveNotes doctor_name pid notes
  | ClickMark pid => MarkCompleted sid doctor_name pid
  | ClickYes pid => YesComplete sid doctor_name pid
  | ClickNo pid => NoCancel sid doctor_name pid
  end.

(** The message of a failed login. *)
Inductive LoginOutcome := LoggedIn | InvalidCredentials.

(** The login forms of [show_auth_page]: the doctor's name comes from a
    select box of four names, the admin's from a text field.  [checkpw] is
    [bcrypt.checkpw] of a password against the hash stored for a user. *)
Definition show_auth_page_login (checkpw : string -> User -> bool)
  (role username password : string) (ss : Session) (w : World)
  : Session * LoginOutcome :=
  match
    find (fun u => String.eqb (u_username u) username
                   && String.eqb (u_role u) role)
      (users (db w))
  with
  | Some user =>
      if checkpw password user
      then (mkSession true username role
              (logout_flow_active ss) (logout_flow_doctor ss), LoggedIn)
      else (ss, InvalidCredentials)
  | None => (ss, InvalidCredentials)
  end.

Definition login_form_offers (role username : string) : bool :=
  (String.eqb role "Doctor"
   && mem_string username ["Dr. Das"; "Dr. Santra"; "Dr. Banarjee"; "Dr. Ghosh"])
  || String.eqb role "Admin".

Definition show_auth_page (checkpw : string -> User -> bool) (sid : nat)
  (ss : Session) (w : World) (ev : Event) : Session * World * Outcome :=
  match ev with
  | EvRegister today name mobile dob reason =>
      let r := show_auth_page_register today name mobile dob reason w in
      (ss, fst r, snd r)
  | EvLogin role username password =>
      if login_form_offers role username
      then (fst (show_auth_page_login checkpw role username password ss w), w,
            NoMessage)
      else (ss, w, NotRendered)
  | _ => (ss, w, NotRendered)
  end.

Definition show_admin_navigation (sid : nat) (ss : Session) (w : World)
  (ev : Event) : Session * World * Outcome :=
  if logout_flow_active ss then
    match ev with
    | EvLogoutYes => (no_keys, clear_session sid w, NoMessage)
    | EvLogoutNo =>
        (mkSession (login_status ss) (username ss) (role ss) false
           (logout_flow_doctor ss), w, NoMessage)
    | _ => (ss, w, NotRendered)
    end
  else
    match ev with
    | EvLogoutStart =>
        (mkSession (login_status ss) (username ss) (role ss) true
           (logout_flow_doctor ss), w, NoMessage)
    | EvAdmin c => let r := step w (admin_op c) in (ss, fst r, snd r)
    | _ => (ss, w, NotRendered)
    end.

Definition show_doctor_dashboard (sid : nat) (ss : Session) (w : World)
  (ev : Event) : Session * World * Outcome :=
  let doctor_name := username ss in
  if logout_flow_doctor ss then
    match ev with
    | EvLogoutYes => (no_keys, clear_session sid w, NoMessage)
    | EvLogoutNo =>
        (mkSession (login_status ss) (username ss) (role ss)
           (logout_flow_active ss) false, w, NoMessage)
    | _ => (ss, w, NotRendered)
    end
  else
    match ev with
    | EvLogoutStart =>
        (mkSession (login_status ss) (username ss) (role ss)
           (logout_flow_active ss) true, w, NoMessage)
    | EvDoctor c =>
        let r := step w (doctor_op sid doctor_name c) in (ss, fst r, snd r)
    | _ => (ss, w, NotRendered)
    end.

(** One run of the script for session [sid]: seed, then the page the
    session is entitled to. *)
Definition main (checkpw : string -> User -> bool) (sid : nat) (ss : Session)
  (w : World) (ev : Event) : Session * World * Outcome :=
  let w := set_db w (init_db (db w)) in
  if negb (login_status ss) then show_auth_page checkpw sid ss w ev
  else if String.eqb (role ss) "Admin" then show_admin_navigation sid ss w ev
  else if String.eqb (role ss) "Doctor" then show_doctor_dashboard sid ss w ev
  else (ss, w, NotRendered).

(** What a session in state [ss] is entitled to do to the database. *)
Definition entitled (sid : nat) (ss : Session) (op : Op) : Prop :=
  match op with
  | Register _ _ _ _ _ => login_status ss = false
  | Assign _ _ _ | Schedule _ _ _ _ _ _ | Approve _ | Deny _ =>
      login_status ss = true /\ role ss = "Admin" /\ logout_flow_active ss = false
  | AddToMyList doc _ | RequestCancel doc _ _ | SaveNotes doc _ _ =>
      login_status ss = true /\ role ss = "Doctor" /\
      logout_flow_doctor ss = false /\ doc = username ss
  | MarkCompleted sid' doc _ | YesComplete sid' doc _ | NoCancel sid' doc _ =>
      login_status ss = true /\ role ss = "Doctor" /\
      logout_flow_doctor ss = false /\ doc = username ss /\ sid' = sid
  | Restart _ => False
  end.

(** The accounts [init_db] creates. *)
Definition seeded_account (username role : string) : Prop :=
  (username = "admin" /\ role = "Admin") \/
  (In username ["Dr. Das"; "Dr. Santra"; "Dr. Banarjee"; "Dr. Ghosh"] /\
   role = "Doctor").

(** What an assignment row says: patient, doctor and day. *)
Definition assignment_key (x : DoctorAssignment) : Z * string * date :=
  (da_patient_id x, da_doctor_name x, da_assignment_date x).

(** Any click but the admin's Assign. *)
Definition not_admin_assign (op : Op) : Prop :=
  match op with
  | Assign _ _ _ => False
  | _ => True
  end.

(** Every click of the history happens on day [d], and none is a doctor's
    Add to My Patient List. *)
Definition admin_day (d : date) (op : Op) : Prop :=
  match op with
  | Assign today _ _ => today = d
  | Restart today => today = d
  | AddToMyList _ _ => False
  | _ => True
  end.

(** Ascending order of appointment times. *)
Definition time_le (a b : Appointment) : Prop := a_time a <= a_time b.

(** What a click can do to one stored appointment. *)
Inductive appointment_change : Op -> Appointment -> Appointment -> Prop :=
| ac_same op a : appointment_change op a a
| ac_approve a :
    a_status a = "Cancellation Requested" ->
    appointment_change (Approve (a_id a)) a (with_a_status a "Cancelled")
| ac_deny a :
    a_status a = "Cancellation Requested" ->
    appointment_change (Deny (a_id a)) a
      (with_a_cancellation_reason (with_a_status a "Scheduled") None)
| ac_request a reason :
    a_status a = "Scheduled" -> reason <> EmptyString ->
    appointment_change (RequestCancel (a_doctor_name a) (a_id a) reason) a
      (with_a_cancellation_reason (with_a_status a "Cancellation Requested")
         (Some reason)).

(** What a click can do to one stored patient. *)
Inductive patient_change (w : World) : Op -> Patient -> Patient -> Prop :=
| pc_same op p : patient_change w op p p
| pc_notes doc notes p :
    shown_to doc (p_id p) w = true -> p_status p = "Active" ->
    patient_change w (SaveNotes doc (p_id p) notes) p
      (with_p_prescriptions p (Some notes))
| pc_complete sid doc p :
    shown_to doc (p_id p) w = true -> flag_set sid (p_id p) w = true ->
    p_status p = "Active" ->
    patient_change w (YesComplete sid doc (p_id p)) p
      (with_p_status p "Completed").

(** The assignments table a click can leave behind. *)
Inductive assignments_step (w : World) : Op -> list DoctorAssignment -> Prop :=
| ds_same op : assignments_step w op (doctor_assignments (db w))
| ds_assign today pid doc :
    existsb (fun p => p_id p =? pid) (patients (db w)) = true ->
    In doc (doctors (db w)) ->
    (List.length (assigned_doctors_today today pid (db w)) < 2)%nat ->
    ~ In doc (assigned_doctors_today today pid (db w)) ->
    assignments_step w (Assign today pid doc)
      (doctor_assignments (db w)
       ++ [mkDoctorAssignment (next_id (map da_id (doctor_assignments (db w))))
             pid doc (assignment_date_default w)])
| ds_add appt :
    In appt (appointments (db w)) -> a_status appt = "Scheduled" ->
    assignment_exists (a_patient_id appt) (a_doctor_name appt) (a_date appt)
      (db w) = false ->
    assignments_step w (AddToMyList (a_doctor_name appt) (a_id appt))
      (doctor_assignments (db w)
       ++ [mkDoctorAssignment (next_id (map da_id (doctor_assignments (db w))))
             (a_patient_id appt) (a_doctor_name appt) (a_date appt)]).

(** Every appointment and every assignment refers to a stored patient, and
    every appointment to a doctor's account. *)
Definition references_ok (s : Store) : Prop :=
  (forall a, In a (appointments s) ->
     In (a_patient_id a) (map p_id (patients s)) /\
     In (a_doctor_name a) (doctors s)) /\
  (forall x, In x (doctor_assignments s) ->
     In (da_patient_id x) (map p_id (patients s))).

(* ================================================================== *)
(** * Properties of the calendar *)

Lemma year_decomp a b c e :
  0 <= b <= 3 -> 0 <= c <= 24 -> 0 <= e <= 3 ->
  let year := 400 * a + 100 * b + 4 * c + e + 1 in
  days_before_year year = 146097 * a + 36524 * b + 1461 * c + 365 * e /\
  is_leap year = (e =? 3) && (negb (c =? 24) || (b =? 3)).
Proof.
  intros Hb Hc He year. subst year. split.
  - unfold days_before_year. cbv zeta.
    replace (400 * a + 100 * b + 4 * c + e + 1 - 1)
      with (400 * a + 100 * b + 4 * c + e) by lia.
    Z.div_mod_to_equations. lia.
  - unfold is_leap.
    destruct (Z.eqb_spec e 3), (Z.eqb_spec c 24), (Z.eqb_spec b 3); cbn [negb orb andb];
    repeat match goal with
    | |- context [?x =? 0] => destruct (Z.eqb_spec x 0)
    end; cbn [negb orb andb]; try reflexivity; exfalso;
    Z.div_mod_to_equations; lia.
Qed.

Lemma ord2ymd_spec n : 1 <= n ->
  let '(y, m, d) := ord2ymd n in valid_ymd y m d /\ ymd2ord y m d = n.
Proof.
  intros Hn. unfold ord2ymd.
  set (a := (n - 1) / DI400Y). set (r1 := (n - 1) mod DI400Y).
  set (b := r1 / DI100Y). set (r2 := r1 mod DI100Y).
  set (c := r2 / DI4Y). set (r3 := r2 mod DI4Y).
  set (e := r3 / 365). set (r := r3 mod 365).
  assert (Ha : n - 1 = DI400Y * a + r1 /\ 0 <= r1 < DI400Y) by
    (unfold a, r1, DI400Y; split; [apply Z.div_mod; lia | apply Z.mod_pos_bound; lia]).
  assert (Hb : r1 = DI100Y * b + r2 /\ 0 <= r2 < DI100Y) by
    (unfold b, r2, DI100Y; split; [apply Z.div_mod; lia | apply Z.mod_pos_bound; lia]).
  assert (Hc : r2 = DI4Y * c + r3 /\ 0 <= r3 < DI4Y) by
    (unfold c, r3, DI4Y; split; [apply Z.div_mod; lia | apply Z.mod_pos_bound; lia]).
  assert (He : r3 = 365 * e + r /\ 0 <= r < 365) by
    (unfold e, r; split; [apply Z.div_mod; lia | apply Z.mod_pos_bound; lia]).
  clearbody a r1 b r2 c r3 e r. unfold DI400Y, DI100Y, DI4Y in *.
  assert (Ha0 : 0 <= a) by lia. assert (Hb4 : 0 <= b <= 4) by lia.
  assert (Hc24 : 0 <= c <= 24) by lia. assert (He4 : 0 <= e <= 4) by lia.
  destruct (Z.eqb_spec e 4) as [E4|E4];
    [|destruct (Z.eqb_spec b 4) as [B4|B4]]; cbn [orb].
  - (* last day of a leap year inside a four-year cycle *)
    assert (r = 0 /\ c <= 23 + (if b =? 3 then 1 else 0) /\ b <= 3)
      as (R0 & C & B).
    { destruct (Z.eqb_spec b 3); lia. }
    destruct (year_decomp a b c 3) as [D L]; try lia.
    replace (a * 400 + 1 + b * 100 + c * 4 + e - 1)
      with (400 * a + 100 * b + 4 * c + 3 + 1) by lia.
    assert (L' : is_leap (400 * a + 100 * b + 4 * c + 3 + 1) = true).
    { rewrite L.
      destruct (Z.eqb_spec c 24), (Z.eqb_spec b 3); try reflexivity. lia. }
    unfold valid_ymd, ymd2ord, days_in_month, days_before_month.
    rewrite D, L'. cbn -[Z.add Z.sub Z.mul]. lia.
  - (* last day of a 400-year cycle *)
    assert (r = 0 /\ c = 0 /\ e = 0) as (R0 & C0 & E0) by lia.
    destruct (year_decomp a 3 24 3) as [D L]; try lia.
    replace (a * 400 + 1 + b * 100 + c * 4 + e - 1)
      with (400 * a + 100 * 3 + 4 * 24 + 3 + 1) by lia.
    unfold valid_ymd, ymd2ord, days_in_month, days_before_month.
    rewrite D, L. cbn -[Z.add Z.sub Z.mul]. lia.
  - destruct (year_decomp a b c e) as [D L]; try lia.
    replace (a * 400 + 1 + b * 100 + c * 4 + e)
      with (400 * a + 100 * b + 4 * c + e + 1) by lia.
    set (leap := (e =? 3) && (negb (c =? 24) || (b =? 3))) in *.
    rewrite Z.shiftr_div_pow2 by lia. change (2 ^ 5) with 32.
    set (m := (r + 50) / 32).
    assert (Hm : 32 * m <= r + 50 < 32 * m + 32)
      by (unfold m; Z.div_mod_to_equations; lia).
    clearbody m.
    assert (Hm12 : m = 1 \/ m = 2 \/ m = 3 \/ m = 4 \/ m = 5 \/ m = 6 \/ m = 7 \/
                   m = 8 \/ m = 9 \/ m = 10 \/ m = 11 \/ m = 12) by lia.
    repeat (destruct Hm12 as [-> | Hm12]); try subst m;
      repeat match goal with
      | |- context [Z.pos ?p - 1] =>
          let v := eval vm_compute in (Z.pos p - 1) in change (Z.pos p - 1) with v
      end;
      destruct leap; cbn -[Z.add Z.sub Z.mul Z.ltb];
      match goal with |- context [?x <? ?y] => destruct (Z.ltb_spec x y) end;
      cbn -[Z.add Z.sub Z.mul] in *;
      unfold valid_ymd, ymd2ord, days_in_month, days_before_month;
      rewrite D, L; cbn -[Z.add Z.sub Z.mul]; lia.
Qed.

Lemma days_before_year_succ y :
  days_before_year (y + 1) =
  days_before_year y + 365 + (if is_leap y then 1 else 0).
Proof.
  unfold days_before_year, is_leap. cbv zeta.
  replace (y + 1 - 1) with y by lia.
  repeat match goal with
  | |- context [?x =? 0] => destruct (Z.eqb_spec x 0)
  end; cbn [negb orb andb]; Z.div_mod_to_equations; lia.
Qed.

Lemma days_before_year_mono y1 y2 :
  y1 <= y2 -> days_before_year y1 <= days_before_year y2.
Proof.
  intros H. unfold days_before_year. cbv zeta. Z.div_mod_to_equations. lia.
Qed.

Lemma days_before_year_nonneg y : 1 <= y -> 0 <= days_before_year y.
Proof.
  intros H. unfold days_before_year. cbv zeta. Z.div_mod_to_equations. lia.
Qed.

Ltac month_cases m :=
  let H := fresh "Hm" in
  assert (H : m = 1 \/ m = 2 \/ m = 3 \/ m = 4 \/ m = 5 \/ m = 6 \/ m = 7 \/
              m = 8 \/ m = 9 \/ m = 10 \/ m = 11 \/ m = 12) by lia;
  repeat (destruct H as [-> | H]); try subst m.

Lemma days_in_month_bounds y m : 1 <= m <= 12 -> 28 <= days_in_month y m <= 31.
Proof.
  intros H. unfold days_in_month. month_cases m; destruct (is_leap y); cbn; lia.
Qed.

Lemma days_before_month_succ y m :
  1 <= m <= 11 ->
  days_before_month y (m + 1) = days_before_month y m + days_in_month y m.
Proof.
  intros H. unfold days_before_month, days_in_month.
  month_cases m; destruct (is_leap y); cbn; lia.
Qed.

Lemma days_before_month_mono y m m' :
  1 <= m -> m < m' -> m' <= 12 ->
  days_before_month y m + days_in_month y m <= days_before_month y m'.
Proof.
  intros H1 H2 H3. unfold days_before_month, days_in_month.
  month_cases m; month_cases m'; try lia; destruct (is_leap y); cbn; lia.
Qed.

Lemma days_before_month_december y :
  days_before_month y 12 + days_in_month y 12 =
  365 + (if is_leap y then 1 else 0).
Proof. unfold days_before_month, days_in_month. destruct (is_leap y); cbn; lia. Qed.

Lemma days_before_month_nonneg y m : 1 <= m <= 12 -> 0 <= days_before_month y m.
Proof.
  intros H. unfold days_before_month. month_cases m; destruct (is_leap y); cbn; lia.
Qed.

(** Within one year the ordinal stays below the first day of the next. *)
Lemma ymd2ord_year_bound y m d :
  valid_ymd y m d ->
  days_before_year y < ymd2ord y m d <= days_before_year (y + 1).
Proof.
  intros (Hy & Hm & Hd). unfold ymd2ord. rewrite days_before_year_succ.
  pose proof (days_before_month_nonneg y m Hm).
  pose proof (days_before_month_december y).
  destruct (Z.eq_dec m 12) as [-> | Hne]; [lia|].
  pose proof (days_before_month_mono y m 12).
  pose proof (days_in_month_bounds y 12). lia.
Qed.

(** The ordinal grows with the date. *)
Lemma ymd2ord_lt y m d y' m' d' :
  valid_ymd y m d -> valid_ymd y' m' d' ->
  y < y' \/ (y = y' /\ (m < m' \/ (m = m' /\ d < d'))) ->
  ymd2ord y m d < ymd2ord y' m' d'.
Proof.
  intros V V' [Hy | [-> [Hm | [-> Hd]]]].
  - pose proof (ymd2ord_year_bound _ _ _ V).
    pose proof (ymd2ord_year_bound _ _ _ V').
    pose proof (days_before_year_mono (y + 1) y'). lia.
  - destruct V as (_ & ? & ?), V' as (_ & ? & ?). unfold ymd2ord.
    pose proof (days_before_month_mono y' m m'). lia.
  - unfold ymd2ord. lia.
Qed.

Lemma ymd2ord_inj y m d y' m' d' :
  valid_ymd y m d -> valid_ymd y' m' d' ->
  ymd2ord y m d = ymd2ord y' m' d' -> (y, m, d) = (y', m', d').
Proof.
  intros V V' E.
  destruct (Z.lt_trichotomy y y') as [H | [H | H]];
    [pose proof (ymd2ord_lt _ _ _ _ _ _ V V'); lia | subst y'
    | pose proof (ymd2ord_lt _ _ _ _ _ _ V' V); lia].
  destruct (Z.lt_trichotomy m m') as [H | [H | H]];
    [pose proof (ymd2ord_lt _ _ _ _ _ _ V V'); lia | subst m'
    | pose proof (ymd2ord_lt _ _ _ _ _ _ V' V); lia].
  unfold ymd2ord in E. f_equal. lia.
Qed.

Lemma ymd2ord_pos y m d : valid_ymd y m d -> 1 <= ymd2ord y m d.
Proof.
  intros V. pose proof (ymd2ord_year_bound _ _ _ V).
  destruct V as (Hy & _). pose proof (days_before_year_nonneg y Hy). lia.
Qed.

(** [fromordinal] undoes [toordinal]. *)
Lemma ord2ymd_ymd2ord y m d :
  valid_ymd y m d -> ord2ymd (ymd2ord y m d) = (y, m, d).
Proof.
  intros V. pose proof (ord2ymd_spec _ (ymd2ord_pos _ _ _ V)) as S.
  destruct (ord2ymd (ymd2ord y m d)) as [[y' m'] d'].
  destruct S as [V' E]. now apply ymd2ord_inj.
Qed.

Lemma date_fields n :
  1 <= n ->
  valid_ymd (date_year n) (date_month n) (date_day n) /\
  ymd2ord (date_year n) (date_month n) (date_day n) = n.
Proof.
  intros H. pose proof (ord2ymd_spec n H) as S.
  unfold date_year, date_month, date_day.
  destruct (ord2ymd n) as [[y m] d]. exact S.
Qed.

Lemma ymd2ord_next_month y m :
  1 <= m <= 12 ->
  ymd2ord (fst (next_month y m)) (snd (next_month y m)) 1 =
  ymd2ord y m 1 + days_in_month y m.
Proof.
  intros H. unfold next_month, ymd2ord.
  destruct (Z.eqb_spec m 12) as [-> | Hne]; cbn [fst snd].
  - rewrite days_before_year_succ.
    pose proof (days_before_month_december y).
    change (days_before_month (y + 1) 1) with 0.
    unfold days_in_month, days_before_month in *.
    destruct (is_leap y); cbn in *; lia.
  - rewrite days_before_month_succ by lia. lia.
Qed.

Lemma next_month_valid y m d :
  1 <= y -> 1 <= m <= 12 -> 1 <= d <= 28 ->
  valid_ymd (fst (next_month y m)) (snd (next_month y m)) d.
Proof.
  intros Hy Hm Hd. unfold next_month.
  destruct (Z.eqb_spec m 12); cbn [fst snd]; unfold valid_ymd;
    (split; [lia | split; [lia|]]);
    match goal with |- _ <= _ <= days_in_month ?a ?b =>
      pose proof (days_in_month_bounds a b) end; lia.
Qed.

(** [(start_of_month + timedelta(days=32)).replace(day=1) - timedelta(days=1)]
    is the last day of the month of [today]. *)
Lemma end_of_month_ymd y m :
  1 <= y -> 1 <= m <= 12 ->
  replace_day1 (ymd2ord y m 1 + 32) - 1 = ymd2ord y m (days_in_month y m).
Proof.
  intros Hy Hm.
  pose proof (days_in_month_bounds y m Hm) as B.
  pose proof (ymd2ord_next_month y m Hm) as N.
  assert (V : valid_ymd (fst (next_month y m)) (snd (next_month y m))
                (33 - days_in_month y m))
    by (apply next_month_valid; lia).
  assert (E32 : ymd2ord y m 1 + 32 =
                ymd2ord (fst (next_month y m)) (snd (next_month y m))
                  (33 - days_in_month y m))
    by (revert N; unfold ymd2ord; lia).
  unfold replace_day1, date_year, date_month.
  rewrite E32, (ord2ymd_ymd2ord _ _ _ V). cbn [fst snd].
  rewrite N. unfold ymd2ord. lia.
Qed.

Lemma end_of_month_correct today :
  1 <= today ->
  replace_day1 (first_day_of_month today + 32) - 1 = last_day_of_month today.
Proof.
  intros H. destruct (date_fields today H) as [(Hy & Hm & Hd) E].
  unfold first_day_of_month, last_day_of_month.
  now apply end_of_month_ymd.
Qed.

Lemma today_in_its_month today :
  1 <= today ->
  first_day_of_month today <= today <= last_day_of_month today.
Proof.
  intros H. destruct (date_fields today H) as [V E].
  unfold first_day_of_month, last_day_of_month.
  revert V E.
  generalize (date_year today), (date_month today), (date_day today).
  intros y m d (Hy & Hm & Hd) E. revert E. unfold ymd2ord. lia.
Qed.

Lemma weekday_bounds d : 0 <= weekday d <= 6.
Proof. unfold weekday. pose proof (Z.mod_pos_bound (d + 6) 7). lia. Qed.

Lemma monday_of_week_pos today : 1 <= today -> 1 <= monday_of_week today.
Proof.
  intros H. unfold monday_of_week, weekday. Z.div_mod_to_equations. lia.
Qed.

Lemma monday_is_monday today : weekday (monday_of_week today) = 0.
Proof.
  unfold monday_of_week, weekday. Z.div_mod_to_equations. lia.
Qed.

(** A date lies between the first and the last day of the month of [today]
    exactly when it has the year and the month of [today]. *)
Lemma in_month_ymd y m y' m' d' :
  1 <= y -> 1 <= m <= 12 -> valid_ymd y' m' d' ->
  ymd2ord y m 1 <= ymd2ord y' m' d' <= ymd2ord y m (days_in_month y m) <->
  y' = y /\ m' = m.
Proof.
  intros Hy Hm Vd.
  pose proof (days_in_month_bounds y m Hm) as B.
  assert (V1 : valid_ymd y m 1) by (unfold valid_ymd; lia).
  assert (VL : valid_ymd y m (days_in_month y m)) by (unfold valid_ymd; lia).
  split.
  - intros [L U].
    destruct (Z.lt_trichotomy y' y) as [Hlt | [-> | Hgt]].
    + pose proof (ymd2ord_lt _ _ _ _ _ _ Vd V1). lia.
    + destruct (Z.lt_trichotomy m' m) as [Hlt | [-> | Hgt]]; [|easy|].
      * pose proof (ymd2ord_lt _ _ _ _ _ _ Vd V1). lia.
      * pose proof (ymd2ord_lt _ _ _ _ _ _ VL Vd). lia.
    + pose proof (ymd2ord_lt _ _ _ _ _ _ VL Vd). lia.
  - intros [-> ->]. destruct Vd as (_ & _ & Vd). unfold ymd2ord. lia.
Qed.

Lemma in_current_month_iff today d :
  1 <= today -> 1 <= d ->
  in_current_month today d = true <->
  date_year d = date_year today /\ date_month d = date_month today.
Proof.
  intros Ht Hd.
  destruct (date_fields today Ht) as [(Hy & Hm & _) _].
  destruct (date_fields d Hd) as [Vd Ed].
  unfold in_current_month, first_day_of_month, last_day_of_month.
  rewrite andb_true_iff, !Z.leb_le.
  rewrite <- (in_month_ymd _ _ _ _ _ Hy Hm Vd), Ed. reflexivity.
Qed.

Lemma filter_filter_length {A} (f g : A -> bool) (l : list A) :
  List.length (filter g (filter f l)) =
  List.length (filter (fun a => f a && g a) l).
Proof.
  induction l as [|a l IH]; cbn; [reflexivity|].
  destruct (f a); cbn; [destruct (g a); cbn; congruence | exact IH].
Qed.

Lemma date_add_days_in_range d k :
  0 < d + k <= MAXORDINAL -> date_add_days d k = Some (d + k).
Proof.
  intros [H1 H2]. unfold date_add_days. cbv zeta.
  apply Z.ltb_lt in H1. apply Z.leb_le in H2. now rewrite H1, H2.
Qed.

(** The month of [today] as an interval of ordinals. *)
Lemma month_interval today :
  1 <= today ->
  exists k, 28 <= k <= 31 /\
    1 <= first_day_of_month today /\
    first_day_of_month today <= today /\
    today <= last_day_of_month today /\
    last_day_of_month today = first_day_of_month today + k - 1 /\
    date_day today = today - first_day_of_month today + 1.
Proof.
  intros H. destruct (date_fields today H) as [V E].
  unfold first_day_of_month, last_day_of_month.
  revert V E.
  generalize (date_year today), (date_month today), (date_day today).
  intros y m d (Hy & Hm & Hd) E.
  pose proof (days_in_month_bounds y m Hm) as B.
  pose proof (days_before_year_nonneg y Hy) as P.
  pose proof (days_before_month_nonneg y m Hm) as Q.
  exists (days_in_month y m). revert E. unfold ymd2ord. lia.
Qed.

Lemma first_day_plus_32_in_range today :
  1 <= today <= MAXORDINAL - 31 ->
  0 < first_day_of_month today + 32 <= MAXORDINAL.
Proof.
  intros [H1 H2]. destruct (month_interval today H1) as (k & Hk & F1 & F2 & F3 & F4 & F5).
  destruct (Z.eq_dec today (MAXORDINAL - 31)) as [E | Hne].
  - assert (D : date_day today = 30) by (rewrite E; vm_compute; reflexivity).
    lia.
  - lia.
Qed.

Lemma first_day_of_month_eq today :
  ymd2ord (date_year today) (date_month today) 1 = first_day_of_month today.
Proof. unfold first_day_of_month. reflexivity. Qed.

Lemma show_dashboard_calendar_eq today s :
  show_dashboard_calendar today s =
  (later <- date_add_days (first_day_of_month today) 32 ;;
   end_of_month <- date_add_days (replace_day1 later) (-1) ;;
   week_start <- date_add_days today (- weekday today) ;;
   Some (List.length
           (filter (fun a => (week_start <=? a_date a) && (a_date a <=? today))
              (filter (fun a => (first_day_of_month today <=? a_date a)
                                && (a_date a <=? end_of_month))
                 (appointments s))),
         List.length
           (filter (fun a => (first_day_of_month today <=? a_date a)
                             && (a_date a <=? end_of_month))
              (appointments s)))).
Proof.
  unfold show_dashboard_calendar. cbv zeta.
  rewrite !first_day_of_month_eq. reflexivity.
Qed.

(** C4.  The figure Appointments This Week is not the number of
    appointments of the current Monday-start week.  On Wednesday 3 January
    2024, with one appointment booked for Friday 5 January, the page shows 0
    appointments this week and 1 this month, although the appointment lies
    in the current week: days after today are left out.  On Thursday
    1 February 2024, with one appointment held on Monday 29 January, the
    page shows 0 this week, although that Monday opens the current week:
    the week is counted inside the month's list. *)
Theorem C4_weekly_metric_undercounts :
  let today := ymd2ord 2024 1 3 in
  let s := db (run (initial today)
                 [Register today "Jane Doe" "9999999999" (Some today) "fever";
                  Schedule today 1 "Dr. Das" (Some (ymd2ord 2024 1 5)) 0 "fever"]) in
  let monday := ymd2ord 2024 1 29 in
  let thursday := ymd2ord 2024 2 1 in
  let s' := db (run (initial monday)
                  [Register monday "Jane Doe" "9999999999" (Some monday) "fever";
                   Schedule monday 1 "Dr. Das" (Some monday) 0 "fever"]) in
  (map a_date (appointments s) = [ymd2ord 2024 1 5] /\
   weekday today = 2 /\ monday_of_week today = ymd2ord 2024 1 1 /\
   count_appointments (in_current_week today) s = 1%nat /\
   count_appointments (in_current_month today) s = 1%nat /\
   show_dashboard_calendar today s = Some (0%nat, 1%nat)) /\
  (map a_date (appointments s') = [monday] /\
   weekday thursday = 3 /\ monday_of_week thursday = monday /\
   count_appointments (in_current_week thursday) s' = 1%nat /\
   count_appointments (in_current_month thursday) s' = 0%nat /\
   show_dashboard_calendar thursday s' = Some (0%nat, 0%nat)).
Proof. vm_compute. repeat split; reflexivity. Qed.

(** What the page computes: the monthly metric counts the appointments
    dated from the first to the last day of the current calendar month, and
    the weekly metric counts those of them dated from the Monday of the
    current week up to today. *)
Lemma calendar_metrics_as_coded today s :
  1 <= today <= MAXORDINAL - 31 ->
  show_dashboard_calendar today s =
    Some (count_appointments
            (fun d => in_current_month today d
                      && ((monday_of_week today <=? d) && (d <=? today))) s,
          count_appointments (in_current_month today) s).
Proof.
  intros H. rewrite show_dashboard_calendar_eq.
  destruct (month_interval today (proj1 H)) as (k & Hk & F1 & F2 & F3 & F4 & F5).
  pose proof (first_day_plus_32_in_range today H) as R1.
  pose proof (end_of_month_correct today (proj1 H)) as R2.
  pose proof (monday_of_week_pos today (proj1 H)) as R3.
  pose proof (weekday_bounds today) as R4.
  rewrite (date_add_days_in_range _ _ R1). cbn [bind_opt].
  rewrite date_add_days_in_range by lia. cbn [bind_opt].
  rewrite date_add_days_in_range by (unfold monday_of_week in R3; lia).
  cbn [bind_opt].
  replace (replace_day1 (first_day_of_month today + 32) + -1)
    with (last_day_of_month today) by lia.
  replace (today + - weekday today) with (monday_of_week today)
    by (unfold monday_of_week; lia).
  unfold count_appointments, in_current_month.
  now rewrite filter_filter_length.
Qed.

(** In December 9999 the page cannot be rendered: [start_of_month +
    timedelta(days=32)] leaves the range of dates. *)
Lemma show_dashboard_calendar_overflow today s :
  MAXORDINAL - 31 < today <= MAXORDINAL ->
  show_dashboard_calendar today s = None.
Proof.
  intros H.
  assert (A : forallb (fun k =>
                match show_dashboard_calendar (MAXORDINAL - 30 + Z.of_nat k) s with
                | None => true
                | Some _ => false
                end) (seq 0 31) = true) by (vm_compute; reflexivity).
  rewrite forallb_forall in A.
  specialize (A (Z.to_nat (today - (MAXORDINAL - 30)))).
  replace (MAXORDINAL - 30 + Z.of_nat (Z.to_nat (today - (MAXORDINAL - 30))))
    with today in A by lia.
  destruct (show_dashboard_calendar today s); [|reflexivity].
  assert (false = true); [|discriminate].
  apply A. apply in_seq. lia.
Qed.

(* ================================================================== *)
(** * Properties of text *)

Lemma String_eqb_refl s : String.eqb s s = true.
Proof. induction s as [|c s IH]; cbn; [reflexivity|]. now rewrite N.eqb_refl. Qed.

Lemma String_eqb_eq s1 s2 : String.eqb s1 s2 = true <-> s1 = s2.
Proof.
  split; [|intros ->; apply String_eqb_refl].
  revert s2. induction s1 as [|c1 s1 IH]; intros [|c2 s2]; cbn;
    try discriminate; [reflexivity|].
  intros H. apply andb_true_iff in H as [Hc Hs].
  apply N.eqb_eq in Hc. apply IH in Hs. now subst.
Qed.

Lemma String_eqb_neq s1 s2 : String.eqb s1 s2 = false <-> s1 <> s2.
Proof.
  rewrite <- String_eqb_eq. destruct (String.eqb s1 s2); split; congruence.
Qed.

Lemma String_eqb_spec s1 s2 : reflect (s1 = s2) (String.eqb s1 s2).
Proof. apply iff_reflect. symmetry. apply String_eqb_eq. Qed.

(* ================================================================== *)
(** * Properties of [strip] *)

Lemma all_space_app a b :
  all_space (a ++ b)%string = all_space a && all_space b.
Proof.
  induction a as [|c a IH]; cbn; [reflexivity|].
  now rewrite IH, andb_assoc.
Qed.

Lemma lstrip_all_space l s :
  all_space l = true -> lstrip (l ++ s)%string = lstrip s.
Proof.
  induction l as [|c l IH]; cbn; [reflexivity|].
  intros H. apply andb_true_iff in H as [Hc Hl]. rewrite Hc. now apply IH.
Qed.

Lemma is_empty_rstrip s : is_empty (rstrip s) = all_space s.
Proof.
  induction s as [|c s IH]; cbn; [reflexivity|].
  rewrite IH. destruct (isspace c), (all_space s); reflexivity.
Qed.

Lemma is_empty_true s : is_empty s = true -> s = EmptyString.
Proof. destruct s; [reflexivity | discriminate]. Qed.

Lemma rstrip_all_space r : all_space r = true -> rstrip r = EmptyString.
Proof. intros H. apply is_empty_true. now rewrite is_empty_rstrip. Qed.

Lemma rstrip_app_space s r :
  all_space r = true -> rstrip (s ++ r)%string = rstrip s.
Proof.
  intros H. induction s as [|c s IH]; cbn.
  - now apply rstrip_all_space.
  - now rewrite IH.
Qed.

Lemma lstrip_app s r :
  all_space s = false -> lstrip (s ++ r)%string = (lstrip s ++ r)%string.
Proof.
  induction s as [|c s IH]; cbn; [discriminate|].
  destruct (isspace c); cbn; [exact IH | reflexivity].
Qed.

Lemma lstrip_space_only s : all_space s = true -> lstrip s = EmptyString.
Proof.
  induction s as [|c s IH]; cbn; [reflexivity|].
  intros H. apply andb_true_iff in H as [Hc H]. rewrite Hc. now apply IH.
Qed.

(** Whitespace around a text does not change what [strip] returns. *)
Lemma strip_surround l s r :
  all_space l = true -> all_space r = true ->
  strip (l ++ s ++ r)%string = strip s.
Proof.
  intros Hl Hr. unfold strip. rewrite (lstrip_all_space l _ Hl).
  destruct (all_space s) eqn:Hs.
  - rewrite (lstrip_space_only s Hs).
    rewrite lstrip_space_only by (rewrite all_space_app, Hs, Hr; reflexivity).
    reflexivity.
  - rewrite (lstrip_app s r Hs). now apply rstrip_app_space.
Qed.

Lemma lstrip_first s c : first_char (lstrip s) = Some c -> isspace c = false.
Proof.
  induction s as [|c' s IH]; cbn; [discriminate|].
  destruct (isspace c') eqn:E; cbn; [exact IH|].
  intros [= <-]. exact E.
Qed.

Lemma rstrip_first s c : first_char (rstrip s) = Some c -> first_char s = Some c.
Proof.
  destruct s as [|c' s]; cbn; [discriminate|].
  destruct (isspace c' && is_empty (rstrip s)); cbn; [discriminate | easy].
Qed.

Lemma rstrip_last s c : last_char (rstrip s) = Some c -> isspace c = false.
Proof.
  induction s as [|c' s IH]; cbn; [discriminate|].
  destruct (rstrip s) as [|c2 t] eqn:Et; cbn.
  - destruct (isspace c') eqn:E; cbn; [discriminate|].
    intros [= <-]. exact E.
  - rewrite andb_false_r. exact IH.
Qed.

Lemma strip_trimmed s : trimmed (strip s).
Proof.
  unfold trimmed, strip. split; intros c H.
  - apply rstrip_first in H. now apply lstrip_first in H.
  - now apply rstrip_last in H.
Qed.

Lemma lstrip_decomp s :
  exists l, all_space l = true /\ s = (l ++ lstrip s)%string.
Proof.
  induction s as [|c s (l & Hl & E)]; cbn.
  - now exists EmptyString.
  - destruct (isspace c) eqn:Hc.
    + exists (String c l). cbn. rewrite Hc, Hl. split; [reflexivity|].
      now rewrite <- E.
    + now exists EmptyString.
Qed.

Lemma rstrip_decomp s :
  exists r, all_space r = true /\ s = (rstrip s ++ r)%string.
Proof.
  induction s as [|c s (r & Hr & E)]; cbn.
  - now exists EmptyString.
  - destruct (isspace c && is_empty (rstrip s)) eqn:Hc.
    + apply andb_true_iff in Hc as [Hc He]. apply is_empty_true in He.
      rewrite He in E. cbn in E. subst s.
      exists (String c r). cbn. now rewrite Hc, Hr.
    + exists r. cbn. split; [exact Hr|]. now rewrite <- E.
Qed.

(** [strip] removes whitespace from both ends and nothing else. *)
Lemma strip_decomp s :
  exists l r, all_space l = true /\ all_space r = true /\
              s = (l ++ strip s ++ r)%string.
Proof.
  destruct (lstrip_decomp s) as (l & Hl & El).
  destruct (rstrip_decomp (lstrip s)) as (r & Hr & Er).
  exists l, r. repeat split; try assumption.
  unfold strip. now rewrite <- Er.
Qed.

Lemma lstrip_id s :
  (forall c, first_char s = Some c -> isspace c = false) -> lstrip s = s.
Proof.
  destruct s as [|c s]; cbn; [reflexivity|].
  intros H. now rewrite (H c eq_refl).
Qed.

Lemma rstrip_id s :
  (forall c, last_char s = Some c -> isspace c = false) -> rstrip s = s.
Proof.
  induction s as [|c s IH]; [reflexivity|].
  intros H. cbn [rstrip]. destruct s as [|c' s'].
  - cbn. now rewrite (H c eq_refl).
  - rewrite IH by (intros x Hx; apply H; exact Hx).
    cbn [is_empty]. now rewrite andb_false_r.
Qed.

Lemma strip_id s : trimmed s -> strip s = s.
Proof.
  intros [Hf Hl]. unfold strip. rewrite (lstrip_id s Hf). now apply rstrip_id.
Qed.

(** [strip s] is [s] without the whitespace around it, and nothing else
    is. *)
Lemma stripped_of_strip s : stripped_of s (strip s).
Proof.
  split; [apply strip_trimmed|].
  destruct (strip_decomp s) as (l & r & Hl & Hr & E). now exists l, r.
Qed.

Lemma stripped_of_unique s t : stripped_of s t -> t = strip s.
Proof.
  intros (Ht & l & r & Hl & Hr & ->).
  now rewrite (strip_surround l t r Hl Hr), (strip_id t Ht).
Qed.

(* ================================================================== *)
(** * Lists and keys *)

Lemma next_id_gt ids x : In x ids -> x < next_id ids.
Proof.
  unfold next_id. induction ids as [|y ids IH]; cbn [fold_right In]; [easy|].
  intros [-> | H]; [lia | specialize (IH H); lia].
Qed.

Lemma next_id_fresh ids : ~ In (next_id ids) ids.
Proof. intros H. apply next_id_gt in H. lia. Qed.

Lemma NoDup_snoc {A} (l : list A) x : NoDup l -> ~ In x l -> NoDup (l ++ [x]).
Proof.
  intros Hl Hx. apply NoDup_app; [exact Hl | repeat constructor; easy |].
  intros a Ha [<- | []]. contradiction.
Qed.

Lemma find_filter_some {A} (f g : A -> bool) l x :
  find f (filter g l) = Some x -> In x l /\ g x = true /\ f x = true.
Proof.
  intros H. apply find_some in H as [H1 H2].
  apply filter_In in H1 as [H1 H3]. auto.
Qed.

(** Two rows with the same key in a table with unique keys are one row. *)
Lemma NoDup_key_eq {A} (key : A -> Z) l x y :
  NoDup (map key l) -> In x l -> In y l -> key x = key y -> x = y.
Proof.
  induction l as [|a l IH]; cbn; [easy|].
  intros Hnd Hx Hy E. inversion Hnd as [|? ? Hn Hnd']; subst.
  destruct Hx as [-> | Hx], Hy as [-> | Hy]; try reflexivity.
  - exfalso. apply Hn. rewrite E. now apply in_map.
  - exfalso. apply Hn. rewrite <- E. now apply in_map.
  - now apply IH.
Qed.

Lemma update_appointment_ids k f l :
  (forall a, a_id (f a) = a_id a) ->
  map a_id (update_appointment k f l) = map a_id l.
Proof.
  intros Hf. unfold update_appointment. rewrite map_map. apply map_ext.
  intros a. destruct (a_id a =? k); [apply Hf | reflexivity].
Qed.

Lemma update_patient_ids k f l :
  (forall p, p_id (f p) = p_id p) ->
  map p_id (update_patient k f l) = map p_id l.
Proof.
  intros Hf. unfold update_patient. rewrite map_map. apply map_ext.
  intros p. destruct (p_id p =? k); [apply Hf | reflexivity].
Qed.

Lemma update_patient_mobiles k f l :
  (forall p, p_mobile (f p) = p_mobile p) ->
  map p_mobile (update_patient k f l) = map p_mobile l.
Proof.
  intros Hf. unfold update_patient. rewrite map_map. apply map_ext.
  intros p. destruct (p_id p =? k); [apply Hf | reflexivity].
Qed.

Lemma update_appointment_nth k f l i a :
  nth_error l i = Some a ->
  nth_error (update_appointment k f l) i =
  Some (if a_id a =? k then f a else a).
Proof.
  intros H. unfold update_appointment.
  now rewrite (map_nth_error (fun a => if a_id a =? k then f a else a) i l H).
Qed.

Lemma update_patient_nth k f l i p :
  nth_error l i = Some p ->
  nth_error (update_patient k f l) i =
  Some (if p_id p =? k then f p else p).
Proof.
  intros H. unfold update_patient.
  now rewrite (map_nth_error (fun p => if p_id p =? k then f p else p) i l H).
Qed.

Lemma update_appointment_length k f l :
  List.length (update_appointment k f l) = List.length l.
Proof. apply length_map. Qed.

Lemma update_patient_length k f l :
  List.length (update_patient k f l) = List.length l.
Proof. apply length_map. Qed.

(** On a table with unique keys the update touches one position. *)
Lemma update_appointment_unique k f l i a :
  NoDup (map a_id l) -> nth_error l i = Some a -> a_id a = k ->
  update_appointment k f l = list_set i (f a) l.
Proof.
  revert i. induction l as [|x l IH]; intros [|i] Hnd Hi Hk; cbn in *;
    try discriminate.
  - injection Hi as ->. rewrite Hk, Z.eqb_refl. f_equal.
    inversion Hnd as [|? ? Hn _]; subst.
    unfold update_appointment in *.
    rewrite <- (map_id l) at 2. apply map_ext_in. intros y Hy.
    destruct (Z.eqb_spec (a_id y) (a_id a)) as [E|]; [|reflexivity].
    exfalso. apply Hn. rewrite <- E. now apply in_map.
  - inversion Hnd as [|? ? Hn Hnd']; subst.
    destruct (Z.eqb_spec (a_id x) (a_id a)) as [E|].
    + exfalso. apply Hn. rewrite E. apply in_map. eapply nth_error_In, Hi.
    + f_equal. now apply IH.
Qed.


Lemma list_set_nth_other {A} (l : list A) i j x :
  i <> j -> nth_error (list_set i x l) j = nth_error l j.
Proof.
  revert i j. induction l as [|y l IH]; intros [|i] [|j] H; cbn; auto.
  congruence.
Qed.

(* ================================================================== *)
(** * What each handler does *)

Lemma date_input_window mn mx d d' :
  date_input mn mx None (Some d) = Some d' ->
  d' = d /\ mn <= d <= mx.
Proof.
  unfold date_input.
  destruct (Z.leb_spec mn d), (Z.leb_spec d mx); cbn; try discriminate.
  intros [= <-]. lia.
Qed.

Lemma date_input_outside mn mx d :
  d < mn \/ mx < d -> date_input mn mx None (Some d) = None.
Proof.
  intros H. unfold date_input.
  destruct (Z.leb_spec mn d), (Z.leb_spec d mx); cbn; try reflexivity; lia.
Qed.

Lemma date_add_days_some d k o : date_add_days d k = Some o -> o = d + k.
Proof.
  unfold date_add_days. cbv zeta.
  destruct ((0 <? d + k) && (d + k <=? MAXORDINAL)); [|discriminate].
  now intros [= <-].
Qed.

Lemma register_success today name mobile dob reason w :
  snd (show_auth_page_register today name mobile dob reason w)
    = RegistrationSuccessful ->
  exists d, dob = Some d /\ today - 30 <= d <= today /\
    truthy name = true /\ truthy mobile = true /\ truthy reason = true /\
    find (fun p => String.eqb (p_mobile p) (strip mobile)) (patients (db w))
      = None /\
    fst (show_auth_page_register today name mobile dob reason w) =
      set_db w (set_patients (db w)
                  (patients (db w) ++ [registered_patient w name mobile d reason])).
Proof.
  unfold show_auth_page_register.
  destruct (date_add_days today (-30)) as [mn|] eqn:Emn; [|discriminate].
  apply date_add_days_some in Emn.
  destruct (truthy name) eqn:Hn; [|discriminate].
  destruct (truthy mobile) eqn:Hm; [|discriminate].
  destruct dob as [d0|]; [|discriminate]. cbn [forallb andb negb].
  destruct (date_input mn today None (Some d0)) as [d|] eqn:Ed;
    [|discriminate].
  apply date_input_window in Ed as [-> Hw]. cbn [is_some andb].
  destruct (truthy reason) eqn:Hr; [|discriminate]. cbn [negb andb].
  destruct (find _ (patients (db w))) eqn:Ef; [discriminate|].
  intros _. exists d0. cbn [fst]. repeat split; try reflexivity; lia.
Qed.

Lemma register_unchanged today name mobile dob reason w :
  snd (show_auth_page_register today name mobile dob reason w)
    <> RegistrationSuccessful ->
  fst (show_auth_page_register today name mobile dob reason w) = w.
Proof.
  unfold show_auth_page_register.
  destruct (date_add_days today (-30)); [|reflexivity].
  destruct (negb _); [reflexivity|].
  destruct (find _ _); [reflexivity|]. cbn. congruence.
Qed.

Lemma register_duplicate today name mobile dob reason w p :
  In p (patients (db w)) -> p_mobile p = strip mobile ->
  let r := show_auth_page_register today name mobile dob reason w in
  fst r = w /\ snd r <> RegistrationSuccessful /\
  (form_filled today name mobile dob reason -> snd r = MobileAlreadyRegistered).
Proof.
  intros Hin Hmob r.
  assert (F : exists q, find (fun p => String.eqb (p_mobile p) (strip mobile))
                          (patients (db w)) = Some q).
  { destruct (find _ (patients (db w))) as [q|] eqn:E; [now exists q|].
    apply find_none with (x := p) in E; [|exact Hin].
    rewrite Hmob, String_eqb_refl in E. discriminate. }
  destruct F as [q F]. subst r. unfold show_auth_page_register.
  destruct (date_add_days today (-30)) as [mn|] eqn:Emn.
  - destruct (negb _) eqn:En.
    + cbn. repeat split; [discriminate|].
      intros (Ht & Hn & Hm & Hr & d & -> & Hd). exfalso.
      apply date_add_days_some in Emn. subst mn.
      unfold date_input in En.
      destruct (Z.leb_spec (today + -30) d), (Z.leb_spec d today); try lia.
      cbn in En. rewrite Hn, Hm, Hr in En. discriminate.
    + rewrite F. cbn. repeat split; discriminate || reflexivity.
  - cbn. repeat split; [discriminate|].
    intros ((Ht1 & Ht2) & _). exfalso. unfold date_add_days in Emn.
    cbv zeta in Emn.
    destruct (Z.ltb_spec 0 (today + -30)), (Z.leb_spec (today + -30) MAXORDINAL);
      cbn in Emn; try discriminate; lia.
Qed.

Lemma approve_spec i w :
  manage_appointments_approve i w = (w, NotRendered) \/
  exists a, In a (appointments (db w)) /\ a_id a = i /\
    a_status a = "Cancellation Requested" /\
    manage_appointments_approve i w =
      (set_db w (set_appointments (db w)
         (update_appointment i (fun a => with_a_status a "Cancelled")
            (appointments (db w)))), CancellationApproved).
Proof.
  unfold manage_appointments_approve, cancellation_requests.
  destruct (find _ _) as [a|] eqn:E; [right | now left].
  apply find_filter_some in E as (Hin & Hst & Hid).
  exists a. apply String_eqb_eq in Hst. apply Z.eqb_eq in Hid. auto.
Qed.

Lemma deny_spec i w :
  manage_appointments_deny i w = (w, NotRendered) \/
  exists a, In a (appointments (db w)) /\ a_id a = i /\
    a_status a = "Cancellation Requested" /\
    manage_appointments_deny i w =
      (set_db w (set_appointments (db w)
         (update_appointment i
            (fun a => with_a_cancellation_reason (with_a_status a "Scheduled") None)
            (appointments (db w)))), CancellationDenied).
Proof.
  unfold manage_appointments_deny, cancellation_requests.
  destruct (find _ _) as [a|] eqn:E; [right | now left].
  apply find_filter_some in E as (Hin & Hst & Hid).
  exists a. apply String_eqb_eq in Hst. apply Z.eqb_eq in Hid. auto.
Qed.

Lemma cancel_spec doc i reason w :
  (fst (manage_my_appointments_cancel doc i reason w) = w /\
   snd (manage_my_appointments_cancel doc i reason w) <> CancellationRequestSent) \/
  exists a, In a (appointments (db w)) /\ a_id a = i /\
    a_doctor_name a = doc /\ a_status a = "Scheduled" /\
    reason <> EmptyString /\
    manage_my_appointments_cancel doc i reason w =
      (set_db w (set_appointments (db w)
         (update_appointment i
            (fun a => with_a_cancellation_reason
                        (with_a_status a "Cancellation Requested") (Some reason))
            (appointments (db w)))), CancellationRequestSent).
Proof.
  unfold manage_my_appointments_cancel, my_appointments.
  destruct (find _ _) as [a|] eqn:E; [|left; split; [reflexivity | discriminate]].
  apply find_filter_some in E as (Hin & Hst & Hid).
  apply andb_true_iff in Hst as [Hdoc _].
  apply String_eqb_eq in Hdoc. apply Z.eqb_eq in Hid.
  destruct (String_eqb_spec (a_status a) "Scheduled") as [Hs|];
    [|left; split; [reflexivity | discriminate]].
  destruct reason as [|c r]; cbn [truthy is_empty negb];
    [left; split; [reflexivity | discriminate]|].
  right. exists a. repeat split; auto. discriminate.
Qed.

(* ================================================================== *)
(** * The effect of one click on each table *)

Lemma Outcome_eq_dec (x y : Outcome) : {x = y} + {x <> y}.
Proof. decide equality. Qed.

Lemma shown_to_active doc pid w :
  shown_to doc pid w = true ->
  exists p, In p (patients (db w)) /\ p_id p = pid /\ p_status p = "Active".
Proof.
  unfold shown_to, active_patients. intros H.
  apply existsb_exists in H as (p & Hin & Hid).
  apply filter_In in Hin as (Hin & Hf).
  apply andb_true_iff in Hf as [_ Hs].
  apply String_eqb_eq in Hs. apply Z.eqb_eq in Hid. now exists p.
Qed.

Lemma add_user_frame name role s :
  patients (add_user name role s) = patients s /\
  appointments (add_user name role s) = appointments s /\
  doctor_assignments (add_user name role s) = doctor_assignments s.
Proof. unfold add_user. destruct (has_user name s); cbn; auto. Qed.

Lemma fold_add_user_frame role names : forall s,
  let s' := fold_left (fun s name => add_user name role s) names s in
  patients s' = patients s /\
  appointments s' = appointments s /\
  doctor_assignments s' = doctor_assignments s.
Proof.
  induction names as [|n names IH]; intros s; cbn; [auto|].
  destruct (IH (add_user n role s)) as (-> & -> & ->).
  apply add_user_frame.
Qed.

Lemma init_db_frame s :
  patients (init_db s) = patients s /\
  appointments (init_db s) = appointments s /\
  doctor_assignments (init_db s) = doctor_assignments s.
Proof.
  unfold init_db.
  destruct (fold_add_user_frame "Doctor"
              ["Dr. Das"; "Dr. Santra"; "Dr. Banarjee"; "Dr. Ghosh"]
              (add_user "admin" "Admin" s)) as (-> & -> & ->).
  apply add_user_frame.
Qed.

Lemma init_db_patients s : patients (init_db s) = patients s.
Proof. apply init_db_frame. Qed.

Lemma init_db_appointments s : appointments (init_db s) = appointments s.
Proof. apply init_db_frame. Qed.

Ltac tidy :=
  cbn [fst snd db set_db set_patients set_appointments set_doctor_assignments
       set_session_state del_flag patients appointments doctor_assignments
       users session_state assignment_date_default] in *.

Lemma step_appointments w op :
  appointments_step w op (appointments (db (fst (step w op)))).
Proof.
  destruct op; cbn [step].
  - destruct (Outcome_eq_dec
                (snd (show_auth_page_register today name mobile dob reason w))
                RegistrationSuccessful) as [E|E].
    + apply register_success in E as (d & _ & _ & _ & _ & _ & _ & ->).
      tidy; apply as_same.
    + rewrite (register_unchanged _ _ _ _ _ _ E). tidy; apply as_same.
  - unfold manage_patients_and_assignments.
    repeat match goal with
    | |- context [if ?b then _ else _] => destruct b
    end; tidy; apply as_same.
  - unfold manage_appointments_schedule.
    destruct (negb _); [tidy; apply as_same|].
    destruct (negb _); [tidy; apply as_same|].
    destruct (adjust_years _ _); [|tidy; apply as_same].
    destruct (date_input _ _ _ _); [|tidy; apply as_same].
    tidy. eapply as_schedule; exact today.
  - destruct (approve_spec appt_id w) as [-> | (a & Hin & <- & Hst & ->)];
      [tidy; apply as_same | tidy; now apply as_approve].
  - destruct (deny_spec appt_id w) as [-> | (a & Hin & <- & Hst & ->)];
      [tidy; apply as_same | tidy; now apply as_deny].
  - unfold manage_my_appointments_add.
    destruct (find _ _); [|tidy; apply as_same].
    repeat match goal with
    | |- context [if ?b then _ else _] => destruct b
    end; tidy; apply as_same.
  - destruct (cancel_spec doctor_name appt_id reason w)
      as [[-> _] | (a & Hin & <- & <- & Hst & Hr & ->)];
      [tidy; apply as_same | tidy; now apply as_cancel].
  - unfold manage_my_patients_save. destruct (shown_to _ _ _); tidy; apply as_same.
  - unfold manage_my_patients_mark. destruct (_ && _); tidy; apply as_same.
  - unfold manage_my_patients_yes. destruct (_ && _); tidy; apply as_same.
  - unfold manage_my_patients_no. destruct (_ && _); tidy; apply as_same.
  - unfold restart. tidy. rewrite init_db_appointments. apply as_same.
Qed.

Lemma step_patients w op :
  patients_step w op (patients (db (fst (step w op)))).
Proof.
  destruct op; cbn [step].
  - destruct (Outcome_eq_dec
                (snd (show_auth_page_register today name mobile dob reason w))
                RegistrationSuccessful) as [E|E].
    + apply register_success in E as (d & -> & _ & _ & _ & _ & Hf & ->).
      tidy. now apply ps_register.
    + rewrite (register_unchanged _ _ _ _ _ _ E). tidy; apply ps_same.
  - unfold manage_patients_and_assignments.
    repeat match goal with
    | |- context [if ?b then _ else _] => destruct b
    end; tidy; apply ps_same.
  - unfold manage_appointments_schedule.
    destruct (negb _); [tidy; apply ps_same|].
    destruct (negb _); [tidy; apply ps_same|].
    destruct (adjust_years _ _); [|tidy; apply ps_same].
    destruct (date_input _ _ _ _); tidy; apply ps_same.
  - destruct (approve_spec appt_id w) as [-> | (a & _ & _ & _ & ->)]; tidy; apply ps_same.
  - destruct (deny_spec appt_id w) as [-> | (a & _ & _ & _ & ->)]; tidy; apply ps_same.
  - unfold manage_my_appointments_add.
    destruct (find _ _); [|tidy; apply ps_same].
    repeat match goal with
    | |- context [if ?b then _ else _] => destruct b
    end; tidy; apply ps_same.
  - destruct (cancel_spec doctor_name appt_id reason w)
      as [[-> _] | (a & _ & _ & _ & _ & _ & ->)]; tidy; apply ps_same.
  - unfold manage_my_patients_save.
    destruct (shown_to _ _ _); [tidy; apply ps_notes | tidy; apply ps_same].
  - unfold manage_my_patients_mark. destruct (_ && _); tidy; apply ps_same.
  - unfold manage_my_patients_yes.
    destruct (shown_to doctor_name pid w) eqn:Hs; [|tidy; apply ps_same].
    destruct (flag_set sid pid w) eqn:Hf; [|tidy; apply ps_same].
    apply shown_to_active in Hs as (p & Hin & <- & Hst).
    tidy. now apply ps_complete.
  - unfold manage_my_patients_no. destruct (_ && _); tidy; apply ps_same.
  - unfold restart. tidy. rewrite init_db_patients. apply ps_same.
Qed.

(* ================================================================== *)
(** * Invariants *)

Lemma Forall_snoc {A} (P : A -> Prop) l x :
  Forall P l -> P x -> Forall P (l ++ [x]).
Proof. intros Hl Hx. apply Forall_app. split; [exact Hl | now constructor]. Qed.

Lemma Forall_update_patient (P : Patient -> Prop) k f l :
  Forall P l -> (forall p, P p -> P (f p)) -> Forall P (update_patient k f l).
Proof.
  intros Hl Hf. unfold update_patient. apply Forall_map.
  eapply Forall_impl; [|exact Hl]. cbn. intros p Hp.
  destruct (p_id p =? k); auto.
Qed.

Lemma Forall_update_appointment (P : Appointment -> Prop) k f l :
  Forall P l -> (forall a, P a -> P (f a)) ->
  Forall P (update_appointment k f l).
Proof.
  intros Hl Hf. unfold update_appointment. apply Forall_map.
  eapply Forall_impl; [|exact Hl]. cbn. intros a Ha.
  destruct (a_id a =? k); auto.
Qed.

Lemma mobile_fresh mobile l :
  find (fun p => String.eqb (p_mobile p) mobile) l = None ->
  ~ In mobile (map p_mobile l).
Proof.
  intros Hf Hin. apply in_map_iff in Hin as (p & Hp & Hin).
  apply find_none with (x := p) in Hf; [|exact Hin].
  rewrite Hp, String_eqb_refl in Hf. discriminate.
Qed.

Lemma patients_step_Inv w op ps :
  Inv w -> patients_step w op ps ->
  NoDup (map p_id ps) /\ NoDup (map p_mobile ps) /\ Forall patient_status_ok ps.
Proof.
  intros [Hid _ Hmob Hst _] [op' | today name mobile d reason Hf | doc pid notes
                            | sid doc p Hin Hact Hflag].
  - auto.
  - rewrite !map_app. cbn [map registered_patient p_id p_mobile].
    repeat split.
    + apply NoDup_snoc; [exact Hid | apply next_id_fresh].
    + apply NoDup_snoc; [exact Hmob | now apply mobile_fresh].
    + apply Forall_snoc; [exact Hst | now left].
  - rewrite update_patient_ids, update_patient_mobiles by reflexivity.
    repeat split; try assumption.
    apply Forall_update_patient; [exact Hst | now intros q Hq].
  - rewrite update_patient_ids, update_patient_mobiles by reflexivity.
    repeat split; try assumption.
    apply Forall_update_patient; [exact Hst | intros q _; now right].
Qed.

Lemma appointments_step_Inv w op l :
  Inv w -> appointments_step w op l ->
  NoDup (map a_id l) /\ Forall appointment_ok l.
Proof.
  intros [_ Hid _ _ Hok] [op' | today pid doc de d t r | a Hin Hst | a Hin Hst
                          | a reason Hin Hst Hr].
  - auto.
  - rewrite map_app. cbn [map a_id]. split.
    + apply NoDup_snoc; [exact Hid | apply next_id_fresh].
    + apply Forall_snoc; [exact Hok | now left].
  - rewrite update_appointment_ids by reflexivity. split; [exact Hid|].
    apply Forall_update_appointment; [exact Hok|]. intros x _. now right; right.
  - rewrite update_appointment_ids by reflexivity. split; [exact Hid|].
    apply Forall_update_appointment; [exact Hok|]. intros x _. now left.
  - rewrite update_appointment_ids by reflexivity. split; [exact Hid|].
    apply Forall_update_appointment; [exact Hok|]. intros x _.
    right; left. split; [reflexivity|]. now exists reason.
Qed.

Lemma Inv_initial d0 : Inv (initial d0).
Proof. constructor; cbn; constructor. Qed.

Lemma Inv_step w op : Inv w -> Inv (fst (step w op)).
Proof.
  intros H.
  destruct (patients_step_Inv w op _ H (step_patients w op)) as (P1 & P2 & P3).
  destruct (appointments_step_Inv w op _ H (step_appointments w op)) as (A1 & A2).
  now constructor.
Qed.

Lemma Inv_run ops : forall w, Inv w -> Inv (run w ops).
Proof.
  induction ops as [|op ops IH]; intros w H; cbn; [exact H|].
  apply IH. now apply Inv_step.
Qed.

Lemma reachable_Inv w : reachable w -> Inv w.
Proof. intros (d0 & ops & ->). apply Inv_run, Inv_initial. Qed.

Lemma reachable_step w op : reachable w -> reachable (fst (step w op)).
Proof.
  intros (d0 & ops & ->). exists d0, (ops ++ [op])%list.
  unfold run. now rewrite fold_left_app.
Qed.

Lemma reachable_run w ops : reachable w -> reachable (run w ops).
Proof.
  intros (d0 & ops0 & ->). exists d0, (ops0 ++ ops)%list.
  unfold run. now rewrite fold_left_app.
Qed.

Lemma reachable_initial d0 : reachable (initial d0).
Proof. now exists d0, []. Qed.

(* ================================================================== *)
(** * Appointment life cycle *)

Lemma nth_error_snoc_new {A} (l : list A) x i y :
  (List.length l <= i)%nat -> nth_error (l ++ [x]) i = Some y -> y = x.
Proof.
  intros Hi H. rewrite nth_error_app2 in H by exact Hi.
  destruct (i - List.length l)%nat as [|n]; cbn in H; [congruence|].
  destruct n; discriminate.
Qed.

Lemma nth_error_beyond {A} (l : list A) i y :
  (List.length l <= i)%nat -> nth_error l i = Some y -> False.
Proof. intros Hi H. apply nth_error_None in Hi. congruence. Qed.

Lemma nth_error_snoc_old {A} (l : list A) x i y :
  nth_error l i = Some y -> nth_error (l ++ [x]) i = Some y.
Proof.
  intros H. rewrite nth_error_app1; [exact H|].
  apply nth_error_Some. congruence.
Qed.

Lemma status_edge_arrow op a s' :
  status_edge op a s' -> status_arrow (a_status a) s'.
Proof. intros [a0 r H _ | a0 H | a0 H]; rewrite H; constructor. Qed.

Lemma status_path_trans s t u :
  status_path s t -> status_path t u -> status_path s u.
Proof.
  induction 1 as [|s t v A P IH]; intros Q; [exact Q|].
  eapply path_move; [exact A | now apply IH].
Qed.

(** What one click does to a stored appointment. *)
Lemma step_status_edge w op i a :
  Inv w -> nth_error (appointments (db w)) i = Some a ->
  exists a', nth_error (appointments (db (fst (step w op)))) i = Some a' /\
    a_id a' = a_id a /\
    (a_status a' = a_status a \/ status_edge op a (a_status a')).
Proof.
  intros [_ Hid _ _ _] Hi. set (l := appointments (db w)) in *.
  pose proof (nth_error_In _ _ Hi) as Hin.
  assert (U : forall k f a0,
             In a0 l -> a_id a0 = k -> (forall x, a_id (f x) = a_id x) ->
             exists a', nth_error (update_appointment k f l) i = Some a' /\
               a_id a' = a_id a /\ (a' = a \/ (a = a0 /\ a' = f a0))).
  { intros k f a0 Hin0 Hk Hf. rewrite (update_appointment_nth k f l i a Hi).
    eexists. split; [reflexivity|].
    destruct (Z.eqb_spec (a_id a) k) as [E|E]; [|now auto].
    split; [apply Hf|]. right.
    assert (a = a0) by (apply (NoDup_key_eq a_id l); congruence).
    now subst. }
  destruct (step_appointments w op)
    as [op' | today pid doc de d t r | a0 Hin0 Hst | a0 Hin0 Hst
        | a0 reason Hin0 Hst Hr]; fold l.
  - exists a. now auto.
  - exists a. split; [now apply nth_error_snoc_old | now auto].
  - destruct (U (a_id a0) (fun a => with_a_status a "Cancelled") a0)
      as (a' & -> & Hk & [-> | [-> ->]]); auto; eexists;
      (split; [reflexivity|]); split; auto.
    right; now constructor.
  - destruct (U (a_id a0)
                (fun a => with_a_cancellation_reason
                            (with_a_status a "Scheduled") None) a0)
      as (a' & -> & Hk & [-> | [-> ->]]); auto; eexists;
      (split; [reflexivity|]); split; auto.
    right; now constructor.
  - destruct (U (a_id a0)
                (fun a => with_a_cancellation_reason
                            (with_a_status a "Cancellation Requested")
                            (Some reason)) a0)
      as (a' & -> & Hk & [-> | [-> ->]]); auto; eexists;
      (split; [reflexivity|]); split; auto.
    right; now constructor.
Qed.

(** A row a click adds to the appointments is Scheduled. *)
Lemma step_created_scheduled w op i a' :
  (List.length (appointments (db w)) <= i)%nat ->
  nth_error (appointments (db (fst (step w op)))) i = Some a' ->
  a_status a' = "Scheduled".
Proof.
  intros Hi. destruct (step_appointments w op)
    as [op' | today pid doc de d t r | a0 Hin0 Hst | a0 Hin0 Hst
        | a0 reason Hin0 Hst Hr]; intros H.
  - now apply nth_error_beyond in H.
  - apply nth_error_snoc_new in H; [now subst | exact Hi].
  - apply nth_error_beyond in H; [easy | now rewrite update_appointment_length].
  - apply nth_error_beyond in H; [easy | now rewrite update_appointment_length].
  - apply nth_error_beyond in H; [easy | now rewrite update_appointment_length].
Qed.

(** Along any sequence of clicks the status of a stored appointment
    follows the arrows. *)
Lemma run_status_path ops : forall w i a,
  Inv w -> nth_error (appointments (db w)) i = Some a ->
  exists a', nth_error (appointments (db (run w ops))) i = Some a' /\
    a_id a' = a_id a /\ status_path (a_status a) (a_status a').
Proof.
  induction ops as [|op ops IH]; intros w i a HI Hi; cbn.
  - exists a. repeat split; [exact Hi | constructor].
  - destruct (step_status_edge w op i a HI Hi) as (a1 & H1 & Hid1 & Hs1).
    destruct (IH _ i a1 (Inv_step w op HI) H1) as (a' & H' & Hid' & Hp).
    exists a'. repeat split; [exact H' | congruence |].
    destruct Hs1 as [E | E].
    + now rewrite <- E.
    + eapply path_move; [eapply status_edge_arrow, E | exact Hp].
Qed.

(** C2. In every state of the server and for every click: no stored
    appointment has a status other than Scheduled, Cancellation Requested
    or Cancelled; each stored appointment keeps its place and its key, and
    its status either stays or moves along Scheduled -> Cancellation
    Requested (the doctor's request), Cancellation Requested -> Cancelled
    (the admin's approval) or Cancellation Requested -> Scheduled (the
    admin's denial); a Cancelled appointment stays Cancelled; an appointment
    the click creates is Scheduled; and along any sequence of clicks the
    status of an appointment follows a path of these three arrows. *)
Theorem C2_status_transitions w op :
  reachable w ->
  let l := appointments (db w) in
  let l' := appointments (db (fst (step w op))) in
  (forall a, In a l ->
     a_status a = "Scheduled" \/ a_status a = "Cancellation Requested" \/
     a_status a = "Cancelled") /\
  (forall i a, nth_error l i = Some a ->
     exists a', nth_error l' i = Some a' /\ a_id a' = a_id a /\
       (a_status a' = a_status a \/ status_edge op a (a_status a')) /\
       (a_status a = "Cancelled" -> a_status a' = "Cancelled")) /\
  (forall i a', (List.length l <= i)%nat -> nth_error l' i = Some a' ->
     a_status a' = "Scheduled") /\
  (forall ops i a, nth_error l i = Some a ->
     exists a', nth_error (appointments (db (run w ops))) i = Some a' /\
       a_id a' = a_id a /\ status_path (a_status a) (a_status a')).
Proof.
  intros R l l'. pose proof (reachable_Inv w R) as HI.
  split; [|split; [|split]].
  - intros a Ha. pose proof (inv_appointments w HI) as Hok.
    rewrite Forall_forall in Hok.
    destruct (Hok a Ha) as [[? _] | [[? _] | ?]]; auto.
  - intros i a Hi.
    destruct (step_status_edge w op i a HI Hi) as (a' & H' & Hid & Hs).
    exists a'. repeat split; try assumption.
    intros Hc. destruct Hs as [E | E]; [congruence|].
    apply status_edge_arrow in E. rewrite Hc in E. inversion E.
  - intros i a'. apply step_created_scheduled.
  - intros ops i a. now apply run_status_path.
Qed.

Lemma sample_world_reachable : reachable sample_world.
Proof. exists day0, sample_history. reflexivity. Defined.

Lemma C2_status_transitions_witness :
  reachable sample_world /\
  forall a, In a (appointments (db sample_world)) ->
    a_status a = "Scheduled" \/ a_status a = "Cancellation Requested" \/
    a_status a = "Cancelled".
Proof.
  split; [exact sample_world_reachable|].
  exact (proj1 (C2_status_transitions sample_world (Approve 1)
                  sample_world_reachable)).
Defined.

(* ================================================================== *)
(** * Patient status *)

(** C9. In every state of the server every patient is Active or Completed;
    a click leaves each stored patient in place with its key, and changes
    its status only when it is the Yes, Complete button of that patient,
    pressed in a session where the confirmation was pending, the patient
    being Active before and Completed after; a Completed patient stays
    Completed; a patient the click creates is Active.  And the confirmed
    action does complete the case: for a patient on the doctor's page,
    Mark as Completed makes the confirmation pending and changes no table,
    and Yes, Complete with the confirmation pending turns that patient's
    row into the same row with status Completed. *)
Theorem C9_patient_status w op :
  reachable w ->
  let l := patients (db w) in
  let l' := patients (db (fst (step w op))) in
  (forall p, In p l -> p_status p = "Active" \/ p_status p = "Completed") /\
  (forall i p, nth_error l i = Some p ->
     exists p', nth_error l' i = Some p' /\ p_id p' = p_id p /\
       (p_status p' = p_status p \/
        exists sid doc, op = YesComplete sid doc (p_id p) /\
          flag_set sid (p_id p) w = true /\
          p_status p = "Active" /\ p_status p' = "Completed") /\
       (p_status p = "Completed" -> p_status p' = "Completed")) /\
  (forall i p', (List.length l <= i)%nat -> nth_error l' i = Some p' ->
     p_status p' = "Active") /\
  (forall sid doc i p,
     nth_error l i = Some p -> shown_to doc (p_id p) w = true ->
     p_status p = "Active" /\
     (flag_set sid (p_id p) w = false ->
      let w1 := fst (step w (MarkCompleted sid doc (p_id p))) in
      snd (step w (MarkCompleted sid doc (p_id p))) = ConfirmationAsked /\
      db w1 = db w /\ flag_set sid (p_id p) w1 = true /\
      shown_to doc (p_id p) w1 = true) /\
     (flag_set sid (p_id p) w = true ->
      snd (step w (YesComplete sid doc (p_id p))) = MarkedCompleted /\
      nth_error (patients (db (fst (step w (YesComplete sid doc (p_id p)))))) i =
        Some (with_p_status p "Completed"))).
Proof.
  intros R l l'. pose proof (reachable_Inv w R) as [Hid _ _ Hst _].
  fold l in Hid, Hst. split; [|split; [|split]].
  - intros p Hp. rewrite Forall_forall in Hst. exact (Hst p Hp).
  - intros i p Hi. pose proof (nth_error_In _ _ Hi) as Hin.
    subst l'. destruct (step_patients w op)
      as [op' | today name mobile d reason Hf | doc pid notes
          | sid doc p0 Hin0 Hact Hflag]; fold l.
    + exists p. now auto.
    + exists p. split; [now apply nth_error_snoc_old | now auto].
    + rewrite (update_patient_nth _ _ l i p Hi). eexists.
      split; [reflexivity|]. destruct (p_id p =? pid); cbn; auto.
    + rewrite (update_patient_nth _ _ l i p Hi). eexists.
      split; [reflexivity|].
      destruct (Z.eqb_spec (p_id p) (p_id p0)) as [E|E]; [|now auto].
      assert (p = p0)
        by (apply (NoDup_key_eq p_id l); [exact Hid | exact Hin | exact Hin0 | exact E]).
      subst p0.
      cbn. split; [reflexivity|]. split; [|reflexivity].
      right. exists sid, doc. auto.
  - intros i p' Hi. subst l'. destruct (step_patients w op)
      as [op' | today name mobile d reason Hf | doc pid notes
          | sid doc p0 Hin0 Hact Hflag]; fold l; intros H.
    + now apply nth_error_beyond in H.
    + apply nth_error_snoc_new in H; [now subst | exact Hi].
    + apply nth_error_beyond in H; [easy | now rewrite update_patient_length].
    + apply nth_error_beyond in H; [easy | now rewrite update_patient_length].
  - intros sid doc i p Hi Hs. pose proof (nth_error_In _ _ Hi) as Hin.
    split; [|split].
    + destruct (shown_to_active doc (p_id p) w Hs) as (q & Hq & E & Hact).
      now rewrite (NoDup_key_eq p_id l p q Hid Hin Hq (eq_sym E)).
    + intros Hf. cbn [step]. unfold manage_my_patients_mark.
      rewrite Hs, Hf. cbn [andb negb fst snd].
      repeat split; [|exact Hs].
      unfold flag_set. cbn [session_state set_session_state existsb fst snd].
      now rewrite Nat.eqb_refl, Z.eqb_refl.
    + intros Hf. cbn [step]. unfold manage_my_patients_yes.
      rewrite Hs, Hf. cbn [andb fst snd]. split; [reflexivity|].
      unfold del_flag. cbn [db set_session_state set_db patients set_patients].
      fold l. rewrite (update_patient_nth _ _ l i p Hi).
      now rewrite Z.eqb_refl.
Qed.

Lemma C9_patient_status_witness :
  let w := run (initial day0) (sample_history ++ [MarkCompleted 0%nat "Dr. Das" 1]) in
  reachable w /\
  flag_set 0%nat 1 w = true /\
  nth_error (patients (db w)) 0 =
    Some (mkPatient 1 "Jane Doe" "9999999999" (Some day0) (Some "fever")
            "Active" None) /\
  nth_error (patients (db (fst (step w (YesComplete 0%nat "Dr. Das" 1))))) 0 =
    Some (mkPatient 1 "Jane Doe" "9999999999" (Some day0) (Some "fever")
            "Completed" None).
Proof.
  assert (R : reachable (run (initial day0)
                           (sample_history ++ [MarkCompleted 0%nat "Dr. Das" 1])))
    by (exists day0, (sample_history ++ [MarkCompleted 0%nat "Dr. Das" 1])%list;
        reflexivity).
  split; [exact R|]. split; [reflexivity|]. split; [reflexivity|].
  destruct (C9_patient_status _ (YesComplete 0%nat "Dr. Das" 1) R)
    as (_ & _ & _ & H).
  destruct (H 0%nat "Dr. Das" 0%nat
              (mkPatient 1 "Jane Doe" "9999999999" (Some day0) (Some "fever")
                 "Active" None) eq_refl eq_refl) as (_ & _ & Yes).
  exact (proj2 (Yes eq_refl)).
Defined.

(* ================================================================== *)
(** * Cancellation requests *)

Lemma find_key_filter (g : Appointment -> bool) l a :
  NoDup (map a_id l) -> In a l -> g a = true ->
  find (fun x => a_id x =? a_id a) (filter g l) = Some a.
Proof.
  induction l as [|x l IH]; cbn; [easy|].
  intros Hnd [-> | Hin] Hg; inversion Hnd as [|? ? Hn Hnd']; subst.
  - rewrite Hg. cbn. now rewrite Z.eqb_refl.
  - assert (Hne : a_id x <> a_id a).
    { intros E. apply Hn. rewrite E. now apply in_map. }
    destruct (g x); cbn.
    + destruct (Z.eqb_spec (a_id x) (a_id a)); [contradiction | now apply IH].
    + now apply IH.
Qed.

(** C7. For a Scheduled appointment of the doctor (whose cancellation
    reason is null), a request with an empty reason is rejected and leaves
    the whole state as it was; with a non-empty reason the appointment, and
    nothing else, changes: its status becomes Cancellation Requested and its
    cancellation reason the text given. *)
Theorem C7_request_cancel w doc i a reason :
  reachable w ->
  nth_error (appointments (db w)) i = Some a ->
  a_doctor_name a = doc -> a_status a = "Scheduled" ->
  a_cancellation_reason a = None /\
  (reason = EmptyString ->
   step w (RequestCancel doc (a_id a) reason) = (w, ReasonRequired)) /\
  (reason <> EmptyString ->
   step w (RequestCancel doc (a_id a) reason) =
     (set_db w (set_appointments (db w)
        (list_set i
           (mkAppointment (a_id a) (a_patient_id a) (a_doctor_name a) (a_date a)
              (a_time a) (a_reason a) "Cancellation Requested" (Some reason))
           (appointments (db w)))),
      CancellationRequestSent)).
Proof.
  intros R Hi Hdoc Hst. pose proof (reachable_Inv w R) as [_ Hid _ _ Hok].
  pose proof (nth_error_In _ _ Hi) as Hin.
  assert (Hfind : find (fun x => a_id x =? a_id a) (my_appointments doc (db w))
                  = Some a).
  { unfold my_appointments. apply find_key_filter; try assumption.
    rewrite Hdoc, Hst, String_eqb_refl. reflexivity. }
  split; [|split].
  - rewrite Forall_forall in Hok. specialize (Hok a Hin).
    destruct Hok as [[_ H] | [[H _] | H]]; [exact H | |];
      rewrite Hst in H; discriminate.
  - intros ->. cbn [step]. unfold manage_my_appointments_cancel.
    rewrite Hfind, Hst. reflexivity.
  - intros Hr. cbn [step]. unfold manage_my_appointments_cancel.
    rewrite Hfind, Hst. cbn [String.eqb N.eqb Pos.eqb andb].
    destruct reason as [|c r]; [contradiction|]. cbn [truthy is_empty negb].
    now rewrite (update_appointment_unique _ _ _ i a Hid Hi eq_refl).
Qed.

Lemma C7_request_cancel_witness :
  step (run (initial day0) (firstn 3 sample_history))
    (RequestCancel "Dr. Das" 1 EmptyString) =
  (run (initial day0) (firstn 3 sample_history), ReasonRequired).
Proof.
  assert (R : reachable (run (initial day0) (firstn 3 sample_history)))
    by (exists day0, (firstn 3 sample_history); reflexivity).
  refine (proj1 (proj2 (C7_request_cancel _ "Dr. Das" 0%nat
            (mkAppointment 1 1 "Dr. Das" day0 0 "fever" "Scheduled" None) EmptyString
            R _ _ _)) eq_refl); reflexivity.
Defined.



(* ================================================================== *)
(** * Registration *)

(** C5. A registration submitted with a date of birth before today minus
    30 days or after today fails (the picker keeps no date and the form is
    reported incomplete, or the page raises while computing the window) and
    leaves the whole state, hence the patients, as it was. *)
Theorem C5_dob_window w today name mobile d reason :
  d < today - 30 \/ today < d ->
  fst (step w (Register today name mobile (Some d) reason)) = w /\
  (snd (step w (Register today name mobile (Some d) reason)) = FillAllFields \/
   snd (step w (Register today name mobile (Some d) reason)) = Crashed).
Proof.
  intros H. cbn [step]. unfold show_auth_page_register.
  destruct (date_add_days today (-30)) as [mn|] eqn:Emn; [|now auto].
  apply date_add_days_some in Emn. subst mn.
  rewrite date_input_outside by lia.
  cbn [forallb is_some]. destruct (truthy name), (truthy mobile); cbn; auto.
Qed.

Lemma C5_dob_window_witness :
  fst (step sample_world
         (Register day0 "John Roe" "8888888888" (Some (day0 - 31)) "cough"))
  = sample_world.
Proof.
  refine (proj1 (C5_dob_window sample_world day0 "John Roe" "8888888888"
                   (day0 - 31) "cough" _)).
  left. vm_compute. reflexivity.
Defined.

Lemma step_mobiles_kept w op m :
  In m (map p_mobile (patients (db w))) ->
  In m (map p_mobile (patients (db (fst (step w op))))).
Proof.
  intros H. destruct (step_patients w op)
    as [op' | today name mobile d reason Hf | doc pid notes
        | sid doc p0 Hin0 Hact Hflag].
  - exact H.
  - rewrite map_app. apply in_or_app. now left.
  - now rewrite update_patient_mobiles by reflexivity.
  - now rewrite update_patient_mobiles by reflexivity.
Qed.

Lemma run_mobiles_kept ops : forall w m,
  In m (map p_mobile (patients (db w))) ->
  In m (map p_mobile (patients (db (run w ops)))).
Proof.
  induction ops as [|op ops IH]; intros w m H; cbn; [exact H|].
  apply IH. now apply step_mobiles_kept.
Qed.

(** After a successful registration the stripped mobile is stored. *)
Lemma register_stores_mobile today name mobile dob reason w :
  snd (step w (Register today name mobile dob reason)) = RegistrationSuccessful ->
  In (strip mobile)
    (map p_mobile (patients (db (fst (step w (Register today name mobile dob reason)))))).
Proof.
  cbn [step]. intros H.
  apply register_success in H as (d & _ & _ & _ & _ & _ & _ & ->). tidy.
  rewrite map_app. apply in_or_app. right. now left.
Qed.

(** A registration whose stripped mobile is already stored is refused. *)
Lemma register_refused today name mobile dob reason w :
  In (strip mobile) (map p_mobile (patients (db w))) ->
  fst (step w (Register today name mobile dob reason)) = w /\
  snd (step w (Register today name mobile dob reason)) <> RegistrationSuccessful /\
  (form_filled today name mobile dob reason ->
   snd (step w (Register today name mobile dob reason)) = MobileAlreadyRegistered).
Proof.
  intros H. apply in_map_iff in H as (p & Hp & Hin). cbn [step].
  exact (register_duplicate today name mobile dob reason w p Hin Hp).
Qed.

(** C6. In every state of the server the stored mobiles are pairwise
    different; and once a registration with some mobile has succeeded, a
    later registration with the same mobile, whatever happened in between,
    creates no row and changes nothing, and, its form being filled, is
    answered by the duplicate-mobile error. *)
Theorem C6_unique_mobile w :
  reachable w ->
  NoDup (map p_mobile (patients (db w))) /\
  forall t1 n1 m d1 r1,
    snd (step w (Register t1 n1 m d1 r1)) = RegistrationSuccessful ->
    forall ops t2 n2 d2 r2,
      let w2 := run (fst (step w (Register t1 n1 m d1 r1))) ops in
      fst (step w2 (Register t2 n2 m d2 r2)) = w2 /\
      snd (step w2 (Register t2 n2 m d2 r2)) <> RegistrationSuccessful /\
      (form_filled t2 n2 m d2 r2 ->
       snd (step w2 (Register t2 n2 m d2 r2)) = MobileAlreadyRegistered).
Proof.
  intros R. split; [apply (inv_mobiles w (reachable_Inv w R))|].
  intros t1 n1 m d1 r1 Hok ops t2 n2 d2 r2 w2.
  apply register_refused. apply run_mobiles_kept.
  now apply register_stores_mobile.
Qed.

Lemma C6_unique_mobile_witness :
  reachable sample_world /\
  NoDup (map p_mobile (patients (db sample_world))).
Proof.
  split; [exact sample_world_reachable|].
  exact (proj1 (C6_unique_mobile sample_world sample_world_reachable)).
Defined.

(** C10. A successful registration appends one patient whose name, mobile
    and reason for visit are the submitted texts without the whitespace
    around them: each submitted text is the stored one between two runs of
    whitespace, the stored one has no whitespace left at either end, and
    no other text fits; and a later registration whose mobile differs from
    the first only by whitespace around it creates no row and, its form
    being filled, is answered by the duplicate-mobile error. *)
Theorem C10_registration_strips w t1 n1 m1 d1 r1 :
  snd (step w (Register t1 n1 m1 d1 r1)) = RegistrationSuccessful ->
  let w1 := fst (step w (Register t1 n1 m1 d1 r1)) in
  (exists p r, patients (db w1) = (patients (db w) ++ [p])%list /\
     p_reason_to_visit p = Some r /\
     stripped_of n1 (p_name p) /\ stripped_of m1 (p_mobile p) /\
     stripped_of r1 r /\
     (forall t, stripped_of n1 t -> t = p_name p) /\
     (forall t, stripped_of m1 t -> t = p_mobile p) /\
     (forall t, stripped_of r1 t -> t = r) /\
     p_name p = strip n1 /\ p_mobile p = strip m1 /\ r = strip r1 /\
     trimmed (strip n1) /\ trimmed (strip m1) /\ trimmed (strip r1)) /\
  forall l1 e1 l2 e2 core ops t2 n2 m2 d2 r2,
    all_space l1 = true -> all_space e1 = true ->
    all_space l2 = true -> all_space e2 = true ->
    m1 = (l1 ++ core ++ e1)%string -> m2 = (l2 ++ core ++ e2)%string ->
    let w2 := run w1 ops in
    fst (step w2 (Register t2 n2 m2 d2 r2)) = w2 /\
    snd (step w2 (Register t2 n2 m2 d2 r2)) <> RegistrationSuccessful /\
    (form_filled t2 n2 m2 d2 r2 ->
     snd (step w2 (Register t2 n2 m2 d2 r2)) = MobileAlreadyRegistered).
Proof.
  intros Hok w1. split.
  - pose proof Hok as H. cbn [step] in H.
    apply register_success in H as (d & _ & _ & _ & _ & _ & _ & E).
    subst w1. cbn [step]. rewrite E. tidy.
    exists (registered_patient w n1 m1 d r1), (strip r1).
    cbn [registered_patient p_name p_mobile p_reason_to_visit].
    repeat split; try apply strip_trimmed; try apply strip_decomp;
      try apply stripped_of_unique.
  - intros l1 e1 l2 e2 core ops t2 n2 m2 d2 r2 Hl1 He1 Hl2 He2 E1 E2 w2.
    apply register_refused. apply run_mobiles_kept.
    replace (strip m2) with (strip m1)
      by (rewrite E1, E2, !strip_surround by assumption; reflexivity).
    now apply register_stores_mobile.
Qed.

Lemma C10_registration_strips_witness :
  let n1 := String 8195 "Jane Doe " in
  let m1 := String 12288 " 9999999999" in
  let m2 := String 57 (String 57 (String 57 (String 57 (String 57 (String 57
              (String 57 (String 57 (String 57 (String 57
                (String 160 (String 8195 EmptyString))))))))))) in
  let w1 := fst (step (initial day0) (Register day0 n1 m1 (Some day0) "fever ")) in
  snd (step (initial day0) (Register day0 n1 m1 (Some day0) "fever "))
    = RegistrationSuccessful /\
  map (fun p => (p_name p, p_mobile p, p_reason_to_visit p)) (patients (db w1)) =
    [("Jane Doe", "9999999999", Some "fever")] /\
  snd (step w1 (Register day0 "Jane" m2 (Some day0) "fever"))
    <> RegistrationSuccessful.
Proof.
  split; [reflexivity|]. split; [reflexivity|].
  exact (proj1 (proj2 (proj2 (C10_registration_strips (initial day0) day0
           (String 8195 "Jane Doe ") (String 12288 " 9999999999") (Some day0)
           "fever " eq_refl)
           (String 12288 " ") EmptyString EmptyString
           (String 160 (String 8195 EmptyString)) "9999999999" [] day0 "Jane"
           (String 57 (String 57 (String 57 (String 57 (String 57 (String 57
              (String 57 (String 57 (String 57 (String 57
                (String 160 (String 8195 EmptyString))))))))))))
           (Some day0) "fever" eq_refl eq_refl eq_refl eq_refl eq_refl eq_refl))).
Defined.

(* ================================================================== *)
(** * Doctor assignments *)

Lemma nodup_length_le (l : list string) :
  (List.length (nodup string_dec l) <= List.length l)%nat.
Proof.
  induction l as [|x l IH]; cbn; [lia|].
  destruct (in_dec string_dec x l); cbn; lia.
Qed.

(** The admin's Assign refuses a third doctor for the day it checks. *)
Lemma admin_assign_cap today pid doc w :
  (2 <= List.length (distinct_doctors pid today (db w)))%nat ->
  fst (step w (Assign today pid doc)) = w /\
  snd (step w (Assign today pid doc)) <> AssignedOk.
Proof.
  intros H. pose proof (nodup_length_le (assigned_doctors_today today pid (db w))).
  unfold distinct_doctors in H. cbn [step].
  unfold manage_patients_and_assignments.
  destruct (negb _); [split; [reflexivity | discriminate]|].
  destruct (negb _); [split; [reflexivity | discriminate]|].
  destruct (truthy doc); [|split; [reflexivity | discriminate]].
  destruct (Nat.leb_spec 2 (List.length (assigned_doctors_today today pid (db w))));
    [split; [reflexivity | discriminate] | lia].
Qed.

(** A row created by the admin's Assign carries the column default, the
    day on which the class was defined. *)
Lemma admin_assign_date today pid doc w :
  snd (step w (Assign today pid doc)) = AssignedOk ->
  doctor_assignments (db (fst (step w (Assign today pid doc)))) =
  (doctor_assignments (db w)
   ++ [mkDoctorAssignment (next_id (map da_id (doctor_assignments (db w))))
         pid doc (assignment_date_default w)])%list.
Proof.
  cbn [step]. unfold manage_patients_and_assignments.
  repeat match goal with
  | |- context [if ?b then _ else _] => destruct b
  end; cbn [snd]; try discriminate. reflexivity.
Qed.

(** A row created by Add to My Patient List carries the date of the
    appointment it was created from. *)
Lemma doctor_add_date doc i w :
  snd (step w (AddToMyList doc i)) = AddedToPatientList ->
  exists appt, In appt (appointments (db w)) /\ a_id appt = i /\
    a_doctor_name appt = doc /\ a_status appt = "Scheduled" /\
    doctor_assignments (db (fst (step w (AddToMyList doc i)))) =
    (doctor_assignments (db w)
     ++ [mkDoctorAssignment (next_id (map da_id (doctor_assignments (db w))))
           (a_patient_id appt) doc (a_date appt)])%list.
Proof.
  cbn [step]. unfold manage_my_appointments_add, my_appointments.
  destruct (find _ _) as [appt|] eqn:E; [|discriminate].
  apply find_filter_some in E as (Hin & Hf & Hid).
  apply andb_true_iff in Hf as [Hdoc _].
  apply String_eqb_eq in Hdoc. apply Z.eqb_eq in Hid.
  destruct (String_eqb_spec (a_status appt) "Scheduled"); [|discriminate].
  destruct (negb _); [|discriminate]. intros _. now exists appt.
Qed.

(** C1, the code at the failing input.  With Dr. Das and Dr. Santra
    assigned to patient 1 on 1 January 2024 the admin's Assign is refused
    (limit reached), but Dr. Ghosh's Add to My Patient List inserts a row:
    three distinct doctors are then assigned to the patient on that day. *)
Theorem C1_doctor_add_exceeds_cap :
  let w := run (initial day0) cap_history in
  reachable w /\
  distinct_doctors 1 day0 (db w) = ["Dr. Das"; "Dr. Santra"] /\
  step w (Assign day0 1 "Dr. Ghosh") = (w, LimitReached) /\
  snd (step w (AddToMyList "Dr. Ghosh" 3)) = AddedToPatientList /\
  distinct_doctors 1 day0 (db (fst (step w (AddToMyList "Dr. Ghosh" 3)))) =
    ["Dr. Das"; "Dr. Santra"; "Dr. Ghosh"].
Proof.
  split; [exists day0, cap_history; reflexivity|].
  vm_compute. repeat split; reflexivity.
Qed.

(** C3, the code at the failing input.  The server was started on
    1 January 2024; on 2 January the admin assigns Dr. Das to patient 1.
    The row created is dated 1 January, not the day of the click. *)
Theorem C3_admin_assign_dated_at_import :
  let started := ymd2ord 2024 1 1 in
  let today := ymd2ord 2024 1 2 in
  let w := run (initial started)
             [Register started "Jane Doe" "9999999999" (Some started) "fever"] in
  snd (step w (Assign today 1 "Dr. Das")) = AssignedOk /\
  map da_assignment_date
    (doctor_assignments (db (fst (step w (Assign today 1 "Dr. Das")))))
    = [started] /\
  started <> today.
Proof. vm_compute. repeat split; discriminate. Qed.

(* ================================================================== *)
(** * Seeding *)

Lemma init_db_seeded s :
  users s = users (init_db empty_store) -> init_db s = s.
Proof. destruct s as [u p a d]. cbn [users]. intros ->. reflexivity. Qed.

Lemma step_users w op :
  users (db w) = users (init_db empty_store) ->
  users (db (fst (step w op))) = users (init_db empty_store).
Proof.
  intros H. destruct op; cbn [step].
  - destruct (Outcome_eq_dec
                (snd (show_auth_page_register today name mobile dob reason w))
                RegistrationSuccessful) as [E|E].
    + apply register_success in E as (d & _ & _ & _ & _ & _ & _ & ->).
      tidy. exact H.
    + now rewrite (register_unchanged _ _ _ _ _ _ E).
  - unfold manage_patients_and_assignments.
    repeat match goal with
    | |- context [if ?b then _ else _] => destruct b
    end; tidy; exact H.
  - unfold manage_appointments_schedule.
    destruct (negb _); [exact H|]. destruct (negb _); [exact H|].
    destruct (adjust_years _ _); [|tidy; exact H].
    destruct (date_input _ _ _ _); tidy; exact H.
  - destruct (approve_spec appt_id w) as [-> | (a & _ & _ & _ & ->)];
      tidy; exact H.
  - destruct (deny_spec appt_id w) as [-> | (a & _ & _ & _ & ->)];
      tidy; exact H.
  - unfold manage_my_appointments_add.
    destruct (find _ _); [|exact H].
    repeat match goal with
    | |- context [if ?b then _ else _] => destruct b
    end; tidy; exact H.
  - destruct (cancel_spec doctor_name appt_id reason w)
      as [[-> _] | (a & _ & _ & _ & _ & _ & ->)]; tidy; exact H.
  - unfold manage_my_patients_save. destruct (shown_to _ _ _); tidy; exact H.
  - unfold manage_my_patients_mark. destruct (_ && _); tidy; exact H.
  - unfold manage_my_patients_yes. destruct (_ && _); tidy; exact H.
  - unfold manage_my_patients_no. destruct (_ && _); tidy; exact H.
  - unfold restart. tidy. now rewrite (init_db_seeded _ H).
Qed.

(** Once the accounts are seeded, running [init_db] again at a page load
    changes nothing. *)
Lemma init_db_idempotent w : reachable w -> init_db (db w) = db w.
Proof.
  intros (d0 & ops & ->). apply init_db_seeded.
  assert (G : forall ops w, users (db w) = users (init_db empty_store) ->
                            users (db (run w ops)) = users (init_db empty_store)).
  { clear. induction ops as [|op ops IH]; intros w H; cbn; [exact H|].
    apply IH. now apply step_users. }
  now apply G.
Qed.

(* ================================================================== *)
(** * Row by row: what a click changes *)

Lemma step_appointment_row w op i a :
  Inv w -> nth_error (appointments (db w)) i = Some a ->
  exists a', nth_error (appointments (db (fst (step w op)))) i = Some a' /\
             appointment_change op a a'.
Proof.
  intros [_ Hid _ _ _] Hi. set (l := appointments (db w)) in *.
  pose proof (nth_error_In _ _ Hi) as Hin.
  assert (U : forall k f a0,
             In a0 l -> a_id a0 = k ->
             exists a', nth_error (update_appointment k f l) i = Some a' /\
                        (a' = a \/ (a = a0 /\ a' = f a0))).
  { intros k f a0 Hin0 Hk. rewrite (update_appointment_nth k f l i a Hi).
    eexists. split; [reflexivity|].
    destruct (Z.eqb_spec (a_id a) k) as [E|E]; [|now auto].
    right. assert (a = a0) by (apply (NoDup_key_eq a_id l); congruence).
    now subst. }
  destruct (step_appointments w op)
    as [op' | today pid doc de d t r | a0 Hin0 Hst | a0 Hin0 Hst
        | a0 reason Hin0 Hst Hr]; fold l.
  - exists a. split; [exact Hi | constructor].
  - exists a. split; [now apply nth_error_snoc_old | constructor].
  - destruct (U (a_id a0) (fun a => with_a_status a "Cancelled") a0 Hin0 eq_refl)
      as (a' & -> & [-> | [-> ->]]); eexists; (split; [reflexivity|]);
      now constructor.
  - destruct (U (a_id a0)
                (fun a => with_a_cancellation_reason
                            (with_a_status a "Scheduled") None) a0 Hin0 eq_refl)
      as (a' & -> & [-> | [-> ->]]); eexists; (split; [reflexivity|]);
      now constructor.
  - destruct (U (a_id a0)
                (fun a => with_a_cancellation_reason
                            (with_a_status a "Cancellation Requested")
                            (Some reason)) a0 Hin0 eq_refl)
      as (a' & -> & [-> | [-> ->]]); eexists; (split; [reflexivity|]);
      now constructor.
Qed.

Lemma shown_to_row doc w p :
  NoDup (map p_id (patients (db w))) -> In p (patients (db w)) ->
  shown_to doc (p_id p) w = true -> p_status p = "Active".
Proof.
  intros Hid Hin H. apply shown_to_active in H as (q & Hq & E & Hst).
  now rewrite (NoDup_key_eq p_id _ p q Hid Hin Hq (eq_sym E)).
Qed.

Lemma step_patient_row w op i p :
  Inv w -> nth_error (patients (db w)) i = Some p ->
  exists p', nth_error (patients (db (fst (step w op)))) i = Some p' /\
             patient_change w op p p'.
Proof.
  intros [Hid _ _ _ _] Hi. pose proof (nth_error_In _ _ Hi) as Hin.
  assert (Same : forall w', patients (db w') = patients (db w) ->
            exists p', nth_error (patients (db w')) i = Some p' /\
                       patient_change w op p p').
  { intros w' ->. exists p. split; [exact Hi | constructor]. }
  destruct op; cbn [step].
  - destruct (Outcome_eq_dec
                (snd (show_auth_page_register today name mobile dob reason w))
                RegistrationSuccessful) as [E|E].
    + apply register_success in E as (d & _ & _ & _ & _ & _ & _ & ->). tidy.
      exists p. split; [now apply nth_error_snoc_old | constructor].
    + rewrite (register_unchanged _ _ _ _ _ _ E). now apply Same.
  - unfold manage_patients_and_assignments.
    repeat match goal with
    | |- context [if ?b then _ else _] => destruct b
    end; now apply Same.
  - unfold manage_appointments_schedule.
    destruct (negb _); [now apply Same|]. destruct (negb _); [now apply Same|].
    destruct (adjust_years _ _); [|now apply Same].
    destruct (date_input _ _ _ _); now apply Same.
  - destruct (approve_spec appt_id w) as [-> | (a & _ & _ & _ & ->)];
      now apply Same.
  - destruct (deny_spec appt_id w) as [-> | (a & _ & _ & _ & ->)];
      now apply Same.
  - unfold manage_my_appointments_add.
    destruct (find _ _); [|now apply Same].
    repeat match goal with
    | |- context [if ?b then _ else _] => destruct b
    end; now apply Same.
  - destruct (cancel_spec doctor_name appt_id reason w)
      as [[-> _] | (a & _ & _ & _ & _ & _ & ->)]; now apply Same.
  - unfold manage_my_patients_save.
    destruct (shown_to doctor_name pid w) eqn:Hs; [|now apply Same]. tidy.
    rewrite (update_patient_nth _ _ _ i p Hi). eexists. split; [reflexivity|].
    destruct (Z.eqb_spec (p_id p) pid) as [<-|]; [|constructor].
    constructor; [exact Hs | now apply (shown_to_row doctor_name w)].
  - unfold manage_my_patients_mark. destruct (_ && _); now apply Same.
  - unfold manage_my_patients_yes.
    destruct (shown_to doctor_name pid w) eqn:Hs; [|now apply Same].
    destruct (flag_set sid pid w) eqn:Hf; [|now apply Same].
    cbn [andb]. tidy.
    rewrite (update_patient_nth _ _ _ i p Hi). eexists. split; [reflexivity|].
    destruct (Z.eqb_spec (p_id p) pid) as [<-|]; [|constructor].
    constructor; [exact Hs | exact Hf | now apply (shown_to_row doctor_name w)].
  - unfold manage_my_patients_no. destruct (_ && _); now apply Same.
  - unfold restart. apply Same. tidy. apply init_db_patients.
Qed.



Lemma list_set_length {A} (l : list A) i x :
  List.length (list_set i x l) = List.length l.
Proof.
  revert i. induction l as [|z l IH]; intros [|i]; cbn; try reflexivity.
  f_equal. apply IH.
Qed.

Lemma set_db_same w : set_db w (db w) = w.
Proof. now destruct w. Qed.

Lemma set_appointments_same s : set_appointments s (appointments s) = s.
Proof. now destruct s. Qed.

Lemma set_patients_same s : set_patients s (patients s) = s.
Proof. now destruct s. Qed.

Lemma update_patient_unique k f l i p :
  NoDup (map p_id l) -> nth_error l i = Some p -> p_id p = k ->
  update_patient k f l = list_set i (f p) l.
Proof.
  revert i. induction l as [|x l IH]; intros [|i] Hnd Hi Hk; cbn in *;
    try discriminate.
  - injection Hi as ->. rewrite Hk, Z.eqb_refl. f_equal.
    inversion Hnd as [|? ? Hn _]; subst.
    unfold update_patient in *.
    rewrite <- (map_id l) at 2. apply map_ext_in. intros y Hy.
    destruct (Z.eqb_spec (p_id y) (p_id p)) as [E|]; [|reflexivity].
    exfalso. apply Hn. rewrite <- E. now apply in_map.
  - inversion Hnd as [|? ? Hn Hnd']; subst.
    destruct (Z.eqb_spec (p_id x) (p_id p)) as [E|].
    + exfalso. apply Hn. rewrite E. apply in_map. eapply nth_error_In, Hi.
    + f_equal. now apply IH.
Qed.




(* ================================================================== *)
(** * More on the appointment pages *)



Lemma cancelled_row_kept w op i a :
  Inv w -> nth_error (appointments (db w)) i = Some a ->
  a_status a = "Cancelled" ->
  nth_error (appointments (db (fst (step w op)))) i = Some a.
Proof.
  intros HI Hi Hc.
  destruct (step_appointment_row w op i a HI Hi) as (a' & H' & Hch).
  rewrite H'. f_equal.
  inversion Hch; subst; try reflexivity; congruence.
Qed.

(** X2. A Cancelled appointment is final: whatever is clicked afterwards,
    in any order and any number of times, its row stays exactly as it is. *)
Theorem X2_cancelled_is_final w i a ops :
  reachable w ->
  nth_error (appointments (db w)) i = Some a ->
  a_status a = "Cancelled" ->
  nth_error (appointments (db (run w ops))) i = Some a.
Proof.
  intros R. pose proof (reachable_Inv w R) as HI. clear R.
  revert w HI. induction ops as [|op ops IH]; intros w HI Hi Hc; cbn;
    [exact Hi|].
  apply IH; [now apply Inv_step | now apply cancelled_row_kept | exact Hc].
Qed.

Lemma X2_cancelled_is_final_witness :
  nth_error
    (appointments (db (run (fst (step sample_world (Approve 1)))
                         [Deny 1; Approve 1;
                          RequestCancel "Dr. Das" 1 "again";
                          AddToMyList "Dr. Das" 1]))) 0 =
  Some (mkAppointment 1 1 "Dr. Das" day0 0 "fever" "Cancelled"
          (Some "relocating")).
Proof.
  apply X2_cancelled_is_final;
    [apply reachable_step, sample_world_reachable | reflexivity | reflexivity].
Defined.

(** X3. A doctor cannot touch another doctor's appointments: whatever a
    doctor clicks on the doctor pages, every appointment booked with a
    different doctor keeps its row unchanged. *)
Theorem X3_doctor_cannot_touch_others w sid doc c i a :
  reachable w ->
  nth_error (appointments (db w)) i = Some a ->
  a_doctor_name a <> doc ->
  nth_error (appointments (db (fst (step w (doctor_op sid doc c))))) i = Some a.
Proof.
  intros R Hi Hne.
  destruct (step_appointment_row w (doctor_op sid doc c) i a
              (reachable_Inv w R) Hi) as (a' & H' & Hch).
  rewrite H'. f_equal.
  destruct c; cbn [doctor_op] in Hch; inversion Hch; subst;
    try reflexivity; congruence.
Qed.

Lemma X3_doctor_cannot_touch_others_witness :
  nth_error
    (appointments
       (db (fst (step (run (initial day0) (firstn 3 sample_history))
                   (doctor_op 0%nat "Dr. Ghosh"
                      (ClickRequestCancel 1 "not mine")))))) 0 =
  Some (mkAppointment 1 1 "Dr. Das" day0 0 "fever" "Scheduled" None).
Proof.
  apply X3_doctor_cannot_touch_others;
    [exists day0, (firstn 3 sample_history); reflexivity
    | reflexivity | discriminate].
Defined.

Lemma shown_to_assigned doc pid w :
  shown_to doc pid w = true ->
  exists x, In x (doctor_assignments (db w)) /\
            da_doctor_name x = doc /\ da_patient_id x = pid.
Proof.
  unfold shown_to, active_patients. intros H.
  apply existsb_exists in H as (p & Hin & Hid).
  apply filter_In in Hin as (_ & Hf).
  apply andb_true_iff in Hf as [Ha _].
  apply existsb_exists in Ha as (k & Hk & E).
  apply in_map_iff in Hk as (x & <- & Hx).
  apply filter_In in Hx as (Hx & Hd).
  apply String_eqb_eq in Hd. apply Z.eqb_eq in E. apply Z.eqb_eq in Hid.
  exists x. repeat split; congruence.
Qed.

(** X4. A doctor can change a patient's record only when that patient is
    on the doctor's list: if no assignment row links the patient to the
    doctor, nothing the doctor clicks changes the patient's row. *)
Theorem X4_doctor_needs_assignment w sid doc c i p :
  reachable w ->
  nth_error (patients (db w)) i = Some p ->
  (forall x, In x (doctor_assignments (db w)) ->
             da_doctor_name x = doc -> da_patient_id x <> p_id p) ->
  nth_error (patients (db (fst (step w (doctor_op sid doc c))))) i = Some p.
Proof.
  intros R Hi Hno.
  destruct (step_patient_row w (doctor_op sid doc c) i p
              (reachable_Inv w R) Hi) as (p' & H' & Hch).
  rewrite H'. f_equal.
  assert (N : shown_to doc (p_id p) w = false).
  { destruct (shown_to doc (p_id p) w) eqn:E; [|reflexivity].
    apply shown_to_assigned in E as (x & Hx & Hd & Hp).
    now destruct (Hno x Hx Hd). }
  destruct c; cbn [doctor_op] in Hch; inversion Hch; subst;
    try reflexivity; congruence.
Qed.

Lemma X4_doctor_needs_assignment_witness :
  nth_error
    (patients (db (fst (step sample_world
                          (doctor_op 0%nat "Dr. Ghosh"
                             (ClickSaveNotes 1 "rest")))))) 0 =
  nth_error (patients (db sample_world)) 0.
Proof.
  apply (X4_doctor_needs_assignment sample_world 0%nat "Dr. Ghosh"
           (ClickSaveNotes 1 "rest") 0%nat _ sample_world_reachable eq_refl).
  intros x [<- | []]. discriminate.
Defined.



(* ================================================================== *)
(** * More on the doctor's patient page *)

(** X6. Saving notes for a patient on the doctor's list stores exactly the
    text given as that patient's prescriptions and changes nothing else:
    no other field of the patient, no other patient, no other table. *)
Theorem X6_save_notes w doc i p notes :
  reachable w ->
  nth_error (patients (db w)) i = Some p ->
  shown_to doc (p_id p) w = true ->
  step w (SaveNotes doc (p_id p) notes) =
    (set_db w (set_patients (db w)
       (list_set i
          (mkPatient (p_id p) (p_name p) (p_mobile p) (p_dob p)
             (p_reason_to_visit p) (p_status p) (Some notes))
          (patients (db w)))),
     NotesSaved).
Proof.
  intros R Hi Hs. pose proof (inv_patient_ids w (reachable_Inv w R)) as Hid.
  cbn [step]. unfold manage_my_patients_save. rewrite Hs.
  now rewrite (update_patient_unique _ _ _ i p Hid Hi eq_refl).
Qed.

Lemma X6_save_notes_witness :
  map p_prescriptions
    (patients (db (fst (step sample_world (SaveNotes "Dr. Das" 1 "rest"))))) =
  [Some "rest"].
Proof.
  pose proof (X6_save_notes sample_world "Dr. Das" 0%nat
                (mkPatient 1 "Jane Doe" "9999999999" (Some day0) (Some "fever")
                   "Active" None) "rest"
                sample_world_reachable eq_refl eq_refl) as H.
  cbn [p_id] in H. rewrite H. reflexivity.
Defined.

Lemma filter_all_true {A} (f : A -> bool) l :
  (forall x, In x l -> f x = true) -> filter f l = l.
Proof.
  induction l as [|a l IH]; cbn; intros H; [reflexivity|].
  rewrite (H a (or_introl eq_refl)). f_equal. apply IH. intros x Hx.
  apply H. now right.
Qed.

(** X7. Asking for the completion of a case and then answering No changes
    nothing at all: the server is back in the state it was in, and the
    first click alone leaves the database untouched. *)
Theorem X7_mark_then_no w sid doc pid :
  shown_to doc pid w = true -> flag_set sid pid w = false ->
  db (fst (step w (MarkCompleted sid doc pid))) = db w /\
  run w [MarkCompleted sid doc pid; NoCancel sid doc pid] = w.
Proof.
  intros Hs Hf. cbn [run fold_left step].
  unfold manage_my_patients_mark. rewrite Hs, Hf. cbn [andb negb fst].
  split; [reflexivity|].
  unfold manage_my_patients_no.
  replace (shown_to doc pid (set_session_state w ((sid, pid) :: session_state w)))
    with true by (symmetry; exact Hs).
  unfold flag_set at 1. cbn [session_state set_session_state existsb fst snd].
  rewrite Nat.eqb_refl, Z.eqb_refl. cbn [andb orb fst].
  unfold del_flag. cbn [session_state set_session_state filter fst snd db
                        assignment_date_default].
  rewrite Nat.eqb_refl, Z.eqb_refl. cbn [andb negb].
  rewrite filter_all_true.
  - now destruct w.
  - intros k Hk. unfold flag_set in Hf.
    destruct ((fst k =? sid)%nat && (snd k =? pid)) eqn:E; [|reflexivity].
    exfalso. assert (T : existsb (fun k => (fst k =? sid)%nat && (snd k =? pid))
                           (session_state w) = true)
      by (apply existsb_exists; now exists k).
    congruence.
Qed.

Lemma X7_mark_then_no_witness :
  run sample_world [MarkCompleted 7%nat "Dr. Das" 1; NoCancel 7%nat "Dr. Das" 1]
  = sample_world.
Proof.
  exact (proj2 (X7_mark_then_no sample_world 7%nat "Dr. Das" 1 eq_refl eq_refl)).
Defined.

Lemma flag_set_after_mark w sid pid :
  flag_set sid pid (set_session_state w ((sid, pid) :: session_state w)) = true.
Proof.
  unfold flag_set. cbn [session_state set_session_state existsb fst snd].
  now rewrite Nat.eqb_refl, Z.eqb_refl.
Qed.

Lemma flag_set_after_del w sid pid : flag_set sid pid (del_flag sid pid w) = false.
Proof.
  unfold flag_set, del_flag. cbn [session_state set_session_state].
  match goal with |- ?e = false => destruct e eqn:E end; [|reflexivity].
  apply existsb_exists in E as (k & Hk & E).
  apply filter_In in Hk as [_ Hk]. rewrite E in Hk. discriminate.
Qed.

Lemma mark_then_yes w sid doc pid :
  shown_to doc pid w = true -> flag_set sid pid w = false ->
  run w [MarkCompleted sid doc pid; YesComplete sid doc pid] =
  del_flag sid pid
    (set_db (set_session_state w ((sid, pid) :: session_state w))
       (set_patients (db w)
          (update_patient pid (fun p => with_p_status p "Completed")
             (patients (db w))))).
Proof.
  intros Hs Hf. cbn [run fold_left step].
  unfold manage_my_patients_mark. rewrite Hs, Hf. cbn [andb negb fst].
  unfold manage_my_patients_yes. rewrite flag_set_after_mark.
  change (shown_to doc pid
            (set_session_state w ((sid, pid) :: session_state w)))
    with (shown_to doc pid w).
  rewrite Hs. reflexivity.
Qed.

(** X8. Completing a case takes two clicks.  For a patient on the doctor's
    list with no confirmation pending, Yes, Complete alone does nothing;
    Mark as Completed followed by Yes, Complete turns exactly that patient
    into the same row with status Completed and removes the pending
    confirmation. *)
Theorem X8_completion_takes_two_clicks w sid doc i p :
  reachable w ->
  nth_error (patients (db w)) i = Some p ->
  shown_to doc (p_id p) w = true -> flag_set sid (p_id p) w = false ->
  step w (YesComplete sid doc (p_id p)) = (w, NotRendered) /\
  let w2 := run w [MarkCompleted sid doc (p_id p); YesComplete sid doc (p_id p)] in
  patients (db w2) =
    list_set i
      (mkPatient (p_id p) (p_name p) (p_mobile p) (p_dob p)
         (p_reason_to_visit p) "Completed" (p_prescriptions p))
      (patients (db w)) /\
  flag_set sid (p_id p) w2 = false.
Proof.
  intros R Hi Hs Hf. pose proof (inv_patient_ids w (reachable_Inv w R)) as Hid.
  split.
  - cbn [step]. unfold manage_my_patients_yes. now rewrite Hs, Hf.
  - cbv zeta. rewrite (mark_then_yes w sid doc (p_id p) Hs Hf). split.
    + tidy. now rewrite (update_patient_unique _ _ _ i p Hid Hi eq_refl).
    + apply flag_set_after_del.
Qed.

Lemma X8_completion_takes_two_clicks_witness :
  step sample_world (YesComplete 7%nat "Dr. Das" 1) = (sample_world, NotRendered).
Proof.
  exact (proj1 (X8_completion_takes_two_clicks sample_world 7%nat "Dr. Das"
                  0%nat
                  (mkPatient 1 "Jane Doe" "9999999999" (Some day0) (Some "fever")
                     "Active" None)
                  sample_world_reachable eq_refl eq_refl eq_refl)).
Defined.

Lemma completed_row_kept w op i p :
  Inv w -> nth_error (patients (db w)) i = Some p ->
  p_status p = "Completed" ->
  nth_error (patients (db (fst (step w op)))) i = Some p.
Proof.
  intros HI Hi Hc.
  destruct (step_patient_row w op i p HI Hi) as (p' & H' & Hch).
  rewrite H'. f_equal.
  inversion Hch; subst; try reflexivity; congruence.
Qed.

(** X9. A completed case is closed for good: once a patient is Completed,
    no sequence of clicks changes anything in the patient's row, neither
    the status nor the prescriptions. *)
Theorem X9_completed_is_final w i p ops :
  reachable w ->
  nth_error (patients (db w)) i = Some p ->
  p_status p = "Completed" ->
  nth_error (patients (db (run w ops))) i = Some p.
Proof.
  intros R. pose proof (reachable_Inv w R) as HI. clear R.
  revert w HI. induction ops as [|op ops IH]; intros w HI Hi Hc; cbn;
    [exact Hi|].
  apply IH; [now apply Inv_step | now apply completed_row_kept | exact Hc].
Qed.

Lemma X9_completed_is_final_witness :
  nth_error
    (patients
       (db (run (run sample_world [MarkCompleted 0%nat "Dr. Das" 1;
                                   YesComplete 0%nat "Dr. Das" 1])
              [SaveNotes "Dr. Das" 1 "late note";
               MarkCompleted 0%nat "Dr. Das" 1]))) 0 =
  Some (mkPatient 1 "Jane Doe" "9999999999" (Some day0) (Some "fever")
          "Completed" None).
Proof.
  apply X9_completed_is_final;
    [apply reachable_run, sample_world_reachable | reflexivity | reflexivity].
Defined.

Lemma completed_rows pid l p :
  In p (update_patient pid (fun p => with_p_status p "Completed") l) ->
  p_id p = pid -> p_status p = "Completed".
Proof.
  unfold update_patient. intros H E.
  apply in_map_iff in H as (q & <- & _).
  destruct (Z.eqb_spec (p_id q) pid); [reflexivity | contradiction].
Qed.

(** X10. Once a case is marked completed the patient is off every doctor's
    pages: after a successful Yes, Complete no doctor is shown the patient
    under My Patients, and the patient is on no doctor's dashboard for any
    day. *)
Theorem X10_completed_patient_hidden w sid doc pid :
  snd (step w (YesComplete sid doc pid)) = MarkedCompleted ->
  let w' := fst (step w (YesComplete sid doc pid)) in
  forall doc' p,
    p_id p = pid ->
    ~ In p (active_patients doc' (db w')) /\
    forall d, ~ In p (fst (show_doctor_overview doc' d (db w'))).
Proof.
  cbn [step]. unfold manage_my_patients_yes.
  destruct (shown_to doc pid w && flag_set sid pid w); [|discriminate].
  intros _. cbv zeta. intros doc' p Hp. tidy.
  assert (C : forall q, In q (update_patient pid
                                (fun p => with_p_status p "Completed")
                                (patients (db w))) ->
                   p_id q = pid -> String.eqb (p_status q) "Active" = false).
  { intros q Hq E. now rewrite (completed_rows pid _ q Hq E). }
  split; [|intros d]; intros H.
  - unfold active_patients in H. tidy.
    apply filter_In in H as [Hin Hf]. apply andb_true_iff in Hf as [_ Hf].
    rewrite (C p Hin Hp) in Hf. discriminate.
  - unfold show_doctor_overview in H. cbn [fst] in H. tidy.
    apply filter_In in H as [Hin Hf]. apply andb_true_iff in Hf as [_ Hf].
    rewrite (C p Hin Hp) in Hf. discriminate.
Qed.

Lemma X10_completed_patient_hidden_witness :
  ~ In (mkPatient 1 "Jane Doe" "9999999999" (Some day0) (Some "fever")
          "Completed" None)
      (active_patients "Dr. Das"
         (db (fst (step (fst (step sample_world
                                (MarkCompleted 0%nat "Dr. Das" 1)))
                     (YesComplete 0%nat "Dr. Das" 1))))).
Proof.
  exact (proj1 (X10_completed_patient_hidden
                  (fst (step sample_world (MarkCompleted 0%nat "Dr. Das" 1)))
                  0%nat "Dr. Das" 1 eq_refl "Dr. Das"
                  (mkPatient 1 "Jane Doe" "9999999999" (Some day0)
                     (Some "fever") "Completed" None) eq_refl)).
Defined.

(* ================================================================== *)
(** * More on doctor assignments *)

Lemma mem_string_In x l : mem_string x l = true <-> In x l.
Proof.
  unfold mem_string. rewrite existsb_exists. split.
  - intros (y & Hy & E). apply String_eqb_eq in E. now subst.
  - intros H. exists x. split; [exact H | apply String_eqb_refl].
Qed.

Lemma mem_string_false x l : mem_string x l = false <-> ~ In x l.
Proof.
  split.
  - intros H Hin. apply mem_string_In in Hin. congruence.
  - intros H. destruct (mem_string x l) eqn:E; [|reflexivity].
    apply mem_string_In in E. contradiction.
Qed.

Lemma init_db_assignments s : doctor_assignments (init_db s) = doctor_assignments s.
Proof. apply init_db_frame. Qed.

Lemma step_assignments w op :
  assignments_step w op (doctor_assignments (db (fst (step w op)))).
Proof.
  destruct op; cbn [step].
  - destruct (Outcome_eq_dec
                (snd (show_auth_page_register today name mobile dob reason w))
                RegistrationSuccessful) as [E|E].
    + apply register_success in E as (d & _ & _ & _ & _ & _ & _ & ->).
      tidy. apply ds_same.
    + rewrite (register_unchanged _ _ _ _ _ _ E). apply ds_same.
  - unfold manage_patients_and_assignments.
    destruct (existsb _ (patients (db w))) eqn:Hp; cbn [negb];
      [|apply ds_same].
    destruct (mem_string selected_doctor (EmptyString :: doctors (db w)))
      eqn:Hd; cbn [negb]; [|apply ds_same].
    destruct selected_doctor as [|c r] eqn:Hsel; cbn [truthy is_empty negb];
      [apply ds_same|]. rewrite <- Hsel in *.
    destruct (Nat.leb_spec 2
                (List.length (assigned_doctors_today today patient_id (db w))));
      [apply ds_same|].
    destruct (mem_string selected_doctor
                (assigned_doctors_today today patient_id (db w))) eqn:Hm;
      [apply ds_same|].
    tidy. apply ds_assign; try assumption.
    + apply mem_string_In in Hd as [Hd | Hd]; [|exact Hd].
      subst. discriminate.
    + now apply mem_string_false.
  - unfold manage_appointments_schedule.
    destruct (negb _); [apply ds_same|]. destruct (negb _); [apply ds_same|].
    destruct (adjust_years _ _); [|tidy; apply ds_same].
    destruct (date_input _ _ _ _); tidy; apply ds_same.
  - destruct (approve_spec appt_id w) as [-> | (a & _ & _ & _ & ->)];
      tidy; apply ds_same.
  - destruct (deny_spec appt_id w) as [-> | (a & _ & _ & _ & ->)];
      tidy; apply ds_same.
  - unfold manage_my_appointments_add, my_appointments.
    destruct (find _ _) as [appt|] eqn:E; [|apply ds_same].
    apply find_filter_some in E as (Hin & Hf & Hid).
    apply andb_true_iff in Hf as [Hdoc _].
    apply String_eqb_eq in Hdoc. apply Z.eqb_eq in Hid. subst.
    destruct (String_eqb_spec (a_status appt) "Scheduled"); [|apply ds_same].
    destruct (assignment_exists _ _ _ _) eqn:Hex; cbn [negb];
      [apply ds_same|].
    tidy. now apply ds_add.
  - destruct (cancel_spec doctor_name appt_id reason w)
      as [[-> _] | (a & _ & _ & _ & _ & _ & ->)]; tidy; apply ds_same.
  - unfold manage_my_patients_save. destruct (shown_to _ _ _); tidy; apply ds_same.
  - unfold manage_my_patients_mark. destruct (_ && _); tidy; apply ds_same.
  - unfold manage_my_patients_yes. destruct (_ && _); tidy; apply ds_same.
  - unfold manage_my_patients_no. destruct (_ && _); tidy; apply ds_same.
  - unfold restart. tidy. rewrite init_db_assignments. apply ds_same.
Qed.

Lemma assigned_after_insert d pid s row :
  assigned_doctors_today d pid
    (set_doctor_assignments s (doctor_assignments s ++ [row])) =
  (assigned_doctors_today d pid s
   ++ (if (da_patient_id row =? pid) && (da_assignment_date row =? d)
       then [da_doctor_name row] else []))%list.
Proof.
  unfold assigned_doctors_today. cbn [doctor_assignments set_doctor_assignments].
  rewrite filter_app, map_app. cbn [filter].
  now destruct ((da_patient_id row =? pid) && (da_assignment_date row =? d)).
Qed.

(** X11. The admin's Assign counts the rows dated today: when the patient
    already has two of them the click inserts nothing and changes nothing,
    and, a doctor being selected for a listed patient, it is answered by
    the limit message. *)
Theorem X11_assign_refused_at_two w today pid doc :
  (2 <= List.length (assigned_doctors_today today pid (db w)))%nat ->
  fst (step w (Assign today pid doc)) = w /\
  snd (step w (Assign today pid doc)) <> AssignedOk /\
  (In pid (map p_id (patients (db w))) -> In doc (doctors (db w)) ->
   doc <> EmptyString ->
   snd (step w (Assign today pid doc)) = LimitReached).
Proof.
  intros H. cbn [step]. unfold manage_patients_and_assignments.
  apply Nat.leb_le in H. rewrite H.
  destruct (existsb _ (patients (db w))) eqn:Hp; cbn [negb].
  - destruct (mem_string doc (EmptyString :: doctors (db w))) eqn:Hd; cbn [negb].
    + destruct doc as [|c r]; cbn [truthy is_empty negb fst snd].
      * split; [reflexivity|]. split; [discriminate|]. now intros _ _ Hne.
      * split; [reflexivity|]. split; [discriminate|]. reflexivity.
    + cbn [fst snd]. split; [reflexivity|]. split; [discriminate|].
      intros _ Hin _. exfalso.
      apply mem_string_false in Hd. apply Hd. now right.
  - cbn [fst snd]. split; [reflexivity|]. split; [discriminate|].
    intros Hin _ _. exfalso.
    apply in_map_iff in Hin as (p & E & Hin).
    assert (T : existsb (fun p => p_id p =? pid) (patients (db w)) = true)
      by (apply existsb_exists; exists p; split; [exact Hin | now apply Z.eqb_eq]).
    congruence.
Qed.

Lemma X11_assign_refused_at_two_witness :
  fst (step (run (initial day0) cap_history) (Assign day0 1 "Dr. Ghosh")) =
  run (initial day0) cap_history.
Proof.
  refine (proj1 (X11_assign_refused_at_two (run (initial day0) cap_history)
                   day0 1 "Dr. Ghosh" _)).
  apply Nat.leb_le. reflexivity.
Defined.

Lemma assign_ok w today pid doc :
  snd (step w (Assign today pid doc)) = AssignedOk ->
  existsb (fun p => p_id p =? pid) (patients (db w)) = true /\
  mem_string doc (EmptyString :: doctors (db w)) = true /\
  truthy doc = true /\
  (2 <=? List.length (assigned_doctors_today today pid (db w)))%nat = false /\
  mem_string doc (assigned_doctors_today today pid (db w)) = false /\
  fst (step w (Assign today pid doc)) =
    set_db w (set_doctor_assignments (db w)
      (doctor_assignments (db w)
       ++ [mkDoctorAssignment (next_id (map da_id (doctor_assignments (db w))))
             pid doc (assignment_date_default w)])).
Proof.
  cbn [step]. unfold manage_patients_and_assignments.
  destruct (existsb _ (patients (db w))); cbn [negb]; [|discriminate].
  destruct (mem_string doc (EmptyString :: doctors (db w))); cbn [negb];
    [|discriminate].
  destruct (truthy doc); [|discriminate].
  destruct (2 <=? _)%nat; [discriminate|].
  destruct (mem_string doc (assigned_doctors_today today pid (db w)));
    [discriminate|].
  intros _. repeat split; reflexivity.
Qed.

(** X12. On the day the server was started the admin cannot assign the
    same doctor twice: after a successful Assign the same click again
    inserts nothing and changes nothing, and is answered by the
    already-assigned warning or by the limit message. *)
Theorem X12_assign_twice_refused w today pid doc :
  assignment_date_default w = today ->
  snd (step w (Assign today pid doc)) = AssignedOk ->
  let w1 := fst (step w (Assign today pid doc)) in
  fst (step w1 (Assign today pid doc)) = w1 /\
  (snd (step w1 (Assign today pid doc)) = AlreadyAssigned \/
   snd (step w1 (Assign today pid doc)) = LimitReached).
Proof.
  intros Hdef Hok.
  destruct (assign_ok w today pid doc Hok) as (Hp & Hd & Ht & Hl & Hm & E).
  cbv zeta. rewrite E. cbn [step]. unfold manage_patients_and_assignments. tidy.
  change (doctors (set_doctor_assignments (db w) _)) with (doctors (db w)).
  rewrite Hp, Hd, Ht, assigned_after_insert.
  cbn [da_patient_id da_assignment_date da_doctor_name negb].
  rewrite Hdef, !Z.eqb_refl. cbn [andb].
  destruct (2 <=? List.length (assigned_doctors_today today pid (db w) ++ [doc]))%nat;
    [cbn [fst snd]; auto|].
  assert (M : mem_string doc (assigned_doctors_today today pid (db w) ++ [doc])
              = true)
    by (apply mem_string_In, in_or_app; right; now left).
  rewrite M. cbn [fst snd]. auto.
Qed.

Lemma X12_assign_twice_refused_witness :
  fst (step (fst (step sample_world (Assign day0 1 "Dr. Ghosh")))
         (Assign day0 1 "Dr. Ghosh")) =
  fst (step sample_world (Assign day0 1 "Dr. Ghosh")).
Proof.
  exact (proj1 (X12_assign_twice_refused sample_world day0 1 "Dr. Ghosh"
                  eq_refl eq_refl)).
Defined.

Lemma step_default w op :
  assignment_date_default (fst (step w op)) =
  match op with
  | Restart today => today
  | _ => assignment_date_default w
  end.
Proof.
  destruct op; cbn [step].
  - destruct (Outcome_eq_dec
                (snd (show_auth_page_register today name mobile dob reason w))
                RegistrationSuccessful) as [E|E].
    + now apply register_success in E as (d & _ & _ & _ & _ & _ & _ & ->).
    + now rewrite (register_unchanged _ _ _ _ _ _ E).
  - unfold manage_patients_and_assignments.
    repeat match goal with
    | |- context [if ?b then _ else _] => destruct b
    end; reflexivity.
  - unfold manage_appointments_schedule.
    destruct (negb _); [reflexivity|]. destruct (negb _); [reflexivity|].
    destruct (adjust_years _ _); [|reflexivity].
    destruct (date_input _ _ _ _); reflexivity.
  - now destruct (approve_spec appt_id w) as [-> | (a & _ & _ & _ & ->)].
  - now destruct (deny_spec appt_id w) as [-> | (a & _ & _ & _ & ->)].
  - unfold manage_my_appointments_add.
    destruct (find _ _); [|reflexivity].
    repeat match goal with
    | |- context [if ?b then _ else _] => destruct b
    end; reflexivity.
  - now destruct (cancel_spec doctor_name appt_id reason w)
      as [[-> _] | (a & _ & _ & _ & _ & _ & ->)].
  - unfold manage_my_patients_save. now destruct (shown_to _ _ _).
  - unfold manage_my_patients_mark. now destruct (_ && _).
  - unfold manage_my_patients_yes. now destruct (_ && _).
  - unfold manage_my_patients_no. now destruct (_ && _).
  - reflexivity.
Qed.

Lemma assigned_as_filter d pid s :
  assigned_doctors_today d pid s =
  map da_doctor_name
    (filter (fun a => (da_patient_id a =? pid) && (da_assignment_date a =? d))
       (doctor_assignments s)).
Proof. reflexivity. Qed.

Lemma admin_day_cap d w op :
  admin_day d op ->
  assignment_date_default w = d ->
  (forall pid d', NoDup (assigned_doctors_today d' pid (db w)) /\
                  (List.length (assigned_doctors_today d' pid (db w)) <= 2)%nat) ->
  forall pid d',
    NoDup (assigned_doctors_today d' pid (db (fst (step w op)))) /\
    (List.length (assigned_doctors_today d' pid (db (fst (step w op)))) <= 2)%nat.
Proof.
  intros Hop Hdef K pid d'. rewrite !assigned_as_filter.
  destruct (step_assignments w op)
    as [op' | today pid0 doc Hp Hd Hlen Hnin | appt Hin Hst Hex].
  - apply K.
  - cbn [admin_day] in Hop. subst today.
    rewrite filter_app, map_app. cbn [filter da_patient_id da_assignment_date].
    rewrite Hdef. destruct (K pid d') as [Knd Klen].
    rewrite assigned_as_filter in Knd, Klen.
    destruct ((pid0 =? pid) && (d =? d')) eqn:E; cbn [map da_doctor_name].
    + apply andb_true_iff in E as [E1 E2].
      apply Z.eqb_eq in E1. apply Z.eqb_eq in E2. subst pid0 d'.
      rewrite assigned_as_filter in Hlen, Hnin. split.
      * apply NoDup_snoc; assumption.
      * rewrite length_app. cbn [List.length]. lia.
    + now rewrite !app_nil_r.
  - contradiction.
Qed.

(** X13. Where the cap of two doctors per patient and day does hold: as
    long as every click happens on the day the server was started and no
    doctor uses Add to My Patient List, a patient never has more than two
    assignment rows for a day, and never two for the same doctor. *)
Theorem X13_cap_on_import_day d ops :
  Forall (admin_day d) ops ->
  forall pid d',
    NoDup (assigned_doctors_today d' pid (db (run (initial d) ops))) /\
    (List.length (assigned_doctors_today d' pid (db (run (initial d) ops))) <= 2)%nat.
Proof.
  intros H.
  assert (G : forall w,
             assignment_date_default w = d ->
             (forall pid d',
                 NoDup (assigned_doctors_today d' pid (db w)) /\
                 (List.length (assigned_doctors_today d' pid (db w)) <= 2)%nat) ->
             forall pid d',
               NoDup (assigned_doctors_today d' pid (db (run w ops))) /\
               (List.length (assigned_doctors_today d' pid (db (run w ops))) <= 2)%nat).
  { induction H as [|op ops Hop Hops IH]; intros w Hdef K; cbn; [exact K|].
    apply IH.
    - rewrite step_default. destruct op; cbn [admin_day] in Hop; auto.
    - now apply (admin_day_cap d). }
  apply G; [reflexivity|]. intros pid d'. cbn. split; [constructor | lia].
Qed.

Lemma X13_cap_on_import_day_witness :
  (List.length
     (assigned_doctors_today day0 1
        (db (run (initial day0)
               [Register day0 "Jane Doe" "9999999999" (Some day0) "fever";
                Assign day0 1 "Dr. Das"; Assign day0 1 "Dr. Santra";
                Assign day0 1 "Dr. Ghosh"; Assign day0 1 "Dr. Das"]))) <= 2)%nat.
Proof.
  refine (proj2 (X13_cap_on_import_day day0 _ _ 1 day0)).
  repeat constructor.
Defined.

Lemma add_ok w doc i :
  snd (step w (AddToMyList doc i)) = AddedToPatientList ->
  exists appt,
    find (fun a => a_id a =? i) (my_appointments doc (db w)) = Some appt /\
    In appt (appointments (db w)) /\ a_id appt = i /\ a_doctor_name appt = doc /\
    a_status appt = "Scheduled" /\
    assignment_exists (a_patient_id appt) doc (a_date appt) (db w) = false /\
    fst (step w (AddToMyList doc i)) =
      set_db w (set_doctor_assignments (db w)
        (doctor_assignments (db w)
         ++ [mkDoctorAssignment (next_id (map da_id (doctor_assignments (db w))))
               (a_patient_id appt) doc (a_date appt)])).
Proof.
  cbn [step]. unfold manage_my_appointments_add.
  destruct (find _ _) as [appt|] eqn:E; [|discriminate].
  pose proof E as E'. unfold my_appointments in E'.
  apply find_filter_some in E' as (Hin & Hf & Hid).
  apply andb_true_iff in Hf as [Hdoc _].
  apply String_eqb_eq in Hdoc. apply Z.eqb_eq in Hid.
  destruct (String_eqb_spec (a_status appt) "Scheduled"); [|discriminate].
  destruct (assignment_exists _ _ _ _) eqn:Hex; cbn [negb]; [discriminate|].
  intros _. exists appt. repeat split; assumption.
Qed.

Lemma assignment_exists_key pid doc d s :
  assignment_exists pid doc d s = false ->
  ~ In (pid, doc, d) (map assignment_key (doctor_assignments s)).
Proof.
  unfold assignment_exists. intros H Hin.
  apply in_map_iff in Hin as (x & E & Hin).
  injection E as E1 E2 E3.
  assert (T : existsb (fun x => (da_patient_id x =? pid)
                                && String.eqb (da_doctor_name x) doc
                                && (da_assignment_date x =? d))
                (doctor_assignments s) = true); [|congruence].
  apply existsb_exists. exists x. split; [exact Hin|].
  now rewrite E1, E2, E3, !Z.eqb_refl, String_eqb_refl.
Qed.

Lemma keys_step w op :
  not_admin_assign op ->
  NoDup (map assignment_key (doctor_assignments (db w))) ->
  NoDup (map assignment_key (doctor_assignments (db (fst (step w op))))).
Proof.
  intros Hop Hnd. destruct (step_assignments w op)
    as [op' | today pid doc Hp Hd Hlen Hnin | appt Hin Hst Hex].
  - exact Hnd.
  - destruct Hop.
  - rewrite map_app. apply NoDup_snoc; [exact Hnd|].
    now apply assignment_exists_key.
Qed.

Lemma keys_run ops w :
  Forall not_admin_assign ops ->
  NoDup (map assignment_key (doctor_assignments (db w))) ->
  NoDup (map assignment_key (doctor_assignments (db (run w ops)))).
Proof.
  revert w. induction ops as [|op ops IH]; intros w Hops Hnd; [exact Hnd|].
  inversion Hops as [|? ? Hop Hops']; subst.
  change (run w (op :: ops)) with (run (fst (step w op)) ops).
  apply IH; [exact Hops' | now apply keys_step].
Qed.

(** X14. Add to My Patient List never stores the same patient, doctor and
    day twice.  A click that succeeds appends one row for the patient and
    the day of the appointment and the doctor, and no row already stored,
    however old, says the same; the same click again finds the button gone
    and changes nothing; and as long as the admin's Assign is not used, no
    sequence of clicks makes two rows for the same patient, doctor and
    day. *)
Theorem X14_add_to_list_once w doc i :
  snd (step w (AddToMyList doc i)) = AddedToPatientList ->
  let w1 := fst (step w (AddToMyList doc i)) in
  (exists appt,
     In appt (appointments (db w)) /\ a_id appt = i /\ a_doctor_name appt = doc /\
     doctor_assignments (db w1) =
       (doctor_assignments (db w)
        ++ [mkDoctorAssignment (next_id (map da_id (doctor_assignments (db w))))
              (a_patient_id appt) doc (a_date appt)])%list /\
     ~ In (a_patient_id appt, doc, a_date appt)
          (map assignment_key (doctor_assignments (db w)))) /\
  step w1 (AddToMyList doc i) = (w1, NotRendered) /\
  (forall ops,
     NoDup (map assignment_key (doctor_assignments (db w))) ->
     Forall not_admin_assign ops ->
     NoDup (map assignment_key (doctor_assignments (db (run w1 ops))))).
Proof.
  intros Hok.
  destruct (add_ok w doc i Hok) as (appt & Hf & Hin & Hid & Hdoc & Hst & Hex & E).
  cbv zeta. split; [|split].
  - exists appt. repeat split; try assumption.
    + rewrite E. reflexivity.
    + now apply assignment_exists_key.
  - rewrite E. cbn [step]. unfold manage_my_appointments_add.
    change (my_appointments doc (db (set_db w _))) with (my_appointments doc (db w)).
    rewrite Hf, Hst. cbn [String.eqb N.eqb Pos.eqb andb].
    replace (assignment_exists (a_patient_id appt) doc (a_date appt) _) with true;
      [reflexivity|].
    symmetry. unfold assignment_exists. tidy. rewrite existsb_app.
    cbn [existsb da_patient_id da_doctor_name da_assignment_date].
    now rewrite !Z.eqb_refl, String_eqb_refl, orb_true_r.
  - intros ops Hnd Hops. apply keys_run; [exact Hops|].
    apply keys_step; [exact I | exact Hnd].
Qed.

Lemma X14_add_to_list_once_witness :
  let w := run (initial day0) (firstn 2 sample_history) in
  let w1 := fst (step w (AddToMyList "Dr. Das" 1)) in
  step w1 (AddToMyList "Dr. Das" 1) = (w1, NotRendered) /\
  NoDup (map assignment_key
           (doctor_assignments
              (db (run w1 [Schedule day0 1 "Dr. Das" (Some (day0 + 1)) 0 "review";
                           AddToMyList "Dr. Das" 2; AddToMyList "Dr. Das" 1])))).
Proof.
  destruct (X14_add_to_list_once (run (initial day0) (firstn 2 sample_history))
              "Dr. Das" 1 eq_refl) as (_ & Again & Keys).
  split; [exact Again|].
  apply Keys; [constructor | repeat constructor].
Defined.

(* ================================================================== *)
(** * Scheduling and references between the tables *)

Lemma schedule_spec today pid doc de t r w :
  step w (Schedule today pid doc de t r) = (w, NotRendered) \/
  step w (Schedule today pid doc de t r) = (w, Crashed) \/
  (In pid (map p_id (patients (db w))) /\ In doc (doctors (db w)) /\
   exists mx d,
     adjust_years today 10 = Some mx /\ today <= d /\
     (forall e, de = Some e -> today <= e <= mx -> d = e) /\
     (forall e, de = Some e -> e < today \/ mx < e -> d = today) /\
     (de = None -> d = today) /\
     step w (Schedule today pid doc de t r) =
       (set_db w (set_appointments (db w)
          (appointments (db w)
           ++ [mkAppointment (next_id (map a_id (appointments (db w)))) pid doc
                 d t r "Scheduled" None])),
        AppointmentScheduled)).
Proof.
  cbn [step]. unfold manage_appointments_schedule.
  destruct (existsb _ (patients (db w))) eqn:Hp; cbn [negb]; [|now left].
  destruct (mem_string doc (doctors (db w))) eqn:Hd; cbn [negb]; [|now left].
  destruct (adjust_years today 10) as [mx|]; [|right; now left].
  right. right. split; [|split].
  - apply existsb_exists in Hp as (p & Hin & E). apply Z.eqb_eq in E.
    apply in_map_iff. now exists p.
  - now apply mem_string_In.
  - exists mx. unfold date_input. destruct de as [e|].
    + destruct (Z.leb_spec today e); destruct (Z.leb_spec e mx); cbn [andb];
        [exists e | exists today | exists today | exists today];
        repeat split; try lia; try discriminate;
        intros e' [= ->]; intros; lia.
    + exists today. repeat split; try lia; discriminate.
Qed.

Lemma step_keeps_length w op :
  (forall today pid doc de t r, op <> Schedule today pid doc de t r) ->
  List.length (appointments (db (fst (step w op)))) =
  List.length (appointments (db w)).
Proof.
  intros N. destruct (step_appointments w op)
    as [op' | today pid doc de d t r | a0 Hin0 Hst | a0 Hin0 Hst
        | a0 reason Hin0 Hst Hr].
  - reflexivity.
  - now destruct (N today pid doc de t r).
  - apply update_appointment_length.
  - apply update_appointment_length.
  - apply update_appointment_length.
Qed.

Lemma created_appointment w op i a' :
  (List.length (appointments (db w)) <= i)%nat ->
  nth_error (appointments (db (fst (step w op)))) i = Some a' ->
  exists today pid doc de t r mx,
    op = Schedule today pid doc de t r /\
    adjust_years today 10 = Some mx /\
    today <= a_date a' /\
    (forall e, de = Some e -> today <= e <= mx -> a_date a' = e) /\
    (forall e, de = Some e -> e < today \/ mx < e -> a_date a' = today) /\
    (de = None -> a_date a' = today) /\
    a_patient_id a' = pid /\ In pid (map p_id (patients (db w))) /\
    a_doctor_name a' = doc /\ In doc (doctors (db w)) /\
    a_time a' = t /\ a_reason a' = r /\
    a_status a' = "Scheduled" /\ a_cancellation_reason a' = None /\
    ~ In (a_id a') (map a_id (appointments (db w))).
Proof.
  intros Hi H.
  assert (Other : (forall today pid doc de t r,
                      op <> Schedule today pid doc de t r) -> False).
  { intros N. apply (nth_error_beyond (appointments (db (fst (step w op)))) i a');
      [|exact H].
    now rewrite (step_keeps_length w op N). }
  destruct op; try (exfalso; apply Other; discriminate). clear Other.
  rename doctor into doc, date_entered into de, appt_time into t, reason into r.
  destruct (schedule_spec today patient_id doc de t r w)
    as [E | [E | (Hp & Hd & mx & d0 & Hmx & Hle & Hin & Hout & Hno & E)]];
    rewrite E in H; cbn [fst] in H.
  - now apply nth_error_beyond in H.
  - now apply nth_error_beyond in H.
  - exists today, patient_id, doc, de, t, r, mx. split; [reflexivity|].
    tidy. apply nth_error_snoc_new in H; [|exact Hi]. subst a'.
    cbn. repeat split; auto. apply next_id_fresh.
Qed.

(** X15. Only the admin's Schedule creates appointments, and what it
    creates is well formed: a row a click adds is Scheduled with no
    cancellation reason, carries a key not in use, belongs to a stored
    patient and to a doctor's account, and is dated on or after the day of
    the click: at the date entered when that lies between the day of the
    click and the picker's upper bound, ten years later, and at the day of
    the click when the date entered lies outside or none was entered. *)
Theorem X15_created_appointment w op i a' :
  (List.length (appointments (db w)) <= i)%nat ->
  nth_error (appointments (db (fst (step w op)))) i = Some a' ->
  exists today pid doc de t r mx,
    op = Schedule today pid doc de t r /\
    adjust_years today 10 = Some mx /\
    today <= a_date a' /\
    (forall e, de = Some e -> today <= e <= mx -> a_date a' = e) /\
    (forall e, de = Some e -> e < today \/ mx < e -> a_date a' = today) /\
    (de = None -> a_date a' = today) /\
    a_patient_id a' = pid /\ In pid (map p_id (patients (db w))) /\
    a_doctor_name a' = doc /\ In doc (doctors (db w)) /\
    a_time a' = t /\ a_reason a' = r /\
    a_status a' = "Scheduled" /\ a_cancellation_reason a' = None /\
    ~ In (a_id a') (map a_id (appointments (db w))).
Proof. apply created_appointment. Qed.

Lemma X15_created_appointment_witness :
  let w := run (initial day0) (firstn 1 sample_history) in
  let op := Schedule day0 1 "Dr. Das" (Some (ymd2ord 2034 1 2)) 0 "fever" in
  exists today pid doc de t r mx,
    op = Schedule today pid doc de t r /\
    adjust_years today 10 = Some mx /\
    today <= day0 /\
    (forall e, de = Some e -> today <= e <= mx -> day0 = e) /\
    (forall e, de = Some e -> e < today \/ mx < e -> day0 = today) /\
    (de = None -> day0 = today) /\
    1 = pid /\ In pid (map p_id (patients (db w))) /\
    "Dr. Das" = doc /\ In doc (doctors (db w)) /\
    0 = t /\ "fever" = r /\
    "Scheduled" = "Scheduled" /\ @None string = None /\
    ~ In 1 (map a_id (appointments (db w))).
Proof.
  exact (X15_created_appointment
           (run (initial day0) (firstn 1 sample_history))
           (Schedule day0 1 "Dr. Das" (Some (ymd2ord 2034 1 2)) 0 "fever") 0%nat
           (mkAppointment 1 1 "Dr. Das" day0 0 "fever" "Scheduled" None)
           (le_n 0) eq_refl).
Defined.

Lemma reachable_users w :
  reachable w -> users (db w) = users (init_db empty_store).
Proof.
  intros (d0 & ops & ->).
  assert (G : forall ops w, users (db w) = users (init_db empty_store) ->
                            users (db (run w ops)) = users (init_db empty_store)).
  { clear. induction ops as [|op ops IH]; intros w H; cbn; [exact H|].
    apply IH. now apply step_users. }
  now apply G.
Qed.

Lemma step_doctors w op :
  users (db w) = users (init_db empty_store) ->
  doctors (db (fst (step w op))) = doctors (db w).
Proof.
  intros H. unfold doctors. now rewrite (step_users w op H), H.
Qed.

Lemma step_patient_ids w op k :
  In k (map p_id (patients (db w))) ->
  In k (map p_id (patients (db (fst (step w op))))).
Proof.
  intros H. destruct (step_patients w op)
    as [op' | today name mobile d reason Hf | doc pid notes
        | sid doc p0 Hin0 Hact Hflag].
  - exact H.
  - rewrite map_app. apply in_or_app. now left.
  - now rewrite update_patient_ids by reflexivity.
  - now rewrite update_patient_ids by reflexivity.
Qed.

Lemma references_step w op :
  Inv w -> users (db w) = users (init_db empty_store) ->
  references_ok (db w) -> references_ok (db (fst (step w op))).
Proof.
  intros HI Hu [Ha Hx]. split.
  - intros a' Hin'. apply In_nth_error in Hin' as (i & Hi').
    rewrite (step_doctors w op Hu).
    destruct (Nat.lt_ge_cases i (List.length (appointments (db w)))) as [Hlt | Hge].
    + destruct (nth_error (appointments (db w)) i) as [a|] eqn:Hi;
        [|apply nth_error_None in Hi; lia].
      destruct (step_appointment_row w op i a HI Hi) as (a2 & H2 & Hch).
      assert (a2 = a') by congruence. subst a2.
      destruct (Ha a (nth_error_In _ _ Hi)) as [Hp Hd].
      assert (E : a_patient_id a' = a_patient_id a /\
                  a_doctor_name a' = a_doctor_name a)
        by (inversion Hch; subst; auto).
      destruct E as [-> ->]. split; [now apply step_patient_ids | exact Hd].
    + destruct (created_appointment w op i a' Hge Hi')
        as (today & pid & doc & de & t & r & mx & _ & _ & _ & _ & _ & _ & -> & Hp
              & -> & Hd & _).
      split; [now apply step_patient_ids | exact Hd].
  - intros x Hin'. apply step_patient_ids.
    destruct (step_assignments w op)
      as [op' | today pid doc Hp Hd Hlen Hnin | appt Hin Hst Hex].
    + now apply Hx.
    + apply in_app_or in Hin' as [Hin' | [<- | []]]; [now apply Hx|].
      cbn. apply existsb_exists in Hp as (p & Hpin & E). apply Z.eqb_eq in E.
      apply in_map_iff. now exists p.
    + apply in_app_or in Hin' as [Hin' | [<- | []]]; [now apply Hx|].
      cbn. now apply Ha.
Qed.

Lemma references_run ops : forall w,
  Inv w -> users (db w) = users (init_db empty_store) ->
  references_ok (db w) -> references_ok (db (run w ops)).
Proof.
  induction ops as [|op ops IH]; intros w HI Hu Hr; cbn; [exact Hr|].
  apply IH; [now apply Inv_step | now apply step_users | now apply references_step].
Qed.

Lemma reachable_references w : reachable w -> references_ok (db w).
Proof.
  intros (d0 & ops & ->). apply references_run.
  - apply Inv_initial.
  - reflexivity.
  - split; intros x [].
Qed.

(** X16. No row is ever orphaned: in every state of the server each
    appointment and each doctor assignment refers to a stored patient, and
    each appointment to the account of a doctor. *)
Theorem X16_no_orphans w :
  reachable w ->
  (forall a, In a (appointments (db w)) ->
     (exists p, In p (patients (db w)) /\ p_id p = a_patient_id a) /\
     (exists u, In u (users (db w)) /\ u_username u = a_doctor_name a /\
                u_role u = "Doctor")) /\
  (forall x, In x (doctor_assignments (db w)) ->
     exists p, In p (patients (db w)) /\ p_id p = da_patient_id x).
Proof.
  intros R. destruct (reachable_references w R) as [Ha Hx]. split.
  - intros a Hin. destruct (Ha a Hin) as [Hp Hd]. split.
    + apply in_map_iff in Hp as (p & E & Hp). now exists p.
    + unfold doctors in Hd. apply in_map_iff in Hd as (u & E & Hu).
      apply filter_In in Hu as [Hu Hr]. apply String_eqb_eq in Hr.
      now exists u.
  - intros x Hin. specialize (Hx x Hin).
    apply in_map_iff in Hx as (p & E & Hp). now exists p.
Qed.

Lemma X16_no_orphans_witness :
  (exists p, In p (patients (db sample_world)) /\ p_id p = 1) /\
  (exists u, In u (users (db sample_world)) /\ u_username u = "Dr. Das" /\
             u_role u = "Doctor").
Proof.
  exact (proj1 (X16_no_orphans sample_world sample_world_reachable)
           (mkAppointment 1 1 "Dr. Das" day0 0 "fever" "Cancellation Requested"
              (Some "relocating"))
           (or_introl eq_refl)).
Defined.

(** X17. Add to My Patient List does what its name says: after it has
    succeeded for an appointment, the patient of that appointment, if the
    case is still Active, is shown to the doctor under My Patients. *)
Theorem X17_added_patient_is_listed w doc i :
  reachable w ->
  snd (step w (AddToMyList doc i)) = AddedToPatientList ->
  exists appt p,
    In appt (appointments (db w)) /\ a_id appt = i /\
    In p (patients (db w)) /\ p_id p = a_patient_id appt /\
    (p_status p = "Active" ->
     In p (active_patients doc (db (fst (step w (AddToMyList doc i)))))).
Proof.
  intros R Hok.
  destruct (add_ok w doc i Hok) as (appt & _ & Hin & Hid & Hdoc & _ & _ & E).
  destruct (reachable_references w R) as [Ha _].
  destruct (Ha appt Hin) as [Hp _].
  apply in_map_iff in Hp as (p & Ep & Hp).
  exists appt, p. repeat split; try assumption.
  intros Hact. rewrite E. unfold active_patients. tidy.
  apply filter_In. split; [exact Hp|].
  rewrite Hact, String_eqb_refl, andb_true_r.
  apply existsb_exists. exists (p_id p). split; [|apply Z.eqb_refl].
  rewrite filter_app, map_app. apply in_or_app. right.
  cbn [filter da_doctor_name]. rewrite String_eqb_refl. cbn. now left.
Qed.

Lemma X17_added_patient_is_listed_witness :
  exists appt p,
    In appt (appointments (db (run (initial day0) (firstn 2 sample_history)))) /\
    a_id appt = 1 /\
    In p (patients (db (run (initial day0) (firstn 2 sample_history)))) /\
    p_id p = a_patient_id appt /\
    (p_status p = "Active" ->
     In p (active_patients "Dr. Das"
             (db (fst (step (run (initial day0) (firstn 2 sample_history))
                         (AddToMyList "Dr. Das" 1)))))).
Proof.
  apply X17_added_patient_is_listed;
    [exists day0, (firstn 2 sample_history); reflexivity | reflexivity].
Defined.

(* ================================================================== *)
(** * The doctor's dashboard *)

Lemma insert_by_time_perm a l : Permutation (a :: l) (insert_by_time a l).
Proof.
  induction l as [|b l IH]; cbn; [reflexivity|].
  destruct (a_time a <=? a_time b); [reflexivity|].
  rewrite perm_swap. now constructor.
Qed.

Lemma order_by_time_perm l : Permutation l (order_by_time l).
Proof.
  induction l as [|a l IH]; cbn; [constructor|].
  rewrite <- insert_by_time_perm. now constructor.
Qed.

Lemma insert_by_time_hd a b l :
  time_le b a -> HdRel time_le b l -> HdRel time_le b (insert_by_time a l).
Proof.
  intros Hba H. destruct l as [|c l]; cbn; [now constructor|].
  destruct (a_time a <=? a_time c); constructor; [exact Hba|].
  now inversion H.
Qed.

Lemma insert_by_time_sorted a l :
  Sorted time_le l -> Sorted time_le (insert_by_time a l).
Proof.
  induction 1 as [|b l Hs IH Hb]; cbn; [repeat constructor|].
  destruct (Z.leb_spec (a_time a) (a_time b)).
  - constructor; [now constructor | now constructor].
  - constructor; [exact IH|]. apply insert_by_time_hd; [|exact Hb].
    unfold time_le. lia.
Qed.

Lemma order_by_time_sorted l : Sorted time_le (order_by_time l).
Proof.
  induction l as [|a l IH]; cbn; [constructor | now apply insert_by_time_sorted].
Qed.

(** X18. The dashboard's appointment list holds exactly the doctor's
    appointments that are dated today and still Scheduled, each as often
    as it is stored, in ascending order of time. *)
Theorem X18_dashboard_appointments doc today s :
  let l := snd (show_doctor_overview doc today s) in
  Sorted time_le l /\
  Permutation l
    (filter (fun a => String.eqb (a_doctor_name a) doc && (a_date a =? today)
                      && String.eqb (a_status a) "Scheduled")
       (appointments s)) /\
  (forall a, In a l <->
     In a (appointments s) /\ a_doctor_name a = doc /\ a_date a = today /\
     a_status a = "Scheduled").
Proof.
  cbn [show_doctor_overview snd]. split; [apply order_by_time_sorted|].
  split; [symmetry; apply order_by_time_perm|].
  intros a. split.
  - intros H. apply (Permutation_in _ (Permutation_sym (order_by_time_perm _))) in H.
    apply filter_In in H as [Hin Hf].
    apply andb_true_iff in Hf as [Hf Hs]. apply andb_true_iff in Hf as [Hd Ht].
    apply String_eqb_eq in Hd, Hs. apply Z.eqb_eq in Ht. auto.
  - intros (Hin & Hd & Ht & Hs).
    apply (Permutation_in _ (order_by_time_perm _)).
    apply filter_In. split; [exact Hin|].
    now rewrite Hd, Ht, Hs, String_eqb_refl, Z.eqb_refl.
Qed.

Lemma NoDup_map_filter {A} (key : A -> Z) (f : A -> bool) l :
  NoDup (map key l) -> NoDup (map key (filter f l)).
Proof.
  induction l as [|a l IH]; cbn; intros H; [constructor|].
  inversion H as [|? ? Hn Hnd]; subst.
  destruct (f a); cbn; [|now apply IH].
  constructor; [|now apply IH].
  intros Hin. apply Hn. apply in_map_iff in Hin as (x & E & Hx).
  apply filter_In in Hx as [Hx _]. apply in_map_iff. now exists x.
Qed.

(** X19. The dashboard's patient list holds exactly the Active patients
    who have an assignment to the doctor dated today; a patient with
    several such rows is listed once. *)
Theorem X19_dashboard_patients w doc today :
  reachable w ->
  let l := fst (show_doctor_overview doc today (db w)) in
  NoDup (map p_id l) /\
  (forall p, In p l <->
     In p (patients (db w)) /\ p_status p = "Active" /\
     exists x, In x (doctor_assignments (db w)) /\ da_doctor_name x = doc /\
               da_assignment_date x = today /\ da_patient_id x = p_id p).
Proof.
  intros R. cbn [show_doctor_overview fst]. split.
  - apply NoDup_map_filter, (inv_patient_ids w (reachable_Inv w R)).
  - intros p. rewrite filter_In, andb_true_iff, existsb_exists.
    split.
    + intros (Hin & (k & Hk & E) & Hs).
      apply String_eqb_eq in Hs. apply Z.eqb_eq in E. subst k.
      apply in_map_iff in Hk as (x & Ex & Hx).
      apply filter_In in Hx as [Hx Hf]. apply andb_true_iff in Hf as [Hd Ht].
      apply String_eqb_eq in Hd. apply Z.eqb_eq in Ht.
      repeat split; try assumption. now exists x.
    + intros (Hin & Hs & x & Hx & Hd & Ht & Ex).
      repeat split; [exact Hin | | now rewrite Hs].
      exists (p_id p). split; [|apply Z.eqb_refl].
      apply in_map_iff. exists x. split; [exact Ex|].
      apply filter_In. split; [exact Hx|].
      now rewrite Hd, Ht, String_eqb_refl, Z.eqb_refl.
Qed.

Lemma X19_dashboard_patients_witness :
  NoDup (map p_id (fst (show_doctor_overview "Dr. Das" day0 (db sample_world)))).
Proof.
  exact (proj1 (X19_dashboard_patients sample_world "Dr. Das" day0
                  sample_world_reachable)).
Defined.

(* ================================================================== *)
(** * Doctor statistics *)

Lemma indicator_sum (x : string) ds :
  NoDup ds -> In x ds ->
  list_sum (map (fun d => if String.eqb x d then 1 else 0)%nat ds) = 1%nat.
Proof.
  induction ds as [|d ds IH]; cbn; [easy|].
  intros Hnd Hin. inversion Hnd as [|? ? Hn Hnd']; subst.
  destruct (String_eqb_spec x d) as [->|Hne].
  - cbn. f_equal.
    clear -Hn. induction ds as [|e ds IH]; cbn; [reflexivity|].
    destruct (String_eqb_spec d e) as [->|]; [exfalso; apply Hn; now left|].
    apply IH. intros H. apply Hn. now right.
  - destruct Hin as [->|Hin]; [contradiction|]. now apply IH.
Qed.

Lemma list_sum_cons x l : list_sum (x :: l) = (x + list_sum l)%nat.
Proof. reflexivity. Qed.

Lemma count_partition {A} (key : A -> string) ds l :
  NoDup ds -> (forall a, In a l -> In (key a) ds) ->
  list_sum (map (fun d => List.length (filter (fun a => String.eqb (key a) d) l)) ds)
  = List.length l.
Proof.
  intros Hnd. induction l as [|a l IH]; intros Hin.
  - clear. induction ds as [|d ds IHd]; cbn; [reflexivity | exact IHd].
  - assert (E : forall ds,
               list_sum (map (fun d => List.length
                                (filter (fun x => String.eqb (key x) d) (a :: l)))
                           ds) =
               (list_sum (map (fun d => if String.eqb (key a) d then 1 else 0) ds)
                + list_sum (map (fun d => List.length
                                  (filter (fun x => String.eqb (key x) d) l)) ds))%nat).
    { clear. induction ds as [|d ds IHd]; cbn [map]; [reflexivity|].
      rewrite !list_sum_cons, IHd. cbn [filter].
      destruct (String.eqb (key a) d); cbn [List.length]; lia. }
    rewrite E, (indicator_sum (key a) ds Hnd (Hin a (or_introl eq_refl))).
    rewrite IH by (intros x Hx; apply Hin; now right). reflexivity.
Qed.

Lemma seeded_doctors s :
  users s = users (init_db empty_store) ->
  doctors s = ["Dr. Das"; "Dr. Santra"; "Dr. Banarjee"; "Dr. Ghosh"].
Proof. unfold doctors. now intros ->. Qed.

Lemma seeded_doctors_NoDup :
  NoDup ["Dr. Das"; "Dr. Santra"; "Dr. Banarjee"; "Dr. Ghosh"].
Proof.
  repeat constructor; cbn; intros H;
    repeat (destruct H as [H | H]; [discriminate|]); exact H.
Qed.

(** X20. The statistics page accounts for every appointment once: the
    Total Appointments figures of the doctors add up to the number of
    appointments stored, whatever their status. *)
Theorem X20_statistics_add_up w :
  reachable w ->
  list_sum (map snd (show_doctor_statistics (db w))) =
  List.length (appointments (db w)).
Proof.
  intros R. unfold show_doctor_statistics. rewrite map_map. cbn [snd].
  unfold total_appointments.
  apply (count_partition a_doctor_name).
  - rewrite (seeded_doctors _ (reachable_users w R)). apply seeded_doctors_NoDup.
  - intros a Hin. now apply (reachable_references w R).
Qed.

Lemma X20_statistics_add_up_witness :
  list_sum (map snd (show_doctor_statistics
                       (db (run (initial day0) cap_history)))) = 3%nat.
Proof.
  rewrite X20_statistics_add_up;
    [reflexivity | exists day0, cap_history; reflexivity].
Defined.

Lemma filter_map_length {A B} (f : A -> B) (g : B -> bool) l :
  List.length (filter (fun a => g (f a)) l) = List.length (filter g (map f l)).
Proof.
  induction l as [|a l IH]; cbn; [reflexivity|].
  destruct (g (f a)); cbn; now rewrite IH.
Qed.

Lemma step_doctor_names w op :
  exists extra,
    map a_doctor_name (appointments (db (fst (step w op)))) =
    (map a_doctor_name (appointments (db w)) ++ extra)%list.
Proof.
  destruct (step_appointments w op)
    as [op' | today pid doc de d t r | a0 Hin0 Hst | a0 Hin0 Hst
        | a0 reason Hin0 Hst Hr].
  - exists []. now rewrite app_nil_r.
  - eexists. now rewrite map_app.
  - exists []. rewrite app_nil_r. unfold update_appointment. rewrite map_map.
    apply map_ext. intros a. now destruct (a_id a =? a_id a0).
  - exists []. rewrite app_nil_r. unfold update_appointment. rewrite map_map.
    apply map_ext. intros a. now destruct (a_id a =? a_id a0).
  - exists []. rewrite app_nil_r. unfold update_appointment. rewrite map_map.
    apply map_ext. intros a. now destruct (a_id a =? a_id a0).
Qed.

Lemma step_assignments_grow w op :
  exists extra,
    doctor_assignments (db (fst (step w op))) =
    (doctor_assignments (db w) ++ extra)%list.
Proof.
  destruct (step_assignments w op)
    as [op' | today pid doc Hp Hd Hlen Hnin | appt Hin Hst Hex];
    [exists []; now rewrite app_nil_r | eexists; reflexivity
    | eexists; reflexivity].
Qed.

Lemma nodup_length_app (l e : list Z) :
  (List.length (nodup Z.eq_dec l) <= List.length (nodup Z.eq_dec (l ++ e)))%nat.
Proof.
  apply NoDup_incl_length; [apply NoDup_nodup|].
  intros x Hx. apply nodup_In. apply nodup_In in Hx.
  apply in_or_app. now left.
Qed.

Lemma statistics_step w op doc :
  (total_patients doc (db w) <= total_patients doc (db (fst (step w op))))%nat /\
  (total_appointments doc (db w)
   <= total_appointments doc (db (fst (step w op))))%nat.
Proof.
  split.
  - unfold total_patients.
    destruct (step_assignments_grow w op) as [extra ->].
    rewrite filter_app, map_app. apply nodup_length_app.
  - unfold total_appointments.
    rewrite !(filter_map_length a_doctor_name (fun n => String.eqb n doc)).
    destruct (step_doctor_names w op) as [extra ->].
    rewrite filter_app, length_app. lia.
Qed.

(** X21. The figures of the statistics page never go down: whatever is
    clicked, in any order, a doctor's count of unique patients and count
    of appointments stay or grow; cancelling an appointment or completing
    a case does not lower them. *)
Theorem X21_statistics_never_decrease w ops doc :
  (total_patients doc (db w) <= total_patients doc (db (run w ops)))%nat /\
  (total_appointments doc (db w) <= total_appointments doc (db (run w ops)))%nat.
Proof.
  revert w. induction ops as [|op ops IH]; intros w.
  - split; apply le_n.
  - change (run w (op :: ops)) with (run (fst (step w op)) ops).
    destruct (statistics_step w op doc), (IH (fst (step w op))). lia.
Qed.

(** X22. A doctor's count of unique patients counts each patient once: it
    exceeds neither the number of the doctor's assignment rows nor the
    number of patients stored. *)
Theorem X22_unique_patients_bound w doc :
  reachable w ->
  (total_patients doc (db w)
   <= List.length (filter (fun a => String.eqb (da_doctor_name a) doc)
                     (doctor_assignments (db w))))%nat /\
  (total_patients doc (db w) <= List.length (patients (db w)))%nat.
Proof.
  intros R. unfold total_patients. split.
  - rewrite <- (length_map da_patient_id (filter _ _)).
    apply NoDup_incl_length; [apply NoDup_nodup|].
    intros x Hx. now apply nodup_In in Hx.
  - rewrite <- (length_map p_id (patients (db w))).
    apply NoDup_incl_length; [apply NoDup_nodup|].
    intros k Hk. apply nodup_In in Hk.
    apply in_map_iff in Hk as (x & <- & Hx). apply filter_In in Hx as [Hx _].
    now apply (reachable_references w R).
Qed.

Lemma X22_unique_patients_bound_witness :
  (total_patients "Dr. Das" (db sample_world)
   <= List.length (patients (db sample_world)))%nat.
Proof.
  exact (proj2 (X22_unique_patients_bound sample_world "Dr. Das"
                  sample_world_reachable)).
Defined.

(* ================================================================== *)
(** * More on the calendar page *)

Lemma filter_length_bound {A} (f : A -> bool) l :
  (List.length (filter f l) <= List.length l)%nat.
Proof.
  induction l as [|a l IH]; cbn; [lia|]. destruct (f a); cbn; lia.
Qed.

(** X23. Whenever the calendar page renders, the figure for this week does
    not exceed the figure for this month. *)
Theorem X23_week_within_month today s wk mo :
  show_dashboard_calendar today s = Some (wk, mo) -> (wk <= mo)%nat.
Proof.
  rewrite show_dashboard_calendar_eq.
  destruct (date_add_days (first_day_of_month today) 32) as [later|];
    cbn [bind_opt]; [|discriminate].
  destruct (date_add_days (replace_day1 later) (-1)) as [e|];
    cbn [bind_opt]; [|discriminate].
  destruct (date_add_days today (- weekday today)) as [ws|];
    cbn [bind_opt]; [|discriminate].
  intros [= <- <-]. apply filter_length_bound.
Qed.

Lemma X23_week_within_month_witness :
  let today := ymd2ord 2024 1 3 in
  let s := db (run (initial today)
                 [Register today "Jane Doe" "9999999999" (Some today) "fever";
                  Schedule today 1 "Dr. Das" (Some (ymd2ord 2024 1 5)) 0 "fever"]) in
  show_dashboard_calendar today s = Some (0%nat, 1%nat) /\ (0 <= 1)%nat.
Proof.
  split; [reflexivity|].
  exact (X23_week_within_month (ymd2ord 2024 1 3)
           (db (run (initial (ymd2ord 2024 1 3))
                  [Register (ymd2ord 2024 1 3) "Jane Doe" "9999999999"
                     (Some (ymd2ord 2024 1 3)) "fever";
                   Schedule (ymd2ord 2024 1 3) 1 "Dr. Das"
                     (Some (ymd2ord 2024 1 5)) 0 "fever"]))
           0%nat 1%nat eq_refl).
Defined.

Lemma calendar_reads_dates today s1 s2 :
  map a_date (appointments s1) = map a_date (appointments s2) ->
  show_dashboard_calendar today s1 = show_dashboard_calendar today s2.
Proof.
  intros E. rewrite !show_dashboard_calendar_eq.
  destruct (date_add_days (first_day_of_month today) 32) as [later|];
    cbn [bind_opt]; [|reflexivity].
  destruct (date_add_days (replace_day1 later) (-1)) as [e|];
    cbn [bind_opt]; [|reflexivity].
  destruct (date_add_days today (- weekday today)) as [ws|];
    cbn [bind_opt]; [|reflexivity].
  rewrite !filter_filter_length.
  rewrite !(filter_map_length a_date
              (fun d => (first_day_of_month today <=? d) && (d <=? e)
                        && ((ws <=? d) && (d <=? today)))).
  rewrite !(filter_map_length a_date
              (fun d => (first_day_of_month today <=? d) && (d <=? e))).
  now rewrite E.
Qed.

Lemma step_dates w op :
  (forall today pid doc de t r, op <> Schedule today pid doc de t r) ->
  map a_date (appointments (db (fst (step w op)))) =
  map a_date (appointments (db w)).
Proof.
  intros N. destruct (step_appointments w op)
    as [op' | today pid doc de d t r | a0 Hin0 Hst | a0 Hin0 Hst
        | a0 reason Hin0 Hst Hr].
  - reflexivity.
  - now destruct (N today pid doc de t r).
  - unfold update_appointment. rewrite map_map.
    apply map_ext. intros a. now destruct (a_id a =? a_id a0).
  - unfold update_appointment. rewrite map_map.
    apply map_ext. intros a. now destruct (a_id a =? a_id a0).
  - unfold update_appointment. rewrite map_map.
    apply map_ext. intros a. now destruct (a_id a =? a_id a0).
Qed.

(** X24. The calendar figures count appointments whatever their status:
    no click other than scheduling a new appointment changes them, so a
    requested, approved or denied cancellation leaves both figures as
    they were. *)
Theorem X24_calendar_ignores_status w op today :
  (forall today' pid doc de t r, op <> Schedule today' pid doc de t r) ->
  show_dashboard_calendar today (db (fst (step w op))) =
  show_dashboard_calendar today (db w).
Proof. intros N. apply calendar_reads_dates. now apply step_dates. Qed.

Lemma X24_calendar_ignores_status_witness :
  show_dashboard_calendar day0 (db (fst (step sample_world (Approve 1)))) =
  show_dashboard_calendar day0 (db sample_world).
Proof.
  apply X24_calendar_ignores_status. discriminate.
Defined.

(* ================================================================== *)
(** * More on seeding *)

Lemma add_user_same name role s : has_user name s = true -> add_user name role s = s.
Proof. unfold add_user. now intros ->. Qed.

Lemma add_user_has name role s : has_user name (add_user name role s) = true.
Proof.
  unfold add_user. destruct (has_user name s) eqn:E; [exact E|].
  unfold has_user. cbn [users set_users]. rewrite existsb_app. cbn.
  now rewrite String_eqb_refl, orb_true_r.
Qed.

Lemma add_user_keeps name role s n :
  has_user n s = true -> has_user n (add_user name role s) = true.
Proof.
  unfold add_user. intros H. destruct (has_user name s); [exact H|].
  unfold has_user in *. cbn [users set_users]. rewrite existsb_app, H.
  reflexivity.
Qed.

Lemma add_user_prefix name role s :
  exists extra, users (add_user name role s) = (users s ++ extra)%list.
Proof.
  unfold add_user. destruct (has_user name s).
  - exists []. now rewrite app_nil_r.
  - eexists. reflexivity.
Qed.

Lemma init_db_has s n :
  In n ["admin"; "Dr. Das"; "Dr. Santra"; "Dr. Banarjee"; "Dr. Ghosh"] ->
  has_user n (init_db s) = true.
Proof.
  unfold init_db. cbn [fold_left].
  intros [<- | [<- | [<- | [<- | [<- | []]]]]];
    repeat first [apply add_user_has | apply add_user_keeps].
Qed.

Lemma init_db_twice s : init_db (init_db s) = init_db s.
Proof.
  unfold init_db at 1. cbn [fold_left].
  rewrite (add_user_same "admin" "Admin") by (apply init_db_has; cbn; auto 10).
  rewrite (add_user_same "Dr. Das" "Doctor") by (apply init_db_has; cbn; auto 10).
  rewrite (add_user_same "Dr. Santra" "Doctor") by (apply init_db_has; cbn; auto 10).
  rewrite (add_user_same "Dr. Banarjee" "Doctor")
    by (apply init_db_has; cbn; auto 10).
  now rewrite (add_user_same "Dr. Ghosh" "Doctor")
    by (apply init_db_has; cbn; auto 10).
Qed.

(** X25. Seeding only ever adds what is missing.  [init_db] keeps every
    user row it finds, unchanged and in place, touches no other table,
    leaves each of the five account names present, and run a second time
    changes nothing. *)
Theorem X25_init_db_idempotent s :
  (exists extra, users (init_db s) = (users s ++ extra)%list) /\
  patients (init_db s) = patients s /\
  appointments (init_db s) = appointments s /\
  doctor_assignments (init_db s) = doctor_assignments s /\
  (forall n, In n ["admin"; "Dr. Das"; "Dr. Santra"; "Dr. Banarjee"; "Dr. Ghosh"] ->
             has_user n (init_db s) = true) /\
  init_db (init_db s) = init_db s.
Proof.
  split; [|split; [|split; [|split; [|split]]]];
    try apply init_db_frame; [|apply init_db_has|apply init_db_twice].
  unfold init_db. cbn [fold_left].
  repeat match goal with
  | |- context [users (add_user ?n ?r ?x)] =>
      let e := fresh "e" in let E := fresh "E" in
      destruct (add_user_prefix n r x) as [e E]; rewrite E; clear E
  end.
  rewrite <- !app_assoc. eexists. reflexivity.
Qed.

(* ================================================================== *)
(** * More on registration *)

Lemma strip_all_space s : all_space s = true -> strip s = EmptyString.
Proof. intros H. unfold strip. now rewrite (lstrip_space_only s H). Qed.

(** X26. The form is validated before the texts are stripped: a name, a
    mobile and a reason made of whitespace only count as filled in, and,
    no patient with an empty mobile being stored yet, the registration
    succeeds and stores a patient whose name, mobile and reason are
    empty. *)
Theorem X26_blank_fields_accepted w (today : date) name mobile (d : date) reason :
  30 < today <= MAXORDINAL -> today - 30 <= d <= today ->
  all_space name = true -> name <> EmptyString ->
  all_space mobile = true -> mobile <> EmptyString ->
  all_space reason = true -> reason <> EmptyString ->
  ~ In EmptyString (map p_mobile (patients (db w))) ->
  step w (Register today name mobile (Some d) reason) =
    (set_db w (set_patients (db w)
       (patients (db w)
        ++ [mkPatient (next_id (map p_id (patients (db w)))) EmptyString
              EmptyString (Some d) (Some EmptyString) "Active" None])),
     RegistrationSuccessful).
Proof.
  intros Ht Hd Hn Hn' Hm Hm' Hr Hr' Hfree.
  cbn [step]. unfold show_auth_page_register.
  rewrite date_add_days_in_range by lia.
  unfold date_input.
  replace ((today + -30 <=? d) && (d <=? today)) with true
    by (symmetry; apply andb_true_iff; split; apply Z.leb_le; lia).
  destruct name as [|c1 n1]; [contradiction|].
  destruct mobile as [|c2 m2]; [contradiction|].
  destruct reason as [|c3 r3]; [contradiction|].
  cbn [forallb truthy is_empty negb is_some andb].
  rewrite (strip_all_space _ Hn), (strip_all_space _ Hm), (strip_all_space _ Hr).
  destruct (find _ (patients (db w))) as [p|] eqn:E; [|reflexivity].
  exfalso. apply find_some in E as [Hin He]. apply String_eqb_eq in He.
  apply Hfree. rewrite <- He. now apply in_map.
Qed.

Lemma X26_blank_fields_accepted_witness :
  map (fun p => (p_name p, p_mobile p, p_reason_to_visit p))
    (patients (db (fst (step (initial day0)
                          (Register day0 "  " " " (Some day0) "   "))))) =
  [(EmptyString, EmptyString, Some EmptyString)].
Proof.
  rewrite (X26_blank_fields_accepted (initial day0) day0 "  " " " day0 "   ").
  - reflexivity.
  - vm_compute. split; [reflexivity | discriminate].
  - vm_compute. split; discriminate.
  - reflexivity.
  - discriminate.
  - reflexivity.
  - discriminate.
  - reflexivity.
  - discriminate.
  - intros [].
Defined.

(** A stored patient as registration leaves it. *)
Lemma registered_fields w op :
  Forall (fun p => p_dob p <> None /\ trimmed (p_name p) /\ trimmed (p_mobile p) /\
                   exists r, p_reason_to_visit p = Some r /\ trimmed r)
    (patients (db w)) ->
  Forall (fun p => p_dob p <> None /\ trimmed (p_name p) /\ trimmed (p_mobile p) /\
                   exists r, p_reason_to_visit p = Some r /\ trimmed r)
    (patients (db (fst (step w op)))).
Proof.
  intros H. destruct (step_patients w op)
    as [op' | today name mobile d reason Hf | doc pid notes
        | sid doc p0 Hin0 Hact Hflag].
  - exact H.
  - apply Forall_snoc; [exact H|]. cbn. repeat split; try apply strip_trimmed.
    + discriminate.
    + eexists. split; [reflexivity | apply strip_trimmed].
  - apply Forall_update_patient; [exact H | now intros p Hp].
  - apply Forall_update_patient; [exact H | now intros p Hp].
Qed.

(** X27. Every patient in the database came in through the registration
    form: in every state of the server each stored patient has a date of
    birth and a reason for the visit (although both columns may be null),
    and name, mobile and reason carry no whitespace at either end. *)
Theorem X27_stored_patients_well_formed w p :
  reachable w -> In p (patients (db w)) ->
  p_dob p <> None /\ trimmed (p_name p) /\ trimmed (p_mobile p) /\
  exists r, p_reason_to_visit p = Some r /\ trimmed r.
Proof.
  intros (d0 & ops & ->).
  assert (G : forall ops w,
             Forall (fun p => p_dob p <> None /\ trimmed (p_name p) /\
                              trimmed (p_mobile p) /\
                              exists r, p_reason_to_visit p = Some r /\ trimmed r)
               (patients (db w)) ->
             Forall (fun p => p_dob p <> None /\ trimmed (p_name p) /\
                              trimmed (p_mobile p) /\
                              exists r, p_reason_to_visit p = Some r /\ trimmed r)
               (patients (db (run w ops)))).
  { clear. induction ops as [|op ops IH]; intros w H; cbn; [exact H|].
    apply IH. now apply registered_fields. }
  intros Hin. specialize (G ops (initial d0) (Forall_nil _)).
  rewrite Forall_forall in G. now apply G.
Qed.

Lemma X27_stored_patients_well_formed_witness :
  let w := run (initial day0)
             [Register day0 (String 12288 "Jane Doe ") "9999999999" (Some day0)
                (String 8195 "fever")] in
  map (fun p => (p_name p, p_reason_to_visit p)) (patients (db w)) =
    [("Jane Doe", Some "fever")] /\
  trimmed "Jane Doe".
Proof.
  split; [reflexivity|].
  refine (proj1 (proj2 (X27_stored_patients_well_formed
            (run (initial day0)
               [Register day0 (String 12288 "Jane Doe ") "9999999999" (Some day0)
                  (String 8195 "fever")])
            (mkPatient 1 "Jane Doe" "9999999999" (Some day0) (Some "fever")
               "Active" None) _ _))).
  - exists day0. eexists. reflexivity.
  - now left.
Defined.

(* ================================================================== *)
(** * Sessions: login, pages by role, logout *)

Lemma seeded_find role username s :
  users s = users (init_db empty_store) ->
  forall u,
    find (fun u => String.eqb (u_username u) username && String.eqb (u_role u) role)
      (users s) = Some u ->
    seeded_account username role /\ In u (users s) /\
    u_username u = username /\ u_role u = role.
Proof.
  intros E u H. apply find_some in H as [Hin Hb].
  apply andb_true_iff in Hb as [Hn Hr].
  apply String_eqb_eq in Hn, Hr. repeat split; try assumption.
  rewrite E in Hin. subst. unfold seeded_account.
  cbn in Hin. destruct Hin as [<- | [<- | [<- | [<- | [<- | []]]]]]; cbn; auto 10.
Qed.

(** X28. Login is by name and role together.  In every state of the
    server a login succeeds only for one of the five seeded accounts,
    under its own role, with a password [bcrypt.checkpw] accepts for the
    stored row; the session then carries that name and role.  Any other
    pair of name and role is turned away with the session unchanged,
    whatever the password. *)
Theorem X28_login_by_name_and_role (checkpw : string -> User -> bool)
  role username password ss w :
  reachable w ->
  (snd (show_auth_page_login checkpw role username password ss w) = LoggedIn ->
   seeded_account username role /\
   (exists u, In u (users (db w)) /\ u_username u = username /\ u_role u = role /\
              checkpw password u = true) /\
   fst (show_auth_page_login checkpw role username password ss w) =
     mkSession true username role (logout_flow_active ss) (logout_flow_doctor ss)) /\
  (~ seeded_account username role ->
   show_auth_page_login checkpw role username password ss w =
     (ss, InvalidCredentials)).
Proof.
  intros R. apply reachable_users in R.
  pose proof (seeded_find role username (db w) R) as F.
  unfold show_auth_page_login.
  destruct (find _ (users (db w))) as [u|]; [|split; [discriminate | reflexivity]].
  destruct (F u eq_refl) as (Hs & Hin & Hn & Hr).
  split; [|intros N; now destruct (N Hs)].
  destruct (checkpw password u) eqn:C; [|discriminate].
  intros _. split; [exact Hs|]. split; [|reflexivity].
  exists u. auto.
Qed.

Lemma X28_login_by_name_and_role_witness :
  seeded_account "Dr. Das" "Doctor".
Proof.
  refine (proj1 (proj1 (X28_login_by_name_and_role
                          (fun password _ => String.eqb password "@123")
                          "Doctor" "Dr. Das" "@123" no_keys sample_world
                          sample_world_reachable) _)).
  reflexivity.
Defined.

Lemma entitled_admin sid ss c :
  login_status ss = true -> String.eqb (role ss) "Admin" = true ->
  logout_flow_active ss = false -> entitled sid ss (admin_op c).
Proof.
  intros L R F. apply String_eqb_eq in R. destruct c; cbn; auto.
Qed.

Lemma entitled_doctor sid ss c :
  login_status ss = true -> String.eqb (role ss) "Doctor" = true ->
  logout_flow_doctor ss = false -> entitled sid ss (doctor_op sid (username ss) c).
Proof.
  intros L R F. apply String_eqb_eq in R. destruct c; cbn; auto 10.
Qed.

(** X29. The pages respect the roles.  One run of the script for a
    session either leaves the seeded database and every confirmation flag
    as they are, or is a confirmed logout of a logged-in session, or is
    exactly one of the clicks the session is entitled to: registration
    for a visitor who is not logged in; assigning, scheduling, approving
    and denying for an admin; the doctor pages, under the session's own
    user name and flags, for a doctor; no click at all while a logout is
    waiting for its confirmation. *)
Theorem X29_pages_respect_roles (checkpw : string -> User -> bool) sid ss w ev :
  let w0 := set_db w (init_db (db w)) in
  let r := main checkpw sid ss w ev in
  (snd (fst r) = w0 /\ (snd r = NoMessage \/ snd r = NotRendered)) \/
  (ev = EvLogoutYes /\ login_status ss = true /\
   r = (no_keys, clear_session sid w0, NoMessage)) \/
  (exists op, entitled sid ss op /\ r = (ss, fst (step w0 op), snd (step w0 op))).
Proof.
  cbv zeta. unfold main.
  destruct (login_status ss) eqn:L; cbn [negb].
  - destruct (String.eqb (role ss) "Admin") eqn:RA.
    + unfold show_admin_navigation.
      destruct (logout_flow_active ss) eqn:F; destruct ev; cbn [fst snd]; auto.
      right. right. exists (admin_op c).
      split; [now apply entitled_admin | reflexivity].
    + destruct (String.eqb (role ss) "Doctor") eqn:RD; [|cbn; auto].
      unfold show_doctor_dashboard.
      destruct (logout_flow_doctor ss) eqn:F; destruct ev; cbn [fst snd]; auto.
      right. right. exists (doctor_op sid (username ss) c).
      split; [now apply entitled_doctor | reflexivity].
  - unfold show_auth_page. destruct ev; cbn [fst snd]; auto.
    + right. right. exists (Register today name mobile dob reason).
      split; [exact L | reflexivity].
    + destruct (login_form_offers role0 username0); cbn [fst snd]; auto.
Qed.

Lemma seeded_again w :
  set_db (set_db w (init_db (db w))) (init_db (db (set_db w (init_db (db w))))) =
  set_db w (init_db (db w)).
Proof. cbn [db set_db]. now rewrite init_db_twice. Qed.

Lemma clear_session_seeded sid w :
  set_db (clear_session sid (set_db w (init_db (db w))))
    (init_db (db (clear_session sid (set_db w (init_db (db w)))))) =
  clear_session sid (set_db w (init_db (db w))).
Proof.
  unfold clear_session. cbn [db set_db set_session_state session_state
                               assignment_date_default].
  now rewrite init_db_twice.
Qed.

(** X30. Logging out takes a confirmation and forgets the session.
    While the question is on the screen no page is drawn, so nothing but
    Yes and No has any effect.  Yes deletes every key of this session,
    the login and its pending completion confirmations, and leaves the
    tables and the flags of other sessions alone; on the next run the
    admin and doctor buttons do not exist.  No puts the pages back, with
    the login as it was. *)
Theorem X30_logout (checkpw : string -> User -> bool) sid ss w :
  login_status ss = true ->
  (role ss = "Admin" /\ logout_flow_active ss = true) \/
  (role ss = "Doctor" /\ logout_flow_doctor ss = true) ->
  let w0 := set_db w (init_db (db w)) in
  let w1 := clear_session sid w0 in
  let back := fst (fst (main checkpw sid ss w EvLogoutNo)) in
  (forall ev, ev <> EvLogoutYes -> ev <> EvLogoutNo ->
              main checkpw sid ss w ev = (ss, w0, NotRendered)) /\
  main checkpw sid ss w EvLogoutYes = (no_keys, w1, NoMessage) /\
  db w1 = init_db (db w) /\
  (forall k, In k (session_state w1) <-> In k (session_state w) /\ fst k <> sid) /\
  (forall c, main checkpw sid no_keys w1 (EvAdmin c) = (no_keys, w1, NotRendered)) /\
  (forall c, main checkpw sid no_keys w1 (EvDoctor c) = (no_keys, w1, NotRendered)) /\
  main checkpw sid ss w EvLogoutNo = (back, w0, NoMessage) /\
  login_status back = true /\ username back = username ss /\ role back = role ss /\
  (role ss = "Admin" ->
   forall c, main checkpw sid back w0 (EvAdmin c) =
             (back, fst (step w0 (admin_op c)), snd (step w0 (admin_op c)))) /\
  (role ss = "Doctor" ->
   forall c, main checkpw sid back w0 (EvDoctor c) =
             (back, fst (step w0 (doctor_op sid (username ss) c)),
              snd (step w0 (doctor_op sid (username ss) c)))).
Proof.
  intros L H. cbv zeta.
  pose proof (seeded_again w) as S0.
  pose proof (clear_session_seeded sid w) as S1.
  assert (K : forall k, In k (session_state (clear_session sid
                                               (set_db w (init_db (db w))))) <->
                        In k (session_state w) /\ fst k <> sid).
  { intros k. unfold clear_session. cbn [session_state set_session_state set_db].
    rewrite filter_In, negb_true_iff, Nat.eqb_neq. tauto. }
  destruct ss as [l u r fa fd]. cbn [login_status role logout_flow_active
                                      logout_flow_doctor username] in *.
  subst l.
  destruct H as [[-> ->] | [-> ->]].
  - unfold main at 1 2 3 4 5 6. cbn [login_status role negb String.eqb N.eqb
                             Pos.eqb andb].
    repeat split; try reflexivity; try apply K; try tauto.
    + intros ev N1 N2. now destruct ev.
    + intros c. unfold main. cbn [login_status negb]. rewrite S1. reflexivity.
    + intros c. unfold main. cbn [login_status negb]. rewrite S1. reflexivity.
    + intros _ c. unfold main. rewrite S0. reflexivity.
    + discriminate.
  - unfold main at 1 2 3 4 5 6. cbn [login_status role negb String.eqb N.eqb
                             Pos.eqb andb].
    repeat split; try reflexivity; try apply K; try tauto.
    + intros ev N1 N2. now destruct ev.
    + intros c. unfold main. cbn [login_status negb]. rewrite S1. reflexivity.
    + intros c. unfold main. cbn [login_status negb]. rewrite S1. reflexivity.
    + discriminate.
    + intros _ c. unfold main. rewrite S0. reflexivity.
Qed.

Lemma X30_logout_witness :
  main (fun password _ => String.eqb password "Admin@123") 0
    (mkSession true "admin" "Admin" true false) sample_world EvLogoutYes =
  (no_keys,
   clear_session 0 (set_db sample_world (init_db (db sample_world))), NoMessage).
Proof.
  refine (proj1 (proj2 (X30_logout (fun password _ => String.eqb password "Admin@123")
                          0%nat (mkSession true "admin" "Admin" true false)
                          sample_world eq_refl _))).
  left. split; reflexivity.
Defined.
